(** * download_wheels.py: offline wheel download driver

    A shallow embedding of [download_wheels.py] and the properties of its
    strategy generator, requirement reader, fetch-attempt driver and
    top-level run.

    Conventions of the embedding.
    - A Python [str] is a [string]; a character stands for a code point
      below 256, which covers every character the program inspects.
    - [time.perf_counter()] readings are exact integers (clock ticks):
      only the recording of durations matters here, not float rounding.
    - The operating system, the file system and [pip] are an oracle
      ([World]) queried at the instant of each interaction.
    - Log records and file writes are collected in an ordered trace of
      structured events, one constructor per call site of the source. *)

From Stdlib Require Import String Ascii List ZArith Bool Arith Lia.
Import ListNotations.
Local Open Scope string_scope.
Local Open Scope list_scope.
Local Open Scope nat_scope.

Infix "+++" := String.append (at level 60, right associativity).

(** ** Python string operations used by the program *)

Module PyStr.

(** [sub in s] *)
Fixpoint contains (sub s : string) : bool :=
  String.prefix sub s
  || match s with
     | EmptyString => false
     | String _ t => contains sub t
     end.

(** [s.startswith(p)] and [s.startswith((p1, p2, ...))] *)
Definition startswith (p s : string) : bool := String.prefix p s.

Definition startswith_any (ps : list string) (s : string) : bool :=
  existsb (fun p => startswith p s) ps.

(** [s.replace(old, new)]: left to right, non-overlapping occurrences.
    [skip] counts the characters of a matched occurrence still to be
    dropped. With an empty [old], Python inserts [new] before every
    character and at the end. *)
Fixpoint replace_from (old new : string) (skip : nat) (s : string) : string :=
  match s with
  | EmptyString => EmptyString
  | String c t =>
      match skip with
      | S k => replace_from old new k t
      | O =>
          if String.prefix old s
          then new +++ replace_from old new (String.length old - 1) t
          else String c (replace_from old new 0 t)
      end
  end.

Fixpoint intersperse_all (new s : string) : string :=
  match s with
  | EmptyString => new
  | String c t => new +++ String c (intersperse_all new t)
  end.

Definition replace (old new s : string) : string :=
  match old with
  | EmptyString => intersperse_all new s
  | _ => replace_from old new 0 s
  end.

(** [str.isspace] on the code points below 256: TAB, LF, VT, FF, CR,
    FS, GS, RS, US, SPACE, NEL (0x85) and NBSP (0xA0). *)
Definition isspace (c : ascii) : bool :=
  let n := nat_of_ascii c in
  ((9 <=? n) && (n <=? 13)) || ((28 <=? n) && (n <=? 32))
  || (n =? 133) || (n =? 160).

Fixpoint lstrip (s : string) : string :=
  match s with
  | EmptyString => EmptyString
  | String c t => if isspace c then lstrip t else s
  end.

Fixpoint rstrip (s : string) : string :=
  match s with
  | EmptyString => EmptyString
  | String c t =>
      match rstrip t with
      | EmptyString => if isspace c then EmptyString else String c EmptyString
      | r => String c r
      end
  end.

(** [s.strip()] *)
Definition strip (s : string) : string := rstrip (lstrip s).

(** [s.split(sep, 1)[0]]: the text before the first occurrence of a
    non-empty [sep], or all of [s] when there is none. *)
Fixpoint before_first (sep s : string) : string :=
  if String.prefix sep s then EmptyString
  else match s with
       | EmptyString => EmptyString
       | String c t => String c (before_first sep t)
       end.

(** [s.split()]: the maximal runs of non-whitespace characters.
    [cur] is the word being read, in reverse. *)
Definition rev_string (s : string) : string :=
  string_of_list_ascii (rev (list_ascii_of_string s)).

Definition flush (cur : string) : list string :=
  match cur with
  | EmptyString => []
  | _ => [rev_string cur]
  end.

Fixpoint split_from (cur s : string) : list string :=
  match s with
  | EmptyString => flush cur
  | String c t =>
      if isspace c then flush cur ++ split_from EmptyString t
      else split_from (String c cur) t
  end.

Definition split (s : string) : list string := split_from EmptyString s.

(** [s.lower()] on the code points below 256: A-Z and the Latin-1
    capitals 0xC0-0xDE except the multiplication sign 0xD7. *)
Definition lower_char (c : ascii) : ascii :=
  let n := nat_of_ascii c in
  if ((65 <=? n) && (n <=? 90))
     || ((192 <=? n) && (n <=? 222) && negb (n =? 215))
  then ascii_of_nat (n + 32) else c.

Fixpoint lower (s : string) : string :=
  match s with
  | EmptyString => EmptyString
  | String c t => String (lower_char c) (lower t)
  end.

(** The characters of a string, to state properties character-wise. *)
Definition chars (s : string) : list ascii := list_ascii_of_string s.

Fixpoint filter_chars (keep : ascii -> bool) (s : string) : string :=
  match s with
  | EmptyString => EmptyString
  | String c t =>
      if keep c then String c (filter_chars keep t) else filter_chars keep t
  end.

Fixpoint take_while (keep : ascii -> bool) (s : string) : string :=
  match s with
  | EmptyString => EmptyString
  | String c t => if keep c then String c (take_while keep t) else EmptyString
  end.

Definition in_class (cls : string) (c : ascii) : bool :=
  existsb (Ascii.eqb c) (chars cls).

(** [re.split(r'[cls]', s)[0]]: the text before the first character of
    the class. *)
Definition re_split_head (cls s : string) : string :=
  take_while (fun c => negb (in_class cls c)) s.

(** The class [a-zA-Z0-9_-] of the sanitising pattern. *)
Definition is_name_char (c : ascii) : bool :=
  let n := nat_of_ascii c in
  ((97 <=? n) && (n <=? 122)) || ((65 <=? n) && (n <=? 90))
  || ((48 <=? n) && (n <=? 57)) || (n =? 95) || (n =? 45).

(** [re.sub(r'[^a-zA-Z0-9_-]', '', s)] *)
Definition re_sub_non_name (s : string) : string := filter_chars is_name_char s.

End PyStr.

(** ** Strategy generation (download_package_with_deps, lines 130-175) *)

Definition Strategy := list string.

(** Lines 147-155: the interpreter-specific ABI tag of a version token. *)
Definition abi_specific_of (var_python_version : string) : string :=
  if PyStr.contains "." var_python_version then
    "cp" +++ PyStr.replace "." "" var_python_version
  else if String.length var_python_version =? 1 then
    "abi" +++ var_python_version
  else
    "cp" +++ var_python_version.

(** The derivation as the specification words it: whether the token
    holds the separator character, and the token without it. *)
Module AbiSpec.

Definition separator : ascii := ".".

Definition has_separator (token : string) : Prop :=
  In separator (PyStr.chars token).

Definition without_separator (token : string) : string :=
  PyStr.filter_chars (fun c => negb (Ascii.eqb c separator)) token.

End AbiSpec.

(** Line 157. *)
Definition specific_abis_of (var_python_version : string) : list string :=
  ["none"; abi_specific_of var_python_version].

(** Line 163: the pairing that is skipped. *)
Definition invalid_combination (var_implementation var_abi : string) : bool :=
  (var_implementation =? "py")%string
  && PyStr.startswith_any ["cp"; "abi"] var_abi.

(** Line 170. *)
Definition make_strategy (var_platform var_python_version var_abi
                          var_implementation var_binary_type : string) : Strategy :=
  ["--platform"; var_platform; "--python-version"; var_python_version;
   "--abi"; var_abi; "--implementation"; var_implementation; var_binary_type].

(** Lines 142-171: the nested loops append in iteration order. *)
Definition enumerate_combinations
    (var_platforms var_python_versions var_implementations var_binary_types : list string)
    : list Strategy :=
  flat_map (fun var_platform =>
    flat_map (fun var_python_version =>
      flat_map (fun var_abi =>
        flat_map (fun var_implementation =>
          if invalid_combination var_implementation var_abi then []
          else map (make_strategy var_platform var_python_version var_abi
                                  var_implementation)
                   var_binary_types)
          var_implementations)
        (specific_abis_of var_python_version))
      var_python_versions)
    var_platforms.

(** Line 174: the environment-default strategy (the empty list) is
    appended after the loops. *)
Definition build_strategies
    (var_platforms var_python_versions var_implementations var_binary_types : list string)
    : list Strategy :=
  enumerate_combinations var_platforms var_python_versions
                         var_implementations var_binary_types
  ++ [[]].

(** Lines 131-137: the configuration constants. *)
Definition TARGET_PLATFORM_ALT : string := "win_amd64".
Definition var_platforms : list string := ["any"; TARGET_PLATFORM_ALT].
Definition var_python_versions : list string :=
  ["3.13"; "3.12"; "3.11"; "3"; "3.14"; "3.15"; "3.16"].
Definition var_implementations : list string := ["cp"; "py"].
Definition var_binary_types : list string := ["--only-binary=:all:"].

Definition download_strategies : list Strategy :=
  build_strategies var_platforms var_python_versions
                   var_implementations var_binary_types.

Definition total_attempts : nat := List.length download_strategies.

(** ** Requirement source (main, lines 310-321) *)

Definition LF : ascii := ascii_of_nat 10.
Definition CR : ascii := ascii_of_nat 13.
Definition nl : string := String LF EmptyString.

(** [f.readlines()] of a text-mode file with universal newlines: a line
    ends at LF, CR LF or a lone CR, each read as LF; the last line may
    lack its terminator. [cur] is the line being read, in reverse. *)
Fixpoint readlines_from (cur s : string) : list string :=
  match s with
  | EmptyString => PyStr.flush cur
  | String c t =>
      if Ascii.eqb c LF then
        PyStr.rev_string (String LF cur) :: readlines_from EmptyString t
      else if Ascii.eqb c CR then
        match t with
        | String c' t' =>
            if Ascii.eqb c' LF
            then PyStr.rev_string (String LF cur) :: readlines_from EmptyString t'
            else PyStr.rev_string (String LF cur) :: readlines_from EmptyString t
        | EmptyString => PyStr.rev_string (String LF cur) :: readlines_from EmptyString t
        end
      else readlines_from (String c cur) t
  end.

Definition readlines (text : string) : list string :=
  readlines_from EmptyString text.

Definition is_empty (s : string) : bool :=
  match s with EmptyString => true | _ => false end.

(** Lines 315-320, one iteration: [None] is [continue], [Some p] is the
    specifier appended to [valid_package_lines]. *)
Definition filter_line (line : string) : option string :=
  let package_spec := PyStr.strip line in
  if is_empty package_spec || PyStr.startswith "#" package_spec then None
  else
    let package_spec :=
      if PyStr.contains " #" package_spec
      then PyStr.strip (PyStr.before_first " #" package_spec)
      else package_spec in
    if is_empty package_spec then None
    else if PyStr.startswith_any ["-"; "--"] package_spec then None
    else Some package_spec.

(** Lines 314-321: the loop, appending to [valid_package_lines]. *)
Fixpoint collect_valid (lines valid_package_lines : list string) : list string :=
  match lines with
  | [] => valid_package_lines
  | line :: rest =>
      match filter_line line with
      | None => collect_valid rest valid_package_lines
      | Some package_spec =>
          collect_valid rest (valid_package_lines ++ [package_spec])
      end
  end.

Definition read_requirements (text : string) : list string :=
  collect_valid (readlines text) [].

(** The filter as the specification words it: six rules applied in
    order to the sequence of raw lines. *)
Module RequirementSourceSpec.

Definition trimmed (lines : list string) : list string :=
  map PyStr.strip lines.

Definition non_empty (lines : list string) : list string :=
  filter (fun l => negb (is_empty l)) lines.

Definition not_comment (lines : list string) : list string :=
  filter (fun l => negb (PyStr.startswith "#" l)) lines.

Definition truncate_inline_comment (l : string) : string :=
  if PyStr.contains " #" l then PyStr.strip (PyStr.before_first " #" l) else l.

Definition not_option (lines : list string) : list string :=
  filter (fun l => negb (PyStr.startswith "-" l)) lines.

Definition surviving (lines : list string) : list string :=
  not_option
    (non_empty
       (map truncate_inline_comment
            (not_comment (non_empty (trimmed lines))))).

End RequirementSourceSpec.

(** ** The outside world *)

(** What [subprocess.run(command, ..., check=False)] does (line 77). *)
Inductive PipRun :=
| Completed (returncode : Z) (stdout stderr : string)
| RaisedFileNotFound
| RaisedOther.

(** What a [with open(path, mode) as f: f.write(..) ...] block meets:
    [open] raises, or the first [k] calls of [f.write] complete and the
    next one, if any, raises [IOError]. *)
Inductive WriteOutcome :=
| OpenFails
| WritesUntil (k : nat).

(** What [open(path, 'r', encoding='utf-8')] followed by [readlines]
    meets: the decoded text, an [IOError], or an exception that the
    handler of line 322 does not catch (a decoding error). *)
Inductive ReadOutcome :=
| ReadOk (text : string)
| ReadIOError
| ReadRaises.

(** The environment, asked at instant [t] (the number of interactions
    made so far). [false] and [None] stand for a raised exception in
    [os_makedirs], [shutil_copy2] and [os_listdir]. *)
Record World := {
  perf_counter : nat -> Z;
  os_path_join : string -> string -> string;
  os_path_abspath : string -> string;
  os_path_isfile : nat -> string -> bool;
  os_path_isdir : nat -> string -> bool;
  os_makedirs : nat -> string -> bool;
  os_listdir : nat -> string -> option (list string);
  shutil_copy2 : nat -> string -> string -> bool;
  subprocess_run : nat -> list string -> PipRun;
  open_write : nat -> string -> WriteOutcome;
  open_read : nat -> string -> ReadOutcome
}.

(** ** Log records and effects *)

Inductive Level := DEBUG | INFO | WARNING | ERROR.

Inductive Mode := ModeW | ModeA.

(** A progress counter, printed as [[i/total]]. *)
Definition Progress := (nat * nat)%type.

(** [attempt_desc] (line 205). *)
Record AttemptDesc := {
  desc_package : Progress;
  desc_name : string;
  desc_attempt : Progress
}.

(** One constructor per logging call of the source, with the values the
    message is formatted from. *)
Inductive Msg :=
(* run_pip_download_deps *)
| MsgEnsuredSubdir (package_subdir : string)
| MsgSubdirFailed (package_subdir : string)
| MsgFullCommand (d : AttemptDesc) (command : list string)
| MsgPipExitedCleanly (d : AttemptDesc) (package_spec : string)
| MsgPipCommandFailed (d : AttemptDesc) (package_spec : string)
                      (returncode : Z) (stderr_msg stdout_msg : string)
| MsgCannotFindPip (d : AttemptDesc)
| MsgPipUnexpectedError (d : AttemptDesc) (package_spec : string)
| MsgPipCallDuration (d : AttemptDesc) (elapsed_pip : Z)
(* download_package_with_deps *)
| MsgProcessing (p : Progress) (name package_spec : string)
| MsgAttempt (p a : Progress) (strategy : Strategy)
| MsgAttemptSucceeded (p a : Progress) (spec_for_pip : string) (strategy : Strategy)
| MsgInstructionFailed (package_spec : string)
| MsgCopying (p : Progress) (src_dir dst_dir : string)
| MsgCopyingItem (src_item dst_item : string)
| MsgCopySourceMissing (p : Progress) (src_dir : string)
| MsgCopyError (p : Progress) (src_dir dst_dir : string)
| MsgFirstSuccessStop (p : Progress) (name : string)
| MsgAttemptFailed (p a : Progress) (spec_for_pip : string) (strategy : Strategy)
| MsgPackageDone (p : Progress) (name : string) (attempt_success_count : nat)
| MsgPackageFailed (p : Progress) (name : string) (total_attempts : nat)
(* main *)
| MsgDebugEnabled
| MsgRequirementsNotFound (requirements_file : string)
| MsgUsingBase (path : string)
| MsgBaseFailed (download_dir : string)
| MsgReadFailed (requirements_file : string)
| MsgNoValidSpecs (requirements_file : string)
| MsgFound (total : nat) (requirements_file : string)
| MsgStarting
| MsgRule
| MsgBatInitFailed
| MsgPackageRule
| MsgBatFinalizeFailed
| MsgFinished
| MsgProcessed (processed_count total : nat) (requirements_file : string)
| MsgSucceededCount (n : nat)
| MsgFailedCount (n : nat)
| MsgFailedPackage (pkg : string)
| MsgOfflineWillFail
| MsgOrganized (path : string)
| MsgReview
| MsgTimingHeader
| MsgTotalCalls (n : nat)
| MsgTotalTime (total_time_pip : Z)
| MsgMinTime (min_time : Z)
| MsgMaxTime (max_time : Z)
| MsgAvgTime (total_time_pip : Z) (calls : nat)
| MsgNoCalls
| MsgScriptFinished (minutes seconds : Z).

(** What the run does and reports, in order. A read of the clock or of
    the file system leaves no event. *)
Inductive Event :=
| EvLog (lvl : Level) (msg : Msg)
| EvMakedirs (path : string) (ok : bool)
| EvPip (command : list string) (result : PipRun)
| EvFile (path : string) (mode : Mode) (chunks : list string) (outcome : WriteOutcome)
| EvCopy (src dst : string) (ok : bool).

(** ** Program state *)

(** [now]: instant of the next interaction with the world.
    [pip_call_times]: the global list of line 19.
    [debug_enabled]: whether the root logger passes DEBUG records.
    [strategy_builds]: ghost counter of the executions of the
    strategy-building block (lines 142-175). *)
Record State := {
  now : nat;
  pip_call_times : list Z;
  debug_enabled : bool;
  strategy_builds : nat
}.

(** At start-up the list is empty and the logger is at INFO (line 23). *)
Definition initial_state : State :=
  {| now := 0; pip_call_times := []; debug_enabled := false; strategy_builds := 0 |}.

(** A computation returns its value, the new state and the events it
    produced. *)
Definition M (A : Type) : Type := State -> A * State * list Event.

Definition ret {A} (a : A) : M A := fun s => (a, s, []).

Definition bind {A B} (m : M A) (f : A -> M B) : M B :=
  fun s =>
    let '(a, s1, e1) := m s in
    let '(b, s2, e2) := f a s1 in
    (b, s2, e1 ++ e2).

Notation "x <- c1 ;; c2" := (bind c1 (fun x => c2))
  (at level 61, c1 at next level, right associativity).
Notation "c1 ;; c2" := (bind c1 (fun _ => c2))
  (at level 61, right associativity).

Definition value_of {A} (r : A * State * list Event) : A := fst (fst r).
Definition state_of {A} (r : A * State * list Event) : State := snd (fst r).
Definition events_of {A} (r : A * State * list Event) : list Event := snd r.

(** One interaction with the world. *)
Definition ask {A} (q : nat -> A) : M A :=
  fun s =>
    (q (now s),
     {| now := S (now s); pip_call_times := pip_call_times s;
        debug_enabled := debug_enabled s; strategy_builds := strategy_builds s |},
     []).

Definition emit (e : Event) : M unit := fun s => (tt, s, [e]).

Definition visible (debug : bool) (lvl : Level) : bool :=
  match lvl with DEBUG => debug | _ => true end.

Definition log (lvl : Level) (msg : Msg) : M unit :=
  fun s => (tt, s, if visible (debug_enabled s) lvl then [EvLog lvl msg] else []).

Definition append_pip_call_time (elapsed : Z) : M unit :=
  fun s =>
    (tt,
     {| now := now s; pip_call_times := pip_call_times s ++ [elapsed];
        debug_enabled := debug_enabled s; strategy_builds := strategy_builds s |},
     []).

Definition reset_pip_call_times : M unit :=
  fun s =>
    (tt,
     {| now := now s; pip_call_times := [];
        debug_enabled := debug_enabled s; strategy_builds := strategy_builds s |},
     []).

Definition get_pip_call_times : M (list Z) := fun s => (pip_call_times s, s, []).

Definition enable_debug : M unit :=
  fun s =>
    (tt,
     {| now := now s; pip_call_times := pip_call_times s;
        debug_enabled := true; strategy_builds := strategy_builds s |},
     []).

Definition count_strategy_build : M unit :=
  fun s =>
    (tt,
     {| now := now s; pip_call_times := pip_call_times s;
        debug_enabled := debug_enabled s; strategy_builds := S (strategy_builds s) |},
     []).

(** ** The program *)

Definition dquote : string := String (ascii_of_nat 34) EmptyString.
Definition backslash : string := String (ascii_of_nat 92) EmptyString.

Definition BAT : string := "installation-instructions.bat".
Definition DEFAULT_REQ_FILE : string := "requirements.txt".
Definition DEFAULT_DOWNLOAD_DIR : string := "wheels_offline".

(** Lines 139-140. *)
Record Policy := {
  DOWNLOAD_ALL_VERSIONS : bool;
  COPY_FIRST_SET_TO_PARENT_DIRECTORY : bool
}.

Definition source_policy : Policy :=
  {| DOWNLOAD_ALL_VERSIONS := true; COPY_FIRST_SET_TO_PARENT_DIRECTORY := false |}.

(** Line 201, and [dict.get(key, default)]. *)
Definition known_dependencies : list (string * string) :=
  [("pyautogui", "pyautogui setuptools wheel")].

Fixpoint dict_get (d : list (string * string)) (key default : string) : string :=
  match d with
  | [] => default
  | (k, v) :: rest => if (k =? key)%string then v else dict_get rest key default
  end.

(** Line 123. *)
Definition bare_name (package_spec : string) : string :=
  PyStr.strip (PyStr.re_split_head "<>=!~" package_spec).

(** Lines 230-231: the two chunks of one install instruction. *)
Definition install_instruction (package_subdir_path package_spec : string) : list string :=
  [ "REM Install '" +++ package_spec +++ "' (Original requirement)" +++ nl;
    "pip install --no-index --find-links " +++ dquote +++ "." +++ backslash
      +++ package_subdir_path +++ dquote +++ " " +++ dquote +++ package_spec
      +++ dquote +++ nl +++ nl ].

(** Lines 339-355 and 376-386. *)
Definition bat_header (base : string) : list string :=
  [ "@echo off" +++ nl;
    "REM Auto-generated batch file for offline installation" +++ nl;
    "REM Base wheel directory: " +++ base +++ nl;
    "echo." +++ nl;
    "REM --- Optional: Create and activate a virtual environment --- " +++ nl;
    "REM python -m venv my_offline_env" +++ nl;
    "REM call my_offline_env" +++ backslash +++ "Scripts" +++ backslash +++ "activate" +++ nl;
    "echo." +++ nl;
    "echo Checking pip version and compatible tags..." +++ nl;
    "pip --version" +++ nl;
    "pip debug --verbose" +++ nl;
    "echo." +++ nl;
    "echo Listing packages before installation..." +++ nl;
    "pip list" +++ nl;
    "echo ============================================================" +++ nl;
    "echo Starting installations..." +++ nl;
    "echo." +++ nl ].

Definition bat_footer : list string :=
  [ "echo." +++ nl;
    "echo ============================================================" +++ nl;
    "echo Installation commands executed." +++ nl;
    "echo Listing packages after installation..." +++ nl;
    "pip list" +++ nl;
    "echo ============================================================" +++ nl;
    "REM --- Optional: Deactivate virtual environment ---" +++ nl;
    "REM call deactivate" +++ nl;
    "echo." +++ nl;
    "echo Script finished. Closing in 500 seconds..." +++ nl;
    "timeout /t 500 /nobreak > nul" +++ nl ].

(** The loop variables of lines 125-128. *)
Record LoopVars := {
  download_success : bool;
  attempt : nat;
  attempt_success_count : nat
}.

Record Args := {
  requirements : string;
  dest : string;
  verbose : bool
}.

Definition Zmin_list (l : list Z) : Z :=
  match l with [] => 0%Z | x :: r => fold_left Z.min r x end.
Definition Zmax_list (l : list Z) : Z :=
  match l with [] => 0%Z | x :: r => fold_left Z.max r x end.
Definition Zsum_list (l : list Z) : Z := fold_left Z.add l 0%Z.

Section Program.

Variable w : World.

(** A [with open(path, mode) as f] block making the given writes;
    returns whether it completed without [IOError]. *)
Definition write_file (path : string) (mode : Mode) (chunks : list string) : M bool :=
  o <- ask (fun t => open_write w t path) ;;
  emit (EvFile path mode chunks o) ;;
  ret match o with
      | OpenFails => false
      | WritesUntil k => List.length chunks <=? k
      end.

(** Lines 28-106. *)
Definition run_pip_download_deps
    (package_spec original_package_name download_dir : string)
    (attempt_desc : AttemptDesc) (extra_args : Strategy) : M bool :=
  start_time_pip <- ask (perf_counter w) ;;
  let sanitized_package_name := PyStr.re_sub_non_name original_package_name in
  let package_subdir := os_path_join w download_dir sanitized_package_name in
  made <- ask (fun t => os_makedirs w t package_subdir) ;;
  emit (EvMakedirs package_subdir made) ;;
  if negb made then
    log ERROR (MsgSubdirFailed package_subdir) ;;
    ret false
  else
    log DEBUG (MsgEnsuredSubdir package_subdir) ;;
    let base_command :=
      ["pip"; "download"; "--dest"; package_subdir; "--disable-pip-version-check"] in
    let package_spec_list := PyStr.split package_spec in
    let command := base_command ++ extra_args ++ package_spec_list in
    log DEBUG (MsgFullCommand attempt_desc command) ;;
    result <- ask (fun t => subprocess_run w t command) ;;
    emit (EvPip command result) ;;
    success <-
      match result with
      | Completed returncode stdout stderr =>
          if (returncode =? 0)%Z then
            log DEBUG (MsgPipExitedCleanly attempt_desc package_spec) ;;
            ret true
          else
            let stderr_msg :=
              if is_empty stderr then "(No stderr output)"
              else PyStr.replace nl " " (PyStr.strip stderr) in
            let stdout_msg :=
              if is_empty stdout then ""
              else nl +++ "    Pip stdout (on error):" +++ nl +++ PyStr.strip stdout in
            log WARNING (MsgPipCommandFailed attempt_desc package_spec
                                             returncode stderr_msg stdout_msg) ;;
            ret false
      | RaisedFileNotFound =>
          log ERROR (MsgCannotFindPip attempt_desc) ;;
          ret false
      | RaisedOther =>
          log ERROR (MsgPipUnexpectedError attempt_desc package_spec) ;;
          ret false
      end ;;
    end_time_pip <- ask (perf_counter w) ;;
    let elapsed_pip := (end_time_pip - start_time_pip)%Z in
    append_pip_call_time elapsed_pip ;;
    log DEBUG (MsgPipCallDuration attempt_desc elapsed_pip) ;;
    ret success.

(** Lines 243-248: the copy loop; [false] when an exception left it. *)
Fixpoint copy_items (src_dir dst_dir : string) (items : list string) : M bool :=
  match items with
  | [] => ret true
  | item_name :: rest =>
      let src_item := os_path_join w src_dir item_name in
      let dst_item := os_path_join w dst_dir item_name in
      regular <- ask (fun t => os_path_isfile w t src_item) ;;
      if regular then
        log DEBUG (MsgCopyingItem src_item dst_item) ;;
        copied <- ask (fun t => shutil_copy2 w t src_item dst_item) ;;
        emit (EvCopy src_item dst_item copied) ;;
        if copied then copy_items src_dir dst_dir rest else ret false
      else copy_items src_dir dst_dir rest
  end.

(** Lines 223-252: the actions on the first success. *)
Definition first_success_actions (pol : Policy)
    (package_spec download_dir original_package_name_only : string)
    (package_progress : Progress) : M unit :=
  let sanitized_original_package_name :=
    PyStr.re_sub_non_name original_package_name_only in
  let package_subdir_path :=
    os_path_join w download_dir sanitized_original_package_name in
  written <- write_file BAT ModeA (install_instruction package_subdir_path package_spec) ;;
  (if written then ret tt else log ERROR (MsgInstructionFailed package_spec)) ;;
  if COPY_FIRST_SET_TO_PARENT_DIRECTORY pol then
    let src_dir := package_subdir_path in
    let dst_dir := download_dir in
    log INFO (MsgCopying package_progress src_dir dst_dir) ;;
    present <- ask (fun t => os_path_isdir w t src_dir) ;;
    if present then
      listing <- ask (fun t => os_listdir w t src_dir) ;;
      match listing with
      | None => log ERROR (MsgCopyError package_progress src_dir dst_dir)
      | Some items =>
          done <- copy_items src_dir dst_dir items ;;
          if done then ret tt
          else log ERROR (MsgCopyError package_progress src_dir dst_dir)
      end
    else log WARNING (MsgCopySourceMissing package_progress src_dir)
  else ret tt.

(** Lines 191-260: the loop over the strategies. An iteration whose
    guard (line 193) is false does nothing; [break] (line 257) leaves
    the remaining strategies unvisited. *)
Fixpoint strategy_loop (pol : Policy)
    (package_spec download_dir original_package_name_only : string)
    (package_progress : Progress) (total : nat)
    (strategies : list Strategy) (v : LoopVars) : M LoopVars :=
  match strategies with
  | [] => ret v
  | strategy :: rest =>
      if negb (download_success v) || DOWNLOAD_ALL_VERSIONS pol then
        let attempt' := S (attempt v) in
        let attempt_progress := (attempt', total) in
        log INFO (MsgAttempt package_progress attempt_progress strategy) ;;
        let spec_for_pip :=
          dict_get known_dependencies (PyStr.lower original_package_name_only)
                   package_spec in
        let detailed_attempt_desc :=
          {| desc_package := package_progress;
             desc_name := original_package_name_only;
             desc_attempt := attempt_progress |} in
        success <- run_pip_download_deps spec_for_pip original_package_name_only
                     download_dir detailed_attempt_desc strategy ;;
        if success then
          let count' := S (attempt_success_count v) in
          log INFO (MsgAttemptSucceeded package_progress attempt_progress
                                        spec_for_pip strategy) ;;
          (if count' =? 1 then
             first_success_actions pol package_spec download_dir
                                   original_package_name_only package_progress
           else ret tt) ;;
          let v' := {| download_success := true; attempt := attempt';
                       attempt_success_count := count' |} in
          if negb (DOWNLOAD_ALL_VERSIONS pol) then
            log INFO (MsgFirstSuccessStop package_progress original_package_name_only) ;;
            ret v'
          else
            strategy_loop pol package_spec download_dir original_package_name_only
                          package_progress total rest v'
        else
          log WARNING (MsgAttemptFailed package_progress attempt_progress
                                        spec_for_pip strategy) ;;
          strategy_loop pol package_spec download_dir original_package_name_only
                        package_progress total rest
                        {| download_success := download_success v;
                           attempt := attempt';
                           attempt_success_count := attempt_success_count v |}
      else
        strategy_loop pol package_spec download_dir original_package_name_only
                      package_progress total rest v
  end.

Definition loop_start : LoopVars :=
  {| download_success := false; attempt := 0; attempt_success_count := 0 |}.

(** Lines 110-269, for a given policy. *)
Definition download_package_with_deps_under (pol : Policy)
    (package_spec download_dir : string) (package_progress : Progress) : M bool :=
  let original_package_name_only := bare_name package_spec in
  log INFO (MsgProcessing package_progress original_package_name_only package_spec) ;;
  count_strategy_build ;;
  let strategies := download_strategies in
  let total := List.length strategies in
  v <- strategy_loop pol package_spec download_dir original_package_name_only
         package_progress total strategies loop_start ;;
  (if download_success v then
     log INFO (MsgPackageDone package_progress original_package_name_only
                              (attempt_success_count v))
   else
     log ERROR (MsgPackageFailed package_progress original_package_name_only total)) ;;
  ret (download_success v).

(** The function as the source has it, with the constants of lines 139-140. *)
Definition download_package_with_deps :=
  download_package_with_deps_under source_policy.

(** Lines 361-371. *)
Fixpoint process_packages (download_dir : string) (total_packages_to_process : nat)
    (valid_package_lines : list string)
    (processed_count : nat) (successful_packages failed_packages : list string)
    : M (nat * list string * list string) :=
  match valid_package_lines with
  | [] => ret (processed_count, successful_packages, failed_packages)
  | package_spec :: rest =>
      let processed_count := S processed_count in
      let package_progress := (processed_count, total_packages_to_process) in
      ok <- download_package_with_deps package_spec download_dir package_progress ;;
      log INFO MsgPackageRule ;;
      if ok then
        process_packages download_dir total_packages_to_process rest processed_count
                         (successful_packages ++ [package_spec]) failed_packages
      else
        process_packages download_dir total_packages_to_process rest processed_count
                         successful_packages (failed_packages ++ [package_spec])
  end.

Fixpoint log_each (lvl : Level) (msgs : list Msg) : M unit :=
  match msgs with
  | [] => ret tt
  | m :: rest => log lvl m ;; log_each lvl rest
  end.

(** Lines 326-431: the run once the requirement list is read. *)
Definition run_packages (requirements_file download_dir : string) (start_time : Z)
    (valid_package_lines : list string) : M Z :=
  let total_packages_to_process := List.length valid_package_lines in
  (if total_packages_to_process =? 0
   then log WARNING (MsgNoValidSpecs requirements_file) else ret tt) ;;
  log INFO (MsgFound total_packages_to_process requirements_file) ;;
  log INFO MsgStarting ;;
  log INFO MsgRule ;;
  opened <- write_file BAT ModeW (bat_header (os_path_abspath w download_dir)) ;;
  (if opened then ret tt else log ERROR MsgBatInitFailed) ;;
  r <- process_packages download_dir total_packages_to_process valid_package_lines
         0 [] [] ;;
  let '(processed_count, successful_packages, failed_packages) := r in
  closed <- write_file BAT ModeA bat_footer ;;
  (if closed then ret tt else log ERROR MsgBatFinalizeFailed) ;;
  log INFO MsgRule ;;
  log INFO MsgFinished ;;
  log INFO (MsgProcessed processed_count total_packages_to_process requirements_file) ;;
  log INFO (MsgSucceededCount (List.length successful_packages)) ;;
  (match failed_packages with
   | [] => ret tt
   | _ =>
       log WARNING (MsgFailedCount (List.length failed_packages)) ;;
       log_each WARNING (map MsgFailedPackage failed_packages) ;;
       log WARNING MsgOfflineWillFail
   end) ;;
  log INFO (MsgOrganized (os_path_abspath w download_dir)) ;;
  log INFO MsgReview ;;
  times <- get_pip_call_times ;;
  (match times with
   | [] => log INFO MsgNoCalls
   | _ =>
       log INFO MsgTimingHeader ;;
       log INFO (MsgTotalCalls (List.length times)) ;;
       log INFO (MsgTotalTime (Zsum_list times)) ;;
       log INFO (MsgMinTime (Zmin_list times)) ;;
       log INFO (MsgMaxTime (Zmax_list times)) ;;
       log INFO (MsgAvgTime (Zsum_list times) (List.length times))
   end) ;;
  end_time <- ask (perf_counter w) ;;
  let elapsed_seconds := (end_time - start_time)%Z in
  log INFO (MsgScriptFinished (elapsed_seconds / 60) (elapsed_seconds mod 60)) ;;
  ret 0%Z.

(** Lines 273-431, from the parsed arguments on; the value is the exit
    status of the process ([sys.exit(1)], 1 for an exception nobody
    catches, 0 when [main] returns). *)
Definition main (args : Args) : M Z :=
  reset_pip_call_times ;;
  start_time <- ask (perf_counter w) ;;
  (if verbose args then enable_debug ;; log DEBUG MsgDebugEnabled else ret tt) ;;
  let requirements_file := requirements args in
  let download_dir := dest args in
  found <- ask (fun t => os_path_isfile w t requirements_file) ;;
  if negb found then
    log ERROR (MsgRequirementsNotFound requirements_file) ;;
    ret 1%Z
  else
    made <- ask (fun t => os_makedirs w t download_dir) ;;
    emit (EvMakedirs download_dir made) ;;
    if negb made then
      log ERROR (MsgBaseFailed download_dir) ;;
      ret 1%Z
    else
      log INFO (MsgUsingBase (os_path_abspath w download_dir)) ;;
      content <- ask (fun t => open_read w t requirements_file) ;;
      match content with
      | ReadIOError =>
          log ERROR (MsgReadFailed requirements_file) ;;
          ret 1%Z
      | ReadRaises => ret 1%Z
      | ReadOk text =>
          run_packages requirements_file download_dir start_time
                       (read_requirements text)
      end.

End Program.

(** ** Observations on a trace *)

Definition count (p : Event -> bool) (evs : list Event) : nat :=
  List.length (filter p evs).

(** The record of line 198: a strategy is being attempted. *)
Definition is_attempt (e : Event) : bool :=
  match e with EvLog INFO (MsgAttempt _ _ _) => true | _ => false end.

(** The records of lines 219 and 260: the outcome of an attempt. *)
Definition is_attempt_succeeded (e : Event) : bool :=
  match e with EvLog INFO (MsgAttemptSucceeded _ _ _ _) => true | _ => false end.

Definition is_attempt_failed (e : Event) : bool :=
  match e with EvLog WARNING (MsgAttemptFailed _ _ _ _) => true | _ => false end.

Definition is_pip_call (e : Event) : bool :=
  match e with EvPip _ _ => true | _ => false end.

(** The record of line 59: the attempt stopped before calling pip. *)
Definition is_subdir_failure (e : Event) : bool :=
  match e with EvLog ERROR (MsgSubdirFailed _) => true | _ => false end.

Definition is_file_write (e : Event) : bool :=
  match e with EvFile _ _ _ _ => true | _ => false end.

(** The record of line 240: the promotion copy starts. *)
Definition is_copy_start (e : Event) : bool :=
  match e with EvLog INFO (MsgCopying _ _ _) => true | _ => false end.

Definition is_warning (e : Event) : bool :=
  match e with EvLog WARNING _ => true | _ => false end.

(** The strategies attempted, in order of attempt. *)
Definition attempted_strategies (evs : list Event) : list Strategy :=
  flat_map (fun e => match e with
                     | EvLog INFO (MsgAttempt _ _ strategy) => [strategy]
                     | _ => []
                     end) evs.

(** The strategies attempted for the requirement with a given progress
    counter. *)
Definition attempted_strategies_for (p : Progress) (evs : list Event) : list Strategy :=
  flat_map (fun e => match e with
                     | EvLog INFO (MsgAttempt (i, n) _ strategy) =>
                         if (i =? fst p) && (n =? snd p) then [strategy] else []
                     | _ => []
                     end) evs.

(** The directory a pip command downloads into: the argument after
    [--dest]. *)
Definition pip_dest (command : list string) : option string :=
  match command with
  | _ :: _ :: flag :: package_subdir :: _ =>
      if (flag =? "--dest")%string then Some package_subdir else None
  | _ => None
  end.

(** An event agrees with a destination subdirectory and a requirement
    when, being a pip call, it downloads into that subdirectory and,
    being a file write, it is the install instruction naming it. *)
Definition agrees_on_subdir (package_subdir package_spec : string) (e : Event) : Prop :=
  match e with
  | EvPip command _ => pip_dest command = Some package_subdir
  | EvFile path mode chunks _ =>
      path = BAT /\ mode = ModeA
      /\ chunks = install_instruction package_subdir package_spec
  | _ => True
  end.

(** ** Predicates on traces and states *)

(** Records that only the driver itself produces. *)
Definition no_driver_records (evs : list Event) : Prop :=
  count is_attempt evs = 0
  /\ count is_attempt_succeeded evs = 0
  /\ count is_attempt_failed evs = 0
  /\ count is_file_write evs = 0
  /\ count is_copy_start evs = 0
  /\ attempted_strategies evs = []
  /\ forall p, attempted_strategies_for p evs = [].

(** A warning that reports a failed pip command, a failed attempt or a
    missing source of the promotion copy. *)
Definition is_failure_report (e : Event) : bool :=
  match e with
  | EvLog WARNING (MsgPipCommandFailed _ _ _ _ _) => true
  | EvLog WARNING (MsgAttemptFailed _ _ _ _) => true
  | EvLog WARNING (MsgCopySourceMissing _ _) => true
  | _ => false
  end.

Definition warns_only_of_failure (e : Event) : Prop :=
  is_warning e = true -> is_failure_report e = true.

(** What is kept of the state by a computation that neither calls pip
    nor builds strategies. *)
Definition same_store (s s' : State) : Prop :=
  pip_call_times s' = pip_call_times s
  /\ strategy_builds s' = strategy_builds s
  /\ debug_enabled s' = debug_enabled s.

(** Events that belong to no attempt and to no one-time action. *)
Definition side_events (evs : list Event) : Prop :=
  no_driver_records evs
  /\ count is_pip_call evs = 0
  /\ count is_subdir_failure evs = 0
  /\ (forall subdir spec, Forall (agrees_on_subdir subdir spec) evs)
  /\ Forall warns_only_of_failure evs.

(** Events that open or close no attempt and call no pip. *)
Definition between_attempts (evs : list Event) : Prop :=
  count is_attempt evs = 0
  /\ count is_attempt_succeeded evs = 0
  /\ count is_attempt_failed evs = 0
  /\ count is_pip_call evs = 0
  /\ count is_subdir_failure evs = 0
  /\ attempted_strategies evs = []
  /\ forall q, attempted_strategies_for q evs = [].

(** The events of the one-time actions: the install instruction, then
    side events, then the promotion copy when it is enabled. *)
Definition one_time_events (pol : Policy) (package_progress : Progress)
    (package_subdir download_dir package_spec : string) (evs : list Event) : Prop :=
  exists o a b,
    evs = EvFile BAT ModeA (install_instruction package_subdir package_spec) o
          :: a ++ (if COPY_FIRST_SET_TO_PARENT_DIRECTORY pol
                   then EvLog INFO (MsgCopying package_progress package_subdir download_dir)
                        :: b
                   else [])
    /\ side_events a /\ count is_warning a = 0 /\ side_events b.

(** No attempt succeeded and no one-time action was taken. *)
Definition never_acted (evs : list Event) : Prop :=
  count is_attempt_succeeded evs = 0
  /\ count is_file_write evs = 0
  /\ count is_copy_start evs = 0.

(** The one-time actions were taken right after the first success
    record, and neither before nor later. *)
Definition acted_on_first_success (pol : Policy) (p : Progress)
    (subdir download_dir package_spec : string) (evs : list Event) : Prop :=
  exists pre a spec_for_pip strategy once later,
    evs = pre ++ EvLog INFO (MsgAttemptSucceeded p a spec_for_pip strategy)
                 :: once ++ later
    /\ never_acted pre
    /\ one_time_events pol p subdir download_dir package_spec once
    /\ count is_file_write later = 0
    /\ count is_copy_start later = 0.

Definition built (s : State) : State :=
  {| now := now s; pip_call_times := pip_call_times s;
     debug_enabled := debug_enabled s; strategy_builds := S (strategy_builds s) |}.

Definition ticked (s : State) : State :=
  {| now := S (now s); pip_call_times := pip_call_times s;
     debug_enabled := debug_enabled s; strategy_builds := strategy_builds s |}.

Definition closing_record (p : Progress) (name : string) (v : LoopVars) : Event :=
  if download_success v
  then EvLog INFO (MsgPackageDone p name (attempt_success_count v))
  else EvLog ERROR (MsgPackageFailed p name total_attempts).

(** What the three pre-run steps of [main] meet, at the instants at
    which [main] takes them. *)
Definition requirements_missing (w : World) (args : Args) (s : State) : Prop :=
  os_path_isfile w (S (now s)) (requirements args) = false.

Definition destination_uncreatable (w : World) (args : Args) (s : State) : Prop :=
  os_makedirs w (S (S (now s))) (dest args) = false.

Definition requirements_unreadable (w : World) (args : Args) (s : State) : Prop :=
  match open_read w (S (S (S (now s)))) (requirements args) with
  | ReadOk _ => False
  | _ => True
  end.

(** Every pip call of a trace downloads into the given directory. *)
Definition all_pip_calls_into (package_subdir : string) (evs : list Event) : bool :=
  forallb (fun e => match e with
                    | EvPip command _ =>
                        match pip_dest command with
                        | Some d => (d =? package_subdir)%string
                        | None => false
                        end
                    | _ => true
                    end) evs.

(** ** Observations on the pip-invocation helper *)

(** A pip call that exited with code 0. *)
Definition is_clean_pip_exit (e : Event) : bool :=
  match e with
  | EvPip _ (Completed returncode _ _) => (returncode =? 0)%Z
  | _ => false
  end.

(** A pip call that exited with another code. *)
Definition is_pip_rejection (e : Event) : bool :=
  match e with
  | EvPip _ (Completed returncode _ _) => negb (returncode =? 0)%Z
  | _ => false
  end.

Definition is_pip_not_found (e : Event) : bool :=
  match e with EvPip _ RaisedFileNotFound => true | _ => false end.

Definition is_pip_exception (e : Event) : bool :=
  match e with EvPip _ RaisedOther => true | _ => false end.

(** The records of lines 89, 92 and 98. *)
Definition is_rejection_record (e : Event) : bool :=
  match e with EvLog WARNING (MsgPipCommandFailed _ _ _ _ _) => true | _ => false end.

Definition is_not_found_record (e : Event) : bool :=
  match e with EvLog ERROR (MsgCannotFindPip _) => true | _ => false end.

Definition is_exception_record (e : Event) : bool :=
  match e with EvLog ERROR (MsgPipUnexpectedError _ _) => true | _ => false end.

(** Lines 64-71: the command of one attempt. *)
Definition pip_command (package_subdir : string) (extra_args : Strategy)
    (package_spec : string) : list string :=
  ["pip"; "download"; "--dest"; package_subdir; "--disable-pip-version-check"]
  ++ extra_args ++ PyStr.split package_spec.

(** An event of the helper is on the given subdirectory and command. *)
Definition helper_event_on (package_subdir : string) (command : list string)
    (e : Event) : Prop :=
  match e with
  | EvPip c _ => c = command
  | EvMakedirs path _ => path = package_subdir
  | EvFile _ _ _ _ => False
  | EvCopy _ _ _ => False
  | EvLog _ _ => True
  end.


(** ** Observations on a whole run *)

(** The elements of [l] whose flag in [oks] is [flag], in order. *)
Fixpoint selected (flag : bool) (oks : list bool) (l : list string) : list string :=
  match oks, l with
  | ok :: oks', x :: l' =>
      if Bool.eqb ok flag then x :: selected flag oks' l' else selected flag oks' l'
  | _, _ => []
  end.

(** The state in which [main] starts the step numbered [k] of its
    pre-run checks: the list of durations was emptied (line 275) and
    the logger passes DEBUG records if [-v] was given. *)
Definition at_step (k : nat) (args : Args) (s : State) : State :=
  {| now := k + now s; pip_call_times := [];
     debug_enabled := if verbose args then true else debug_enabled s;
     strategy_builds := strategy_builds s |}.

Definition debug_notice (args : Args) : list Event :=
  if verbose args then [EvLog DEBUG MsgDebugEnabled] else [].

(** The file writes of a trace, in order. *)
Definition file_writes (evs : list Event) : list Event := filter is_file_write evs.

(** The requirements [main] reads, as the world answers at the read. *)
Definition requirements_read (w : World) (args : Args) (s : State) : list string :=
  match open_read w (S (S (S (now s)))) (requirements args) with
  | ReadOk text => read_requirements text
  | _ => []
  end.

(** ** Properties kept along a computation *)

Definition is_debug_record (e : Event) : bool :=
  match e with EvLog DEBUG _ => true | _ => false end.

(** A trace without its DEBUG records. *)
Definition without_debug (evs : list Event) : list Event :=
  filter (fun e => negb (is_debug_record e)) evs.

(** Two states that differ at most in whether DEBUG records pass. *)
Definition same_but_debug (s s' : State) : Prop :=
  now s = now s'
  /\ pip_call_times s = pip_call_times s'
  /\ strategy_builds s = strategy_builds s'.

(** The computation does the same whether or not DEBUG records pass:
    same value, same state and same events but for the DEBUG records. *)
Definition debug_blind {A} (m : M A) : Prop :=
  forall s s',
    same_but_debug s s' ->
    value_of (m s) = value_of (m s')
    /\ same_but_debug (state_of (m s)) (state_of (m s'))
    /\ without_debug (events_of (m s)) = without_debug (events_of (m s')).

(** Started in a state of [I], the computation ends in a state of [I]
    and produces only events of [P]. *)
Definition respects {A} (I : State -> Prop) (P : Event -> Prop) (m : M A) : Prop :=
  forall s, I s -> I (state_of (m s)) /\ Forall P (events_of (m s)).

Definition debug_off (s : State) : Prop := debug_enabled s = false.

(** The arguments with [-v] given or not. *)
Definition with_verbose (v : bool) (args : Args) : Args :=
  {| requirements := requirements args; dest := dest args; verbose := v |}.

(** Line 202: what pip is asked for, for a requirement. *)
Definition spec_for_pip (package_spec : string) : string :=
  dict_get known_dependencies (PyStr.lower (bare_name package_spec)) package_spec.

(** Lines 50-52: the subdirectory of a requirement. *)
Definition package_subdir_of (w : World) (download_dir package_spec : string) : string :=
  os_path_join w download_dir (PyStr.re_sub_non_name (bare_name package_spec)).

(** What a run may do to the world: ensure the base directory and the
    subdirectory of a requirement it read, run [pip download] into such
    a subdirectory with one of the strategies, and write the batch
    file. *)
Definition effect_of_run (w : World) (download_dir : string) (valid : list string)
    (e : Event) : Prop :=
  match e with
  | EvLog _ _ => True
  | EvMakedirs path _ =>
      path = download_dir
      \/ exists r, In r valid /\ path = package_subdir_of w download_dir r
  | EvPip command _ =>
      exists r strategy,
        In r valid /\ In strategy download_strategies
        /\ command = pip_command (package_subdir_of w download_dir r) strategy
                                 (spec_for_pip r)
  | EvFile path _ _ _ => path = BAT
  | EvCopy _ _ _ => False
  end.



(** The outcome reported for a requirement against the pip calls of its
    part of the trace: it succeeded exactly when one of them exited
    with code 0. *)
Definition backed_by_clean_exit (segment : list Event) (ok : bool) : Prop :=
  ok = negb (count is_clean_pip_exit segment =? 0).

(** Every effect of this part of the trace is one of the requirement. *)
Definition segment_of (w : World) (download_dir : string) (segment : list Event)
    (package_spec : string) : Prop :=
  Forall (effect_of_run w download_dir [package_spec]) segment.

(** ** Failures and their records *)

(** The kinds of failure of an interaction with the world that the
    program reports by a record of their own. *)
Inductive Failure :=
| BatchFileWrite
| DirectoryCreation
| PipRejection
| PipNotFound
| PipException.

(** A write block that [IOError] left before its last write. *)
Definition is_failed_write (e : Event) : bool :=
  match e with
  | EvFile _ _ _ OpenFails => true
  | EvFile _ _ chunks (WritesUntil k) => negb (List.length chunks <=? k)
  | _ => false
  end.

(** The records of lines 232, 357 and 387. *)
Definition is_write_error (e : Event) : bool :=
  match e with
  | EvLog ERROR (MsgInstructionFailed _) => true
  | EvLog ERROR MsgBatInitFailed => true
  | EvLog ERROR MsgBatFinalizeFailed => true
  | _ => false
  end.

Definition is_failed_makedirs (e : Event) : bool :=
  match e with EvMakedirs _ false => true | _ => false end.

(** The records of lines 59 and 306. *)
Definition is_makedirs_error (e : Event) : bool :=
  match e with
  | EvLog ERROR (MsgSubdirFailed _) => true
  | EvLog ERROR (MsgBaseFailed _) => true
  | _ => false
  end.

(** The event is a failure of the given kind. *)
Definition fails (kind : Failure) (e : Event) : bool :=
  match kind with
  | BatchFileWrite => is_failed_write e
  | DirectoryCreation => is_failed_makedirs e
  | PipRejection => is_pip_rejection e
  | PipNotFound => is_pip_not_found e
  | PipException => is_pip_exception e
  end.

(** The event is the record that reports a failure of the given kind. *)
Definition reports (kind : Failure) (e : Event) : bool :=
  match kind with
  | BatchFileWrite => is_write_error e
  | DirectoryCreation => is_makedirs_error e
  | PipRejection => is_rejection_record e
  | PipNotFound => is_not_found_record e
  | PipException => is_exception_record e
  end.

(** The computation reports every failure once, and nothing else. *)
Definition reports_its_failures {A} (m : M A) : Prop :=
  forall kind s,
    count (fails kind) (events_of (m s)) = count (reports kind) (events_of (m s)).

(** ** The promotion copy *)






(** ** Concrete environments, to run the program on *)

Definition ends_with_slash (s : string) : bool :=
  match PyStr.rev_string s with
  | String c _ => Ascii.eqb c "/"
  | EmptyString => false
  end.

(** [posixpath.join] of two components. *)
Definition posix_join (a b : string) : string :=
  if PyStr.startswith "/" b then b
  else if is_empty a || ends_with_slash a then a +++ b
  else a +++ "/" +++ b.

(** A stationary environment: the requirement list holds [text], every
    pip call ends as [pip] says, and the per-requirement subdirectories
    can be created iff [subdirs]. *)
Definition steady_world (text : string) (pip : PipRun) (subdirs : bool) : World :=
  {| perf_counter := fun t => Z.of_nat t;
     os_path_join := posix_join;
     os_path_abspath := fun p => posix_join "/work" p;
     os_path_isfile := fun _ _ => true;
     os_path_isdir := fun _ _ => true;
     os_makedirs := fun _ p => (p =? DEFAULT_DOWNLOAD_DIR)%string || subdirs;
     os_listdir := fun _ _ => Some [];
     shutil_copy2 := fun _ _ _ => true;
     subprocess_run := fun _ _ => pip;
     open_write := fun _ _ => WritesUntil 17;
     open_read := fun _ _ => ReadOk text |}.

Definition pip_ok : PipRun := Completed 0 "" "".
Definition pip_rejects : PipRun := Completed 1 "" "ERROR: No matching distribution found".

Definition default_args : Args :=
  {| requirements := DEFAULT_REQ_FILE; dest := DEFAULT_DOWNLOAD_DIR; verbose := false |}.

(** Two distinct requirement names with the same sanitised form. *)
Definition colliding_requirements : string := "a.b" +++ nl +++ "ab" +++ nl.

(** The requirement list of the end-to-end scenario. *)
Definition scenario_requirements : string :=
  "requests==2.31.0" +++ nl +++ nl +++ "# a comment" +++ nl
  +++ "-r other.txt" +++ nl +++ "flask" +++ nl.



(** * Properties *)

(** ** Strings *)

Lemma prefix_cons (a b : ascii) (s1 s2 : string) :
  String.prefix (String a s1) (String b s2)
  = if ascii_dec a b then String.prefix s1 s2 else false.
Proof. reflexivity. Qed.

Lemma prefix_empty (s : string) : String.prefix "" s = true.
Proof. destruct s; reflexivity. Qed.

Lemma prefix_dot (s : string) :
  String.prefix "." s = match s with
                        | String c _ => Ascii.eqb c AbiSpec.separator
                        | EmptyString => false
                        end.
Proof.
  destruct s as [|c t]; [reflexivity|].
  rewrite prefix_cons, prefix_empty.
  destruct (ascii_dec "." c) as [<-|Hne].
  - reflexivity.
  - symmetry. apply Ascii.eqb_neq. intros ->. apply Hne. reflexivity.
Qed.

Lemma contains_dot_iff (s : string) :
  PyStr.contains "." s = true <-> AbiSpec.has_separator s.
Proof.
  unfold AbiSpec.has_separator, PyStr.chars.
  induction s as [|c t IH].
  - simpl. split; [discriminate | tauto].
  - cbn [PyStr.contains list_ascii_of_string In]. rewrite prefix_dot.
    rewrite orb_true_iff, IH, Ascii.eqb_eq. split; intros [H|H]; auto.
Qed.

Lemma replace_dot (s : string) :
  PyStr.replace "." "" s = AbiSpec.without_separator s.
Proof.
  unfold PyStr.replace, AbiSpec.without_separator.
  induction s as [|c t IH]; [reflexivity|].
  cbn [PyStr.replace_from PyStr.filter_chars]. rewrite prefix_dot.
  destruct (Ascii.eqb c AbiSpec.separator); simpl; rewrite IH; reflexivity.
Qed.

Lemma prefix_double_dash (s : string) :
  String.prefix "--" s = true -> String.prefix "-" s = true.
Proof.
  destruct s as [|c t]; [discriminate|].
  rewrite !prefix_cons, prefix_empty.
  destruct (ascii_dec "-" c); [reflexivity | discriminate].
Qed.

Lemma startswith_dashes (s : string) :
  PyStr.startswith_any ["-"; "--"] s = PyStr.startswith "-" s.
Proof.
  unfold PyStr.startswith_any, PyStr.startswith. cbn [existsb].
  rewrite orb_false_r.
  destruct (String.prefix "-" s) eqn:H1; [reflexivity|].
  destruct (String.prefix "--" s) eqn:H2; [|reflexivity].
  apply prefix_double_dash in H2. congruence.
Qed.

(** ** Strategy generation *)

Lemma in_enumerate_combinations ps vs ims bs s :
  In s (enumerate_combinations ps vs ims bs) ->
  exists p v a i b,
    In p ps /\ In v vs /\ In a (specific_abis_of v) /\ In i ims /\ In b bs
    /\ invalid_combination i a = false
    /\ s = make_strategy p v a i b.
Proof.
  unfold enumerate_combinations. intros H.
  apply in_flat_map in H as (p & Hp & H).
  apply in_flat_map in H as (v & Hv & H).
  apply in_flat_map in H as (a & Ha & H).
  apply in_flat_map in H as (i & Hi & H).
  destruct (invalid_combination i a) eqn:Hinv; [contradiction|].
  apply in_map_iff in H as (b & Hs & Hb).
  exists p, v, a, i, b. repeat split; auto.
Qed.

(** C3: whatever the configured lists, the generated sequence is a body
    of non-empty constraints followed by the empty constraint: it ends
    with the environment-default fallback, the fallback occurs exactly
    once, and the sequence has at least one element. *)
Theorem strategies_end_with_single_fallback
    (platforms versions implementations binary_types : list string) :
  let strategies := build_strategies platforms versions implementations binary_types in
  (exists body, strategies = body ++ [[]] /\ ~ In [] body)
  /\ last strategies (make_strategy "" "" "" "" "") = []
  /\ count_occ (list_eq_dec string_dec) strategies [] = 1
  /\ 1 <= List.length strategies.
Proof.
  cbv zeta. unfold build_strategies.
  set (body := enumerate_combinations platforms versions implementations binary_types).
  assert (Hbody : ~ In [] body).
  { intros H. apply in_enumerate_combinations in H.
    destruct H as (p & v & a & i & b & _ & _ & _ & _ & _ & _ & H). discriminate. }
  repeat split.
  - exists body. split; [reflexivity | exact Hbody].
  - apply last_last.
  - rewrite count_occ_app.
    rewrite (proj1 (count_occ_not_In _ body []) Hbody). reflexivity.
  - rewrite length_app. simpl. lia.
Qed.

(** C4: a generated constraint is the empty one or carries one platform,
    version, ABI candidate, implementation and binary flag drawn from
    the configuration, and never the implementation [py] together with
    an ABI tag beginning with [cp] or [abi]. *)
Theorem no_pure_implementation_with_compiled_abi
    (platforms versions implementations binary_types : list string) (s : Strategy) :
  In s (build_strategies platforms versions implementations binary_types) ->
  s = []
  \/ exists p v a i b,
       s = make_strategy p v a i b
       /\ In p platforms /\ In v versions /\ In a (specific_abis_of v)
       /\ In i implementations /\ In b binary_types
       /\ ~ (i = "py"
             /\ (PyStr.startswith "cp" a = true \/ PyStr.startswith "abi" a = true)).
Proof.
  unfold build_strategies. intros H. apply in_app_or in H as [H|H].
  - right. apply in_enumerate_combinations in H.
    destruct H as (p & v & a & i & b & Hp & Hv & Ha & Hi & Hb & Hinv & ->).
    exists p, v, a, i, b. repeat split; auto.
    intros [-> Habi]. unfold invalid_combination, PyStr.startswith_any in Hinv.
    cbn [existsb] in Hinv. rewrite orb_false_r in Hinv.
    rewrite String.eqb_refl in Hinv. simpl andb in Hinv.
    apply orb_false_iff in Hinv as [H1 H2].
    destruct Habi; congruence.
  - left. destruct H as [<-|[]]. reflexivity.
Qed.

Lemma no_pure_implementation_with_compiled_abi_witness :
  let s := make_strategy "any" "3.13" "none" "py" "--only-binary=:all:" in
  In s download_strategies
  /\ (s = []
      \/ exists p v a i b,
           s = make_strategy p v a i b
           /\ In p var_platforms /\ In v var_python_versions
           /\ In a (specific_abis_of v)
           /\ In i var_implementations /\ In b var_binary_types
           /\ ~ (i = "py"
                 /\ (PyStr.startswith "cp" a = true
                     \/ PyStr.startswith "abi" a = true))).
Proof.
  assert (H : In (make_strategy "any" "3.13" "none" "py" "--only-binary=:all:")
                 download_strategies).
  { right. left. reflexivity. }
  split; [exact H|].
  exact (no_pure_implementation_with_compiled_abi
           var_platforms var_python_versions var_implementations var_binary_types
           _ H).
Defined.

(** C5: the derived tag is [cp] followed by the token without its
    separator when the token holds a separator, [abi] followed by the
    token when it is a single character, [cp] followed by the token
    otherwise; the ABI candidates of a token are [none] and then the
    derived tag. *)
Theorem abi_tag_derivation (token : string) :
  (AbiSpec.has_separator token ->
   abi_specific_of token = "cp" +++ AbiSpec.without_separator token)
  /\ (~ AbiSpec.has_separator token -> String.length token = 1 ->
      abi_specific_of token = "abi" +++ token)
  /\ (~ AbiSpec.has_separator token -> String.length token <> 1 ->
      abi_specific_of token = "cp" +++ token)
  /\ specific_abis_of token = ["none"; abi_specific_of token]
  /\ abi_specific_of "3.13" = "cp313"
  /\ abi_specific_of "3" = "abi3".
Proof.
  assert (Hex : specific_abis_of token = ["none"; abi_specific_of token]
                /\ abi_specific_of "3.13" = "cp313"
                /\ abi_specific_of "3" = "abi3") by (repeat split).
  revert Hex. generalize (specific_abis_of token). intros candidates Hex.
  unfold abi_specific_of at 1 2 3. rewrite replace_dot.
  destruct (PyStr.contains "." token) eqn:Hc.
  - apply contains_dot_iff in Hc.
    split; [reflexivity|].
    split; [intros Hn; contradiction|].
    split; [intros Hn; contradiction|].
    exact Hex.
  - assert (Hn : ~ AbiSpec.has_separator token).
    { intros H. apply contains_dot_iff in H. congruence. }
    split; [intros H; contradiction|].
    split; [intros _ ->; reflexivity|].
    split; [intros _ Hl; apply Nat.eqb_neq in Hl; rewrite Hl; reflexivity|].
    exact Hex.
Qed.

(** ** Requirement source *)

Lemma surviving_cons (line : string) (rest : list string) :
  RequirementSourceSpec.surviving (line :: rest)
  = match filter_line line with
    | None => RequirementSourceSpec.surviving rest
    | Some p => p :: RequirementSourceSpec.surviving rest
    end.
Proof.
  unfold RequirementSourceSpec.surviving, RequirementSourceSpec.trimmed,
    RequirementSourceSpec.non_empty, RequirementSourceSpec.not_comment,
    RequirementSourceSpec.not_option, filter_line.
  fold (RequirementSourceSpec.truncate_inline_comment (PyStr.strip line)).
  cbn [map filter].
  destruct (is_empty (PyStr.strip line)); cbn [negb orb filter map]; [reflexivity|].
  destruct (PyStr.startswith "#" (PyStr.strip line)); cbn [negb filter map]; [reflexivity|].
  destruct (is_empty (RequirementSourceSpec.truncate_inline_comment (PyStr.strip line)));
    cbn [negb filter]; [reflexivity|].
  rewrite startswith_dashes.
  destruct (PyStr.startswith "-" _); reflexivity.
Qed.

Lemma collect_valid_surviving (lines acc : list string) :
  collect_valid lines acc = acc ++ RequirementSourceSpec.surviving lines.
Proof.
  revert acc. induction lines as [|line rest IH]; intros acc.
  - simpl. rewrite app_nil_r. reflexivity.
  - rewrite surviving_cons. cbn [collect_valid].
    destruct (filter_line line) as [p|].
    + rewrite IH, <- app_assoc. reflexivity.
    + apply IH.
Qed.

(** *** Shape of the surviving specifiers *)

Lemma prefix_nil_r (p : string) : String.prefix p "" = is_empty p.
Proof. destruct p; reflexivity. Qed.

Lemma prefix_trans (a b c : string) :
  String.prefix a b = true -> String.prefix b c = true -> String.prefix a c = true.
Proof.
  revert a b. induction c as [|z c IH]; intros a b Hab Hbc.
  - rewrite prefix_nil_r in Hbc. destruct b; [|discriminate].
    rewrite prefix_nil_r in Hab. destruct a; [reflexivity | discriminate].
  - destruct b as [|y b]; [rewrite prefix_nil_r in Hab; destruct a;
                            [reflexivity | discriminate]|].
    destruct a as [|x a]; [reflexivity|].
    rewrite prefix_cons in *.
    destruct (ascii_dec x y) as [->|]; [|discriminate].
    destruct (ascii_dec y z) as [->|]; [|discriminate].
    eapply IH; eassumption.
Qed.

Lemma contains_cons (sep : string) (c : ascii) (t : string) :
  PyStr.contains sep (String c t)
  = String.prefix sep (String c t) || PyStr.contains sep t.
Proof. reflexivity. Qed.

Lemma contains_of_prefix (sep r s : string) :
  String.prefix r s = true ->
  PyStr.contains sep r = true -> PyStr.contains sep s = true.
Proof.
  revert s. induction r as [|c r IH]; intros s Hrs Hc.
  - change (PyStr.contains sep "") with (String.prefix sep "" || false) in Hc.
    rewrite orb_false_r, prefix_nil_r in Hc.
    destruct sep; [|discriminate]. destruct s; reflexivity.
  - destruct s as [|d s]; [discriminate|].
    rewrite prefix_cons in Hrs. destruct (ascii_dec c d) as [->|]; [|discriminate].
    rewrite contains_cons in *. apply orb_true_iff in Hc as [Hc|Hc].
    + apply orb_true_iff. left.
      apply (prefix_trans sep (String d r)); [exact Hc|].
      rewrite prefix_cons. destruct (ascii_dec d d); [exact Hrs | contradiction].
    + apply orb_true_iff. right. apply IH; assumption.
Qed.

Lemma lstrip_keeps_absence (sep s : string) :
  PyStr.contains sep s = false -> PyStr.contains sep (PyStr.lstrip s) = false.
Proof.
  induction s as [|c t IH]; intros H; [exact H|].
  cbn [PyStr.lstrip]. destruct (PyStr.isspace c); [|exact H].
  rewrite contains_cons in H. apply orb_false_iff in H as [_ H]. auto.
Qed.

Lemma rstrip_prefix (s : string) : String.prefix (PyStr.rstrip s) s = true.
Proof.
  induction s as [|c t IH]; [reflexivity|].
  cbn [PyStr.rstrip]. destruct (PyStr.rstrip t) as [|d r] eqn:E.
  - destruct (PyStr.isspace c); [reflexivity|].
    rewrite prefix_cons. destruct (ascii_dec c c); [apply prefix_empty | contradiction].
  - rewrite prefix_cons. destruct (ascii_dec c c); [exact IH | contradiction].
Qed.

Lemma rstrip_keeps_absence (sep s : string) :
  PyStr.contains sep s = false -> PyStr.contains sep (PyStr.rstrip s) = false.
Proof.
  intros H. destruct (PyStr.contains sep (PyStr.rstrip s)) eqn:E; [|reflexivity].
  rewrite (contains_of_prefix sep _ s (rstrip_prefix s) E) in H. discriminate.
Qed.

Lemma strip_keeps_absence (sep s : string) :
  PyStr.contains sep s = false -> PyStr.contains sep (PyStr.strip s) = false.
Proof.
  intros H. apply rstrip_keeps_absence, lstrip_keeps_absence, H.
Qed.

Lemma before_first_prefix (sep s : string) :
  String.prefix (PyStr.before_first sep s) s = true.
Proof.
  induction s as [|c t IH]; cbn [PyStr.before_first].
  - destruct (String.prefix sep ""); reflexivity.
  - destruct (String.prefix sep (String c t)); [reflexivity|].
    rewrite prefix_cons. destruct (ascii_dec c c); [exact IH | contradiction].
Qed.

Lemma before_first_lacks_separator (sep s : string) :
  is_empty sep = false ->
  PyStr.contains sep (PyStr.before_first sep s) = false.
Proof.
  intros Hsep. induction s as [|c t IH]; cbn [PyStr.before_first].
  - assert (Hn : PyStr.contains sep "" = false).
    { change (PyStr.contains sep "") with (String.prefix sep "" || false).
      rewrite prefix_nil_r, Hsep. reflexivity. }
    destruct (String.prefix sep ""); exact Hn.
  - destruct (String.prefix sep (String c t)) eqn:E.
    + change (PyStr.contains sep "") with (String.prefix sep "" || false).
      rewrite prefix_nil_r, Hsep. reflexivity.
    + rewrite contains_cons, IH, orb_false_r.
      destruct (String.prefix sep (String c (PyStr.before_first sep t))) eqn:E2;
        [|reflexivity].
      rewrite (prefix_trans sep _ (String c t) E2) in E; [discriminate|].
      rewrite prefix_cons. destruct (ascii_dec c c); [|contradiction].
      apply before_first_prefix.
Qed.

Lemma lstrip_head (s : string) :
  PyStr.lstrip s = ""
  \/ exists c t, PyStr.lstrip s = String c t /\ PyStr.isspace c = false.
Proof.
  induction s as [|c t IH]; [left; reflexivity|].
  cbn [PyStr.lstrip]. destruct (PyStr.isspace c) eqn:E; [exact IH|].
  right. exists c, t. auto.
Qed.

Lemma rstrip_head (c : ascii) (t : string) :
  PyStr.isspace c = false ->
  exists r, PyStr.rstrip (String c t) = String c r.
Proof.
  intros H. cbn [PyStr.rstrip]. destruct (PyStr.rstrip t) as [|d r].
  - rewrite H. exists "". reflexivity.
  - exists (String d r). reflexivity.
Qed.

Lemma rstrip_idempotent (s : string) :
  PyStr.rstrip (PyStr.rstrip s) = PyStr.rstrip s.
Proof.
  induction s as [|c t IH]; [reflexivity|].
  cbn [PyStr.rstrip]. destruct (PyStr.rstrip t) as [|d r] eqn:E.
  - destruct (PyStr.isspace c) eqn:Hc; [reflexivity|].
    cbn [PyStr.rstrip]. rewrite Hc. reflexivity.
  - change (PyStr.rstrip (String c (String d r))) with
      (match PyStr.rstrip (String d r) with
       | EmptyString => if PyStr.isspace c then EmptyString else String c EmptyString
       | r' => String c r'
       end).
    rewrite IH. reflexivity.
Qed.

(** A stripped string is empty or begins with a non-blank character,
    and stripping it again changes nothing. *)
Lemma strip_shape (s : string) :
  (PyStr.strip s = ""
   \/ exists c r, PyStr.strip s = String c r /\ PyStr.isspace c = false)
  /\ PyStr.strip (PyStr.strip s) = PyStr.strip s.
Proof.
  unfold PyStr.strip.
  destruct (lstrip_head s) as [E | (c & t & E & Hc)]; rewrite E.
  - split; [left; reflexivity | reflexivity].
  - destruct (rstrip_head c t Hc) as [r Hr]. rewrite Hr. split.
    + right. exists c, r. auto.
    + cbn [PyStr.lstrip]. rewrite Hc, <- Hr. apply rstrip_idempotent.
Qed.

Lemma startswith_cons (p : string) (c : ascii) (r1 r2 : string) :
  String.length p = 1 ->
  PyStr.startswith p (String c r1) = PyStr.startswith p (String c r2).
Proof.
  unfold PyStr.startswith. destruct p as [|x [|y p]]; try discriminate.
  intros _. rewrite !prefix_cons, !prefix_empty. reflexivity.
Qed.

(** What one iteration of the filter lets through. *)
Lemma filter_line_shape (line p : string) :
  filter_line line = Some p ->
  is_empty p = false
  /\ PyStr.strip p = p
  /\ PyStr.startswith "#" p = false
  /\ PyStr.startswith "-" p = false
  /\ PyStr.contains " #" p = false.
Proof.
  unfold filter_line.
  destruct (strip_shape line) as [Hshape Hidem].
  set (l := PyStr.strip line) in *.
  destruct (is_empty l) eqn:He; [discriminate|].
  destruct (PyStr.startswith "#" l) eqn:Hh; [discriminate|]. cbn [orb].
  destruct (PyStr.contains " #" l) eqn:Hc.
  - destruct (strip_shape (PyStr.before_first " #" l)) as [_ Hidem2].
    set (q := PyStr.strip (PyStr.before_first " #" l)) in *.
    destruct (is_empty q) eqn:Hq; [discriminate|].
    rewrite startswith_dashes.
    destruct (PyStr.startswith "-" q) eqn:Hd; [discriminate|].
    intros [= <-]. split; [exact Hq|]. split; [exact Hidem2|].
    split; [|split; [exact Hd|]].
    + destruct Hshape as [E | (c & r & E & Hsp)]; [rewrite E in He; discriminate|].
      assert (Hb : PyStr.before_first " #" l
                   = String c (PyStr.before_first " #" r)).
      { rewrite E. cbn [PyStr.before_first]. rewrite prefix_cons.
        destruct (ascii_dec " " c) as [<-|]; [discriminate Hsp | reflexivity]. }
      unfold q, PyStr.strip. rewrite Hb. cbn [PyStr.lstrip]. rewrite Hsp.
      destruct (rstrip_head c (PyStr.before_first " #" r) Hsp) as [r' ->].
      rewrite E in Hh. rewrite (startswith_cons "#" c r' r eq_refl). exact Hh.
    + apply strip_keeps_absence, before_first_lacks_separator. reflexivity.
  - rewrite He, startswith_dashes.
    destruct (PyStr.startswith "-" l) eqn:Hd; [discriminate|].
    intros [= <-]. auto.
Qed.

Lemma surviving_from_line (lines : list string) (p : string) :
  In p (RequirementSourceSpec.surviving lines) ->
  exists line, In line lines /\ filter_line line = Some p.
Proof.
  induction lines as [|line rest IH]; [intros []|].
  rewrite surviving_cons. destruct (filter_line line) as [q|] eqn:E.
  - intros [<-|H].
    + exists line. split; [left; reflexivity | exact E].
    + destruct (IH H) as (l & Hl & Hf). exists l. split; [right; exact Hl | exact Hf].
  - intros H. destruct (IH H) as (l & Hl & Hf).
    exists l. split; [right; exact Hl | exact Hf].
Qed.

(** C6: the specifiers read from a requirement list are exactly its
    lines that survive the six filtering rules, in file order; each is
    non-empty and trimmed, starts with neither [#] nor a dash, and
    holds no inline comment; on the list of the end-to-end scenario
    they are the two valid specifiers. *)
Theorem requirement_source_yields_survivors (text : string) :
  read_requirements text = RequirementSourceSpec.surviving (readlines text)
  /\ (forall p, In p (read_requirements text) ->
        is_empty p = false
        /\ PyStr.strip p = p
        /\ PyStr.startswith "#" p = false
        /\ PyStr.startswith "-" p = false
        /\ PyStr.contains " #" p = false)
  /\ read_requirements scenario_requirements = ["requests==2.31.0"; "flask"].
Proof.
  assert (H : read_requirements text
              = RequirementSourceSpec.surviving (readlines text)).
  { unfold read_requirements. apply collect_valid_surviving. }
  split; [exact H|]. split; [|reflexivity].
  intros p Hp. rewrite H in Hp.
  destruct (surviving_from_line _ _ Hp) as (line & _ & Hf).
  exact (filter_line_shape line p Hf).
Qed.

(** ** Counting on traces *)

Lemma count_app (p : Event -> bool) (a b : list Event) :
  count p (a ++ b) = count p a + count p b.
Proof. unfold count. rewrite filter_app, length_app. reflexivity. Qed.

Lemma count_cons (p : Event -> bool) (e : Event) (l : list Event) :
  count p (e :: l) = (if p e then 1 else 0) + count p l.
Proof. unfold count. simpl. destruct (p e); reflexivity. Qed.

Lemma count_nil (p : Event -> bool) : count p [] = 0.
Proof. reflexivity. Qed.

Lemma attempted_strategies_app (a b : list Event) :
  attempted_strategies (a ++ b) = attempted_strategies a ++ attempted_strategies b.
Proof. unfold attempted_strategies. apply flat_map_app. Qed.

Lemma attempted_strategies_for_app (p : Progress) (a b : list Event) :
  attempted_strategies_for p (a ++ b)
  = attempted_strategies_for p a ++ attempted_strategies_for p b.
Proof. unfold attempted_strategies_for. apply flat_map_app. Qed.

(** ** The pip-invocation helper *)

Section ProgramFacts.

Variable w : World.

Ltac run_steps :=
  cbv beta delta [bind ret ask emit log append_pip_call_time write_file
                  value_of state_of events_of] in *;
  cbn [fst snd app visible negb now pip_call_times debug_enabled strategy_builds] in *.

Lemma run_pip_download_deps_post
    (package_spec name download_dir : string) (d : AttemptDesc)
    (extra_args : Strategy) (s : State) :
  let r := run_pip_download_deps w package_spec name download_dir d extra_args s in
  no_driver_records (events_of r)
  /\ List.length (pip_call_times (state_of r))
     = List.length (pip_call_times s) + count is_pip_call (events_of r)
  /\ count is_pip_call (events_of r) + count is_subdir_failure (events_of r) = 1
  /\ (value_of r = true -> count is_warning (events_of r) = 0)
  /\ strategy_builds (state_of r) = strategy_builds s
  /\ debug_enabled (state_of r) = debug_enabled s
  /\ (forall any_spec,
        Forall (agrees_on_subdir
                  (os_path_join w download_dir (PyStr.re_sub_non_name name)) any_spec)
               (events_of r))
  /\ Forall warns_only_of_failure (events_of r).
Proof.
  unfold run_pip_download_deps, no_driver_records. run_steps.
  match goal with
  | |- context [os_makedirs w ?t ?p] => destruct (os_makedirs w t p) eqn:Hmade
  end; run_steps.
  2:{ cbn. repeat split; auto; try lia; try discriminate;
      intros; repeat constructor; cbn; auto; discriminate. }
  match goal with
  | |- context [subprocess_run w ?t ?c] =>
      destruct (subprocess_run w t c) as [rc out err| |] eqn:Hrun
  end;
    [destruct (rc =? 0)%Z eqn:Hrc|..];
    run_steps; destruct (debug_enabled s); cbn;
    rewrite ?length_app; cbn;
    (repeat split; auto; try lia; try discriminate;
     try (intros; repeat constructor; cbn; auto; discriminate)).
Qed.


Lemma side_events_nil : side_events [].
Proof. repeat split; intros; constructor. Qed.

Lemma side_events_one (e : Event) :
  is_attempt e = false ->
  is_attempt_succeeded e = false ->
  is_attempt_failed e = false ->
  is_copy_start e = false ->
  is_subdir_failure e = false ->
  is_file_write e = false ->
  is_pip_call e = false ->
  warns_only_of_failure e ->
  side_events [e].
Proof.
  intros H1 H2 H3 H4 H5 H6 H7 H8.
  unfold side_events, no_driver_records.
  rewrite !count_cons, H1, H2, H3, H4, H5, H6, H7. cbn.
  assert (Ha : attempted_strategies [e] = []).
  { destruct e as [[] []| | | |]; try reflexivity; discriminate. }
  assert (Hb : forall p, attempted_strategies_for p [e] = []).
  { intros p. destruct e as [[] []| | | |]; try reflexivity; discriminate. }
  repeat split; auto; intros; repeat constructor; auto.
  destruct e; try exact I; discriminate.
Qed.

Lemma side_events_debug (m : Msg) (debug : bool) :
  side_events (if debug then [EvLog DEBUG m] else []).
Proof.
  destruct debug; [|apply side_events_nil].
  apply side_events_one; try reflexivity. discriminate.
Qed.

Lemma side_events_app (a b : list Event) :
  side_events a -> side_events b -> side_events (a ++ b).
Proof.
  unfold side_events, no_driver_records.
  intros ((A1 & A2 & A3 & A4 & A5 & A6 & A7) & A8 & A9 & A10 & A11)
         ((B1 & B2 & B3 & B4 & B5 & B6 & B7) & B8 & B9 & B10 & B11).
  rewrite !count_app, attempted_strategies_app, A1, A2, A3, A4, A5, A6, A8, A9,
    B1, B2, B3, B4, B5, B6, B8, B9.
  repeat split; auto.
  - intros p. rewrite attempted_strategies_for_app, A7, B7. reflexivity.
  - intros. apply Forall_app. split; auto.
  - apply Forall_app. split; auto.
Qed.

Lemma same_store_refl (s : State) : same_store s s.
Proof. repeat split. Qed.

Ltac store_tac :=
  unfold same_store in *;
  cbn [now pip_call_times debug_enabled strategy_builds] in *;
  intuition congruence.

Lemma copy_items_post (src_dir dst_dir : string) (items : list string) (s : State) :
  let r := copy_items w src_dir dst_dir items s in
  side_events (events_of r) /\ same_store s (state_of r).
Proof.
  revert s. induction items as [|item rest IH]; intros s.
  - split; [apply side_events_nil | apply same_store_refl].
  - cbn [copy_items]. run_steps.
    destruct (os_path_isfile w (now s) _).
    + match goal with
      | |- context [shutil_copy2 w ?t ?a ?b] => destruct (shutil_copy2 w t a b)
      end.
      * match goal with
        | |- context [copy_items w src_dir dst_dir rest ?s1] =>
            specialize (IH s1);
            destruct (copy_items w src_dir dst_dir rest s1) as [[b s2] e2]
        end.
        run_steps. destruct IH as [IH1 IH2]. split.
        -- apply side_events_app; [apply side_events_debug|].
           apply (side_events_app [_]); [|exact IH1].
           apply side_events_one; try reflexivity. discriminate.
        -- store_tac.
      * run_steps. split; [|store_tac].
        apply side_events_app; [apply side_events_debug|].
        apply side_events_one; try reflexivity. discriminate.
    + match goal with
      | |- context [copy_items w src_dir dst_dir rest ?s1] =>
          specialize (IH s1);
          destruct (copy_items w src_dir dst_dir rest s1) as [[b s2] e2]
      end.
      run_steps. split; [tauto | store_tac].
Qed.


Lemma first_success_actions_post (pol : Policy)
    (package_spec download_dir name : string) (p : Progress) (s : State) :
  let r := first_success_actions w pol package_spec download_dir name p s in
  one_time_events pol p (os_path_join w download_dir (PyStr.re_sub_non_name name))
                  download_dir package_spec (events_of r)
  /\ same_store s (state_of r).
Proof.
  unfold first_success_actions, one_time_events. run_steps.
  set (subdir := os_path_join w download_dir (PyStr.re_sub_non_name name)).
  assert (He : side_events [EvLog ERROR (MsgInstructionFailed package_spec)]).
  { apply side_events_one; try reflexivity. discriminate. }
  assert (Hn := side_events_nil).
  destruct (open_write w (now s) BAT) as [|k];
    [|match goal with |- context [?n <=? k] => destruct (n <=? k) end];
    run_steps.
  all: destruct (COPY_FIRST_SET_TO_PARENT_DIRECTORY pol); run_steps.
  all: try solve [split; [|store_tac];
                  first [ eexists _, [], []; split; [reflexivity|]
                        | eexists _, [EvLog ERROR (MsgInstructionFailed package_spec)], [];
                          split; [reflexivity|] ];
                  (split; [first [exact Hn | exact He] | split; [reflexivity | exact Hn]])].
  all: match goal with
       | |- context [os_path_isdir w ?t ?d] => destruct (os_path_isdir w t d)
       end; run_steps.
  all: try solve [split; [|store_tac];
                  first [ eexists _, [], _; split; [reflexivity|]
                        | eexists _, [EvLog ERROR (MsgInstructionFailed package_spec)], _;
                          split; [reflexivity|] ];
                  (split; [first [exact Hn | exact He] | split; [reflexivity | ]]);
                  apply side_events_one; try reflexivity; intros _; reflexivity].
  all: match goal with
       | |- context [os_listdir w ?t ?d] => destruct (os_listdir w t d) as [items|]
       end; run_steps.
  all: try solve [split; [|store_tac];
                  first [ eexists _, [], _; split; [reflexivity|]
                        | eexists _, [EvLog ERROR (MsgInstructionFailed package_spec)], _;
                          split; [reflexivity|] ];
                  (split; [first [exact Hn | exact He] | split; [reflexivity | ]]);
                  apply side_events_one; try reflexivity; discriminate].
  all: match goal with
       | |- context [copy_items w ?a ?b ?c ?s1] =>
           pose proof (copy_items_post a b c s1) as Hc;
           destruct (copy_items w a b c s1) as [[done s2] e2]
       end; run_steps; destruct Hc as [Hc1 Hc2].
  all: destruct done; run_steps.
  all: split; [|store_tac];
       first [ eexists _, [], _; split; [reflexivity|]
             | eexists _, [EvLog ERROR (MsgInstructionFailed package_spec)], _;
               split; [reflexivity|] ];
       (split; [first [exact Hn | exact He] | split; [reflexivity | ]]).
  all: try (rewrite app_nil_r; exact Hc1).
  all: apply side_events_app; [exact Hc1|];
       apply side_events_one; try reflexivity; discriminate.
Qed.


Lemma one_time_events_facts (pol : Policy) (p : Progress)
    (subdir download_dir package_spec : string) (evs : list Event) :
  one_time_events pol p subdir download_dir package_spec evs ->
  between_attempts evs
  /\ count is_file_write evs = 1
  /\ count is_copy_start evs
     = (if COPY_FIRST_SET_TO_PARENT_DIRECTORY pol then 1 else 0)
  /\ Forall (agrees_on_subdir subdir package_spec) evs
  /\ Forall warns_only_of_failure evs.
Proof.
  intros (o & a & b & -> & Ha & _ & Hb).
  destruct Ha as ((A1 & A2 & A3 & A4 & A5 & A6 & A7) & A8 & A9 & A10 & A11).
  destruct Hb as ((B1 & B2 & B3 & B4 & B5 & B6 & B7) & B8 & B9 & B10 & B11).
  unfold between_attempts.
  destruct (COPY_FIRST_SET_TO_PARENT_DIRECTORY pol);
    rewrite ?app_nil_r; rewrite ?count_cons, ?count_app, ?count_cons;
    cbn [is_attempt is_attempt_succeeded is_attempt_failed is_pip_call
         is_subdir_failure is_file_write is_copy_start].
  - assert (Hs : attempted_strategies
                   (EvFile BAT ModeA (install_instruction subdir package_spec) o
                    :: a ++ EvLog INFO (MsgCopying p subdir download_dir) :: b) = []).
    { change (attempted_strategies (a ++ EvLog INFO (MsgCopying p subdir download_dir) :: b) = []).
      rewrite attempted_strategies_app.
      change (attempted_strategies a ++ attempted_strategies b = []).
      rewrite A6, B6. reflexivity. }
    assert (Hf : forall q, attempted_strategies_for q
                   (EvFile BAT ModeA (install_instruction subdir package_spec) o
                    :: a ++ EvLog INFO (MsgCopying p subdir download_dir) :: b) = []).
    { intros q.
      change (attempted_strategies_for q
                (a ++ EvLog INFO (MsgCopying p subdir download_dir) :: b) = []).
      rewrite attempted_strategies_for_app.
      change (attempted_strategies_for q a ++ attempted_strategies_for q b = []).
      rewrite A7, B7. reflexivity. }
    repeat split; auto; try lia.
    + constructor; [cbn; auto|]. apply Forall_app. split; [apply A10|].
      constructor; [exact I | apply B10].
    + constructor; [discriminate|]. apply Forall_app. split; [apply A11|].
      constructor; [discriminate | apply B11].
  - repeat split; auto; try lia.
    + constructor; [cbn; auto | apply A10].
    + constructor; [discriminate | apply A11].
Qed.

(** One iteration of the loop, and the loops it continues with. *)
Lemma strategy_loop_cons (pol : Policy) (package_spec download_dir name : string)
    (p : Progress) (total : nat) (strategy : Strategy) (rest : list Strategy)
    (v : LoopVars) (s : State) :
  strategy_loop w pol package_spec download_dir name p total (strategy :: rest) v s
  = if negb (download_success v) || DOWNLOAD_ALL_VERSIONS pol then
      let a := (S (attempt v), total) in
      let spec_for_pip :=
        dict_get known_dependencies (PyStr.lower name) package_spec in
      let d := {| desc_package := p; desc_name := name; desc_attempt := a |} in
      let r1 := run_pip_download_deps w spec_for_pip name download_dir d strategy s in
      if value_of r1 then
        let r2 := (if S (attempt_success_count v) =? 1
                   then first_success_actions w pol package_spec download_dir name p
                   else ret tt) (state_of r1) in
        let v' := {| download_success := true; attempt := S (attempt v);
                     attempt_success_count := S (attempt_success_count v) |} in
        if negb (DOWNLOAD_ALL_VERSIONS pol) then
          (v', state_of r2,
           EvLog INFO (MsgAttempt p a strategy) :: events_of r1
           ++ EvLog INFO (MsgAttemptSucceeded p a spec_for_pip strategy)
           :: events_of r2 ++ [EvLog INFO (MsgFirstSuccessStop p name)])
        else
          let r3 := strategy_loop w pol package_spec download_dir name p total
                                  rest v' (state_of r2) in
          (value_of r3, state_of r3,
           EvLog INFO (MsgAttempt p a strategy) :: events_of r1
           ++ EvLog INFO (MsgAttemptSucceeded p a spec_for_pip strategy)
           :: events_of r2 ++ events_of r3)
      else
        let r3 := strategy_loop w pol package_spec download_dir name p total rest
                    {| download_success := download_success v;
                       attempt := S (attempt v);
                       attempt_success_count := attempt_success_count v |}
                    (state_of r1) in
        (value_of r3, state_of r3,
         EvLog INFO (MsgAttempt p a strategy) :: events_of r1
         ++ EvLog WARNING (MsgAttemptFailed p a spec_for_pip strategy) :: events_of r3)
    else strategy_loop w pol package_spec download_dir name p total rest v s.
Proof.
  cbn [strategy_loop].
  destruct (negb (download_success v) || DOWNLOAD_ALL_VERSIONS pol); [|reflexivity].
  cbv zeta. unfold bind at 1 2. unfold log at 1. cbn [visible].
  destruct (run_pip_download_deps w _ name download_dir _ strategy s) as [[b s1] e1].
  cbn [value_of state_of events_of fst snd].
  destruct b.
  - unfold bind at 1 2. unfold log at 1. cbn [visible].
    destruct ((if S (attempt_success_count v) =? 1
               then first_success_actions w pol package_spec download_dir name p
               else ret tt) s1) as [[u s2] e2].
    cbn [value_of state_of events_of fst snd].
    destruct (DOWNLOAD_ALL_VERSIONS pol); cbn [negb].
    + destruct (strategy_loop w pol package_spec download_dir name p total rest _ s2)
        as [[v3 s3] e3].
      reflexivity.
    + unfold bind, log, ret. cbn [visible app]. reflexivity.
  - unfold bind at 1. unfold log at 1. cbn [visible].
    destruct (strategy_loop w pol package_spec download_dir name p total rest _ s1)
      as [[v3 s3] e3].
    reflexivity.
Qed.


Lemma between_attempts_nil : between_attempts [].
Proof. repeat split. Qed.

Lemma one_time_step_post (pol : Policy) (package_spec download_dir name : string)
    (p : Progress) (n : nat) (s : State) :
  let subdir := os_path_join w download_dir (PyStr.re_sub_non_name name) in
  let r := (if n =? 1
            then first_success_actions w pol package_spec download_dir name p
            else ret tt) s in
  between_attempts (events_of r)
  /\ same_store s (state_of r)
  /\ Forall (agrees_on_subdir subdir package_spec) (events_of r)
  /\ Forall warns_only_of_failure (events_of r)
  /\ (n = 1 -> one_time_events pol p subdir download_dir package_spec (events_of r))
  /\ (n <> 1 -> events_of r = []).
Proof.
  cbv zeta. destruct (Nat.eqb_spec n 1) as [->|Hn].
  - destruct (first_success_actions_post pol package_spec download_dir name p s)
      as [H1 H2].
    destruct (one_time_events_facts _ _ _ _ _ _ H1) as (F1 & _ & _ & F4 & F5).
    split; [exact F1|]. split; [exact H2|]. split; [exact F4|].
    split; [exact F5|]. split; [intros _; exact H1 | intros H; contradiction].
  - split; [apply between_attempts_nil|]. split; [apply same_store_refl|].
    split; [constructor|]. split; [constructor|].
    split; [intros H; contradiction | reflexivity].
Qed.

Ltac count_norm :=
  repeat (rewrite count_cons || rewrite count_app || rewrite count_nil);
  rewrite ?attempted_strategies_app, ?attempted_strategies_for_app;
  cbn [is_attempt is_attempt_succeeded is_attempt_failed is_pip_call
       is_subdir_failure is_file_write is_copy_start].

(** Accounting of a run of the loop: one duration per pip call, one pip
    call or one subdirectory failure per attempt, one outcome record per
    attempt, and every pip call and install instruction on the same
    subdirectory. *)
Lemma strategy_loop_accounting (pol : Policy)
    (package_spec download_dir name : string) (p : Progress) (total : nat)
    (strategies : list Strategy) (v : LoopVars) (s : State) :
  let subdir := os_path_join w download_dir (PyStr.re_sub_non_name name) in
  let r := strategy_loop w pol package_spec download_dir name p total strategies v s in
  List.length (pip_call_times (state_of r))
  = List.length (pip_call_times s) + count is_pip_call (events_of r)
  /\ strategy_builds (state_of r) = strategy_builds s
  /\ debug_enabled (state_of r) = debug_enabled s
  /\ Forall (agrees_on_subdir subdir package_spec) (events_of r)
  /\ Forall warns_only_of_failure (events_of r)
  /\ count is_attempt (events_of r)
     = count is_pip_call (events_of r) + count is_subdir_failure (events_of r)
  /\ count is_attempt (events_of r)
     = count is_attempt_succeeded (events_of r) + count is_attempt_failed (events_of r)
  /\ attempt_success_count (value_of r)
     = attempt_success_count v + count is_attempt_succeeded (events_of r)
  /\ download_success (value_of r)
     = download_success v || negb (count is_attempt_succeeded (events_of r) =? 0).
Proof.
  cbv zeta. revert v s. induction strategies as [|strategy rest IH]; intros v s.
  - cbn. rewrite orb_false_r. repeat split; auto; constructor.
  - rewrite strategy_loop_cons.
    destruct (negb (download_success v) || DOWNLOAD_ALL_VERSIONS pol); [|apply IH].
    cbv zeta.
    match goal with
    | |- context [run_pip_download_deps w ?a ?b ?c ?d ?e s] =>
        pose proof (run_pip_download_deps_post a b c d e s) as Hp;
        set (r1 := run_pip_download_deps w a b c d e s) in *
    end.
    cbv zeta in Hp.
    destruct Hp as ((Q1 & Q2 & Q3 & Q4 & Q5 & Q6 & Q7) & T1 & T2 & T3 & T4 & T5 & T6 & T7).
    destruct (value_of r1).
    + pose proof (one_time_step_post pol package_spec download_dir name p
                    (S (attempt_success_count v)) (state_of r1)) as Ho.
      cbv zeta in Ho.
      set (r2 := (if S (attempt_success_count v) =? 1
                  then first_success_actions w pol package_spec download_dir name p
                  else ret tt) (state_of r1)) in *.
      destruct Ho as ((B1 & B2 & B3 & B4 & B5 & B6 & B7) & (S1 & S2 & S3) & O3 & O4 & _).
      destruct (DOWNLOAD_ALL_VERSIONS pol); cbn [negb].
      * match goal with
        | |- context [strategy_loop w pol ?a ?b ?c ?d ?e rest ?v' ?s'] =>
            specialize (IH v' s');
            set (r3 := strategy_loop w pol a b c d e rest v' s') in *
        end.
        destruct IH as (I1 & I2 & I3 & I4 & I5 & I6 & I7 & I8 & I9).
        cbn [value_of state_of events_of fst snd] in *.
        cbn [download_success attempt_success_count] in *.
        count_norm. rewrite S1 in I1.
        split; [lia|]. split; [lia|]. split; [congruence|].
        split.
        { constructor; [exact I|]. apply Forall_app. split; [apply T6|].
          constructor; [exact I|]. apply Forall_app. split; auto. }
        split.
        { constructor; [discriminate|]. apply Forall_app. split; [apply T7|].
          constructor; [discriminate|]. apply Forall_app. split; auto. }
        split; [lia|]. split; [lia|]. split; [lia|].
        rewrite I9. cbn [orb]. rewrite Q2. cbn. rewrite orb_true_r. reflexivity.
      * cbn [value_of state_of events_of fst snd] in *.
        cbn [download_success attempt_success_count] in *.
        count_norm.
        split; [rewrite S1; lia|]. split; [lia|]. split; [congruence|].
        split.
        { constructor; [exact I|]. apply Forall_app. split; [apply T6|].
          constructor; [exact I|]. apply Forall_app. split; auto.
          repeat constructor. }
        split.
        { constructor; [discriminate|]. apply Forall_app. split; [apply T7|].
          constructor; [discriminate|]. apply Forall_app. split; auto.
          repeat constructor. discriminate. }
        split; [lia|]. split; [lia|]. split; [lia|].
        rewrite Q2. cbn. rewrite orb_true_r. reflexivity.
    + match goal with
      | |- context [strategy_loop w pol ?a ?b ?c ?d ?e rest ?v' ?s'] =>
          specialize (IH v' s');
          set (r3 := strategy_loop w pol a b c d e rest v' s') in *
      end.
      destruct IH as (I1 & I2 & I3 & I4 & I5 & I6 & I7 & I8 & I9).
      cbn [value_of state_of events_of fst snd] in *.
      cbn [download_success attempt_success_count] in *.
      count_norm.
      split; [lia|]. split; [lia|]. split; [congruence|].
      split.
      { constructor; [exact I|]. apply Forall_app. split; [apply T6|].
        constructor; [exact I|]. auto. }
      split.
      { constructor; [discriminate|]. apply Forall_app. split; [apply T7|].
        constructor; [intros _; reflexivity|]. auto. }
      split; [lia|]. split; [lia|]. split; [lia|].
      rewrite I9, Q2. reflexivity.
Qed.


Lemma attempted_for_attempt (p a : Progress) (strategy : Strategy) (l : list Event) :
  attempted_strategies_for p (EvLog INFO (MsgAttempt p a strategy) :: l)
  = strategy :: attempted_strategies_for p l.
Proof.
  destruct p as [i n]. unfold attempted_strategies_for.
  cbn [flat_map fst snd]. rewrite !Nat.eqb_refl. reflexivity.
Qed.

Lemma attempted_for_other (p q a : Progress) (strategy : Strategy) (l : list Event) :
  q <> p ->
  attempted_strategies_for q (EvLog INFO (MsgAttempt p a strategy) :: l)
  = attempted_strategies_for q l.
Proof.
  destruct p as [i n], q as [j m]. intros Hne. unfold attempted_strategies_for.
  cbn [flat_map fst snd].
  destruct (Nat.eqb_spec i j) as [->|]; [|reflexivity].
  destruct (Nat.eqb_spec n m) as [->|]; [|reflexivity].
  contradiction Hne. reflexivity.
Qed.

Lemma attempted_for_log (q : Progress) (lvl : Level) (m : Msg) (l : list Event) :
  is_attempt (EvLog lvl m) = false ->
  attempted_strategies_for q (EvLog lvl m :: l) = attempted_strategies_for q l.
Proof.
  intros H. destruct lvl, m; try reflexivity; discriminate.
Qed.

Lemma attempted_log (lvl : Level) (m : Msg) (l : list Event) :
  is_attempt (EvLog lvl m) = false ->
  attempted_strategies (EvLog lvl m :: l) = attempted_strategies l.
Proof.
  intros H. destruct lvl, m; try reflexivity; discriminate.
Qed.

Lemma count_attempts_length (evs : list Event) :
  count is_attempt evs = List.length (attempted_strategies evs).
Proof.
  induction evs as [|e l IH]; [reflexivity|].
  rewrite count_cons, IH.
  destruct e as [[] []| | | |]; reflexivity.
Qed.

(** Coverage: under the exhaustive policy, or when no attempt
    succeeded, the strategies attempted are all the strategies, in
    order, and all are recorded under the requirement's own progress
    counter. *)
Lemma strategy_loop_coverage (pol : Policy)
    (package_spec download_dir name : string) (p : Progress) (total : nat)
    (strategies : list Strategy) (v : LoopVars) (s : State) :
  let r := strategy_loop w pol package_spec download_dir name p total strategies v s in
  (forall q, q <> p -> attempted_strategies_for q (events_of r) = [])
  /\ (DOWNLOAD_ALL_VERSIONS pol = true \/ download_success (value_of r) = false ->
      attempted_strategies (events_of r) = strategies
      /\ attempted_strategies_for p (events_of r) = strategies).
Proof.
  cbv zeta. revert v s. induction strategies as [|strategy rest IH]; intros v s.
  - cbn. auto.
  - pose proof (strategy_loop_accounting pol package_spec download_dir name p total
                  rest v s) as Hacc.
    cbv zeta in Hacc. destruct Hacc as (_ & _ & _ & _ & _ & _ & _ & _ & Hacc).
    rewrite strategy_loop_cons.
    destruct (negb (download_success v) || DOWNLOAD_ALL_VERSIONS pol) eqn:Hg.
    2:{ apply orb_false_iff in Hg as [Hg1 Hg2]. apply negb_false_iff in Hg1.
        split; [apply IH|]. intros [H|H]; [congruence|].
        rewrite Hacc, Hg1 in H. discriminate. }
    cbv zeta.
    match goal with
    | |- context [run_pip_download_deps w ?a ?b ?c ?d ?e s] =>
        pose proof (run_pip_download_deps_post a b c d e s) as Hp;
        set (r1 := run_pip_download_deps w a b c d e s) in *
    end.
    cbv zeta in Hp.
    destruct Hp as ((Q1 & Q2 & Q3 & Q4 & Q5 & Q6 & Q7) & _).
    destruct (value_of r1).
    + pose proof (one_time_step_post pol package_spec download_dir name p
                    (S (attempt_success_count v)) (state_of r1)) as Ho.
      cbv zeta in Ho.
      set (r2 := (if S (attempt_success_count v) =? 1
                  then first_success_actions w pol package_spec download_dir name p
                  else ret tt) (state_of r1)) in *.
      destruct Ho as ((B1 & B2 & B3 & B4 & B5 & B6 & B7) & _).
      destruct (DOWNLOAD_ALL_VERSIONS pol) eqn:Hall; cbn [negb].
      * match goal with
        | |- context [strategy_loop w pol ?a ?b ?c ?d ?e rest ?v' ?s'] =>
            specialize (IH v' s');
            set (r3 := strategy_loop w pol a b c d e rest v' s') in *
        end.
        destruct IH as [I1 I2]. specialize (I2 (or_introl eq_refl)).
        destruct I2 as [I2 I3].
        cbn [value_of state_of events_of fst snd].
        split.
        -- intros q Hq. rewrite attempted_for_other by exact Hq.
           rewrite attempted_strategies_for_app, Q7.
           rewrite (attempted_for_log q) by reflexivity.
           rewrite attempted_strategies_for_app, B7. cbn [app]. auto.
        -- intros _. rewrite attempted_for_attempt.
           rewrite attempted_strategies_for_app, Q7.
           rewrite (attempted_for_log p) by reflexivity.
           rewrite attempted_strategies_for_app, B7. cbn [app]. rewrite I3.
           split; [|reflexivity].
           change (strategy :: attempted_strategies
                     (events_of r1 ++ EvLog INFO (MsgAttemptSucceeded p (S (attempt v), total)
                        (dict_get known_dependencies (PyStr.lower name) package_spec)
                        strategy) :: events_of r2 ++ events_of r3) = strategy :: rest).
           rewrite attempted_strategies_app, Q6.
           rewrite attempted_log by reflexivity.
           rewrite attempted_strategies_app, B6, I2. reflexivity.
      * cbn [value_of state_of events_of fst snd download_success].
        split.
        -- intros q Hq. rewrite attempted_for_other by exact Hq.
           rewrite attempted_strategies_for_app, Q7.
           rewrite (attempted_for_log q) by reflexivity.
           rewrite attempted_strategies_for_app, B7. reflexivity.
        -- intros [H|H]; discriminate.
    + match goal with
      | |- context [strategy_loop w pol ?a ?b ?c ?d ?e rest ?v' ?s'] =>
          specialize (IH v' s');
          set (r3 := strategy_loop w pol a b c d e rest v' s') in *
      end.
      destruct IH as [I1 I2].
      cbn [value_of state_of events_of fst snd].
      split.
      * intros q Hq. rewrite attempted_for_other by exact Hq.
        rewrite attempted_strategies_for_app, Q7.
        rewrite (attempted_for_log q) by reflexivity. cbn [app]. auto.
      * intros H. destruct (I2 H) as [I3 I4].
        rewrite attempted_for_attempt.
        rewrite attempted_strategies_for_app, Q7.
        rewrite (attempted_for_log p) by reflexivity. cbn [app]. rewrite I4.
        split; [|reflexivity].
        change (strategy :: attempted_strategies
                  (events_of r1 ++ EvLog WARNING (MsgAttemptFailed p (S (attempt v), total)
                     (dict_get known_dependencies (PyStr.lower name) package_spec)
                     strategy) :: events_of r3) = strategy :: rest).
        rewrite attempted_strategies_app, Q6.
        rewrite attempted_log by reflexivity. rewrite I3. reflexivity.
Qed.


Lemma strategy_loop_after_first (pol : Policy)
    (package_spec download_dir name : string) (p : Progress) (total : nat)
    (strategies : list Strategy) (v : LoopVars) (s : State) :
  let r := strategy_loop w pol package_spec download_dir name p total strategies v s in
  1 <= attempt_success_count v ->
  count is_file_write (events_of r) = 0 /\ count is_copy_start (events_of r) = 0.
Proof.
  cbv zeta. revert v s. induction strategies as [|strategy rest IH]; intros v s Hv.
  - cbn. auto.
  - rewrite strategy_loop_cons.
    destruct (negb (download_success v) || DOWNLOAD_ALL_VERSIONS pol);
      [|apply IH; exact Hv].
    cbv zeta.
    match goal with
    | |- context [run_pip_download_deps w ?a ?b ?c ?d ?e s] =>
        pose proof (run_pip_download_deps_post a b c d e s) as Hp;
        set (r1 := run_pip_download_deps w a b c d e s) in *
    end.
    cbv zeta in Hp.
    destruct Hp as ((Q1 & Q2 & Q3 & Q4 & Q5 & Q6 & Q7) & _).
    destruct (value_of r1).
    + pose proof (one_time_step_post pol package_spec download_dir name p
                    (S (attempt_success_count v)) (state_of r1)) as Ho.
      cbv zeta in Ho.
      set (r2 := (if S (attempt_success_count v) =? 1
                  then first_success_actions w pol package_spec download_dir name p
                  else ret tt) (state_of r1)) in *.
      destruct Ho as (_ & _ & _ & _ & _ & O6).
      rewrite O6 by lia.
      destruct (DOWNLOAD_ALL_VERSIONS pol); cbn [negb].
      * match goal with
        | |- context [strategy_loop w pol ?a ?b ?c ?d ?e rest ?v' ?s'] =>
            specialize (IH v' s');
            set (r3 := strategy_loop w pol a b c d e rest v' s') in *
        end.
        cbn [attempt_success_count] in IH. destruct IH as [I1 I2]; [lia|].
        cbn [value_of state_of events_of fst snd]. count_norm. lia.
      * cbn [value_of state_of events_of fst snd]. count_norm. lia.
    + match goal with
      | |- context [strategy_loop w pol ?a ?b ?c ?d ?e rest ?v' ?s'] =>
          specialize (IH v' s');
          set (r3 := strategy_loop w pol a b c d e rest v' s') in *
      end.
      cbn [attempt_success_count] in IH. destruct IH as [I1 I2]; [lia|].
      cbn [value_of state_of events_of fst snd]. count_norm. lia.
Qed.

Lemma strategy_loop_first_success (pol : Policy)
    (package_spec download_dir name : string) (p : Progress) (total : nat)
    (strategies : list Strategy) (v : LoopVars) (s : State) :
  let subdir := os_path_join w download_dir (PyStr.re_sub_non_name name) in
  let r := strategy_loop w pol package_spec download_dir name p total strategies v s in
  attempt_success_count v = 0 ->
  never_acted (events_of r)
  \/ acted_on_first_success pol p subdir download_dir package_spec (events_of r).
Proof.
  cbv zeta. revert v s. induction strategies as [|strategy rest IH]; intros v s Hv.
  - left. repeat split.
  - rewrite strategy_loop_cons.
    destruct (negb (download_success v) || DOWNLOAD_ALL_VERSIONS pol);
      [|apply IH; exact Hv].
    cbv zeta.
    match goal with
    | |- context [run_pip_download_deps w ?a ?b ?c ?d ?e s] =>
        pose proof (run_pip_download_deps_post a b c d e s) as Hp;
        set (r1 := run_pip_download_deps w a b c d e s) in *
    end.
    cbv zeta in Hp.
    destruct Hp as ((Q1 & Q2 & Q3 & Q4 & Q5 & Q6 & Q7) & _).
    assert (Hpre : forall a strategy,
               never_acted (EvLog INFO (MsgAttempt p a strategy) :: events_of r1)).
    { intros a st. unfold never_acted. count_norm. lia. }
    destruct (value_of r1).
    + right.
      pose proof (one_time_step_post pol package_spec download_dir name p
                    (S (attempt_success_count v)) (state_of r1)) as Ho.
      cbv zeta in Ho.
      set (r2 := (if S (attempt_success_count v) =? 1
                  then first_success_actions w pol package_spec download_dir name p
                  else ret tt) (state_of r1)) in *.
      destruct Ho as (_ & _ & _ & _ & O5 & _).
      specialize (O5 ltac:(lia)).
      destruct (DOWNLOAD_ALL_VERSIONS pol); cbn [negb].
      * match goal with
        | |- context [strategy_loop w pol ?a ?b ?c ?d ?e rest ?v' ?s'] =>
            pose proof (strategy_loop_after_first pol a b c d e rest v' s') as Hl;
            set (r3 := strategy_loop w pol a b c d e rest v' s') in *
        end.
        cbv zeta in Hl. cbn [attempt_success_count] in Hl.
        destruct Hl as [L1 L2]; [lia|].
        cbn [value_of state_of events_of fst snd].
        eexists (_ :: events_of r1), _, _, _, (events_of r2), (events_of r3).
        split; [reflexivity|]. auto.
      * cbn [value_of state_of events_of fst snd].
        eexists (_ :: events_of r1), _, _, _, (events_of r2), [_].
        split; [reflexivity|]. split; [apply Hpre|]. split; [exact O5|].
        split; reflexivity.
    + match goal with
      | |- context [strategy_loop w pol ?a ?b ?c ?d ?e rest ?v' ?s'] =>
          specialize (IH v' s');
          set (r3 := strategy_loop w pol a b c d e rest v' s') in *
      end.
      cbn [attempt_success_count] in IH. specialize (IH Hv).
      cbn [value_of state_of events_of fst snd].
      destruct IH as [(N1 & N2 & N3) | (pre & a & sp & st & once & later & E & (N1 & N2 & N3) & Ho & L1 & L2)].
      * left. unfold never_acted. count_norm. lia.
      * right. rewrite E.
        exists (EvLog INFO (MsgAttempt p (S (attempt v), total) strategy)
                :: events_of r1
                ++ EvLog WARNING
                     (MsgAttemptFailed p (S (attempt v), total)
                        (dict_get known_dependencies (PyStr.lower name) package_spec)
                        strategy) :: pre),
          a, sp, st, once, later.
        split.
        { cbn [app]. rewrite <- app_assoc. reflexivity. }
        split; [|auto].
        unfold never_acted. count_norm. lia.
Qed.


(** ** The driver *)

(** The driver is its loop over [download_strategies], run after one
    more build of the strategies, between an opening and a closing
    record. *)
Lemma download_package_with_deps_run (pol : Policy)
    (package_spec download_dir : string) (p : Progress) (s : State) :
  let name := bare_name package_spec in
  let r := strategy_loop w pol package_spec download_dir name p total_attempts
                         download_strategies loop_start (built s) in
  download_package_with_deps_under w pol package_spec download_dir p s
  = (download_success (value_of r), state_of r,
     EvLog INFO (MsgProcessing p name package_spec)
     :: events_of r ++ [closing_record p name (value_of r)]).
Proof.
  cbv zeta. unfold download_package_with_deps_under, closing_record, total_attempts.
  unfold bind at 1 2 3. unfold log at 1, count_strategy_build. cbn [visible].
  fold (built s).
  destruct (strategy_loop w pol package_spec download_dir (bare_name package_spec) p
              (List.length download_strategies) download_strategies loop_start (built s))
    as [[v s1] e1].
  cbn [value_of state_of events_of fst snd].
  unfold bind, log, ret. destruct (download_success v); cbn [visible app];
    rewrite ?app_nil_r; reflexivity.
Qed.

Lemma closing_record_plain (p : Progress) (name : string) (v : LoopVars) :
  side_events [closing_record p name v].
Proof.
  unfold closing_record.
  destruct (download_success v); apply side_events_one; try reflexivity; discriminate.
Qed.

End ProgramFacts.

(** ** Attempts, outcomes and durations *)

Lemma acted_on_first_success_counts (pol : Policy) (p : Progress)
    (subdir download_dir package_spec : string) (evs : list Event) :
  acted_on_first_success pol p subdir download_dir package_spec evs ->
  1 <= count is_attempt_succeeded evs
  /\ count is_file_write evs = 1
  /\ count is_copy_start evs
     = (if COPY_FIRST_SET_TO_PARENT_DIRECTORY pol then 1 else 0)
  /\ exists o, In (EvFile BAT ModeA (install_instruction subdir package_spec) o) evs.
Proof.
  intros (pre & a & sp & st & once & later & -> & (N1 & N2 & N3) & Ho & L1 & L2).
  destruct (one_time_events_facts _ _ _ _ _ _ Ho) as (_ & F2 & F3 & _).
  repeat (rewrite count_cons || rewrite count_app).
  cbn [is_attempt_succeeded is_file_write is_copy_start].
  split; [lia|]. split; [lia|]. split; [lia|].
  destruct Ho as (o & x & y & -> & _). exists o.
  apply in_or_app. right. right. left. reflexivity.
Qed.

(** C1, as the code has it: every attempt gets exactly one outcome
    record and either calls pip or stops at a subdirectory that cannot
    be created; every pip call, failed or not, records one duration;
    and when the driver returns failure, all the strategies were
    attempted and recorded failed, with one duration for each attempt
    that reached pip. *)
Theorem attempts_outcomes_and_durations (w : World) (pol : Policy)
    (package_spec download_dir : string) (p : Progress) (s : State) :
  let r := download_package_with_deps_under w pol package_spec download_dir p s in
  let evs := events_of r in
  List.length (pip_call_times (state_of r))
  = List.length (pip_call_times s) + count is_pip_call evs
  /\ count is_attempt evs = count is_pip_call evs + count is_subdir_failure evs
  /\ count is_attempt evs = count is_attempt_succeeded evs + count is_attempt_failed evs
  /\ (value_of r = false ->
      count is_attempt evs = List.length download_strategies
      /\ count is_attempt_failed evs = List.length download_strategies
      /\ count is_attempt_succeeded evs = 0
      /\ List.length (pip_call_times (state_of r))
         = List.length (pip_call_times s)
           + (List.length download_strategies - count is_subdir_failure evs)).
Proof.
  cbv zeta. rewrite download_package_with_deps_run. cbv zeta.
  pose proof (strategy_loop_accounting w pol package_spec download_dir
                (bare_name package_spec) p total_attempts download_strategies
                loop_start (built s)) as Ha.
  pose proof (strategy_loop_coverage w pol package_spec download_dir
                (bare_name package_spec) p total_attempts download_strategies
                loop_start (built s)) as Hc.
  cbv zeta in Ha, Hc.
  set (r := strategy_loop w pol package_spec download_dir (bare_name package_spec) p
              total_attempts download_strategies loop_start (built s)) in *.
  destruct Ha as (A1 & _ & _ & _ & _ & A6 & A7 & A8 & A9).
  destruct Hc as [_ Hc].
  cbn [value_of state_of events_of fst snd].
  destruct (closing_record_plain p (bare_name package_spec) (value_of r))
    as ((K1 & K2 & K3 & _) & K4 & K5 & _).
  set (fin := [closing_record p (bare_name package_spec) (value_of r)]) in *.
  repeat (rewrite count_cons || rewrite count_app).
  cbn [is_attempt is_attempt_succeeded is_attempt_failed is_pip_call is_subdir_failure].
  rewrite K1, K2, K3, K4, K5. cbn [pip_call_times built] in A1.
  split; [lia|]. split; [lia|]. split; [lia|].
  intros Hf. destruct (Hc (or_intror Hf)) as [C1 _].
  rewrite count_attempts_length, C1 in A6, A7.
  rewrite Hf in A9. cbn [loop_start download_success orb] in A9.
  symmetry in A9. apply negb_false_iff, Nat.eqb_eq in A9.
  rewrite count_attempts_length, C1. lia.
Qed.


(** ** One destination subdirectory per sanitised name *)

Lemma download_package_events_agree (w : World) (pol : Policy)
    (package_spec download_dir : string) (p : Progress) (s : State) :
  let subdir :=
    os_path_join w download_dir (PyStr.re_sub_non_name (bare_name package_spec)) in
  let r := download_package_with_deps_under w pol package_spec download_dir p s in
  Forall (agrees_on_subdir subdir package_spec) (events_of r)
  /\ Forall warns_only_of_failure (events_of r).
Proof.
  cbv zeta. rewrite download_package_with_deps_run. cbv zeta.
  pose proof (strategy_loop_accounting w pol package_spec download_dir
                (bare_name package_spec) p total_attempts download_strategies
                loop_start (built s)) as Ha.
  cbv zeta in Ha. destruct Ha as (_ & _ & _ & A4 & A5 & _).
  destruct (closing_record_plain p (bare_name package_spec)
              (value_of (strategy_loop w pol package_spec download_dir
                           (bare_name package_spec) p total_attempts
                           download_strategies loop_start (built s))))
    as (_ & _ & _ & K1 & K2).
  cbn [events_of snd]. split.
  - constructor; [exact I|]. apply Forall_app. split; [exact A4 | apply K1].
  - constructor; [discriminate|]. apply Forall_app. split; [exact A5 | exact K2].
Qed.

(** C10: every pip call of the driver downloads into the destination
    root joined with the sanitised bare name, every file write of the
    driver is the install instruction naming that same path, and when
    the driver reports success such an instruction was written. *)
Theorem instruction_subdir_is_download_subdir (w : World) (pol : Policy)
    (package_spec download_dir : string) (p : Progress) (s : State) :
  let subdir :=
    os_path_join w download_dir (PyStr.re_sub_non_name (bare_name package_spec)) in
  let r := download_package_with_deps_under w pol package_spec download_dir p s in
  Forall (agrees_on_subdir subdir package_spec) (events_of r)
  /\ (value_of r = true ->
      exists o,
        In (EvFile BAT ModeA (install_instruction subdir package_spec) o) (events_of r)).
Proof.
  cbv zeta. split; [apply download_package_events_agree|].
  rewrite download_package_with_deps_run. cbv zeta.
  pose proof (strategy_loop_accounting w pol package_spec download_dir
                (bare_name package_spec) p total_attempts download_strategies
                loop_start (built s)) as Ha.
  pose proof (strategy_loop_first_success w pol package_spec download_dir
                (bare_name package_spec) p total_attempts download_strategies
                loop_start (built s) eq_refl) as Hf.
  cbv zeta in Ha, Hf.
  set (r := strategy_loop w pol package_spec download_dir (bare_name package_spec) p
              total_attempts download_strategies loop_start (built s)) in *.
  destruct Ha as (_ & _ & _ & _ & _ & _ & _ & _ & A9).
  cbn [value_of state_of events_of fst snd loop_start download_success orb] in *.
  intros Ht. rewrite Ht in A9. symmetry in A9.
  apply negb_true_iff, Nat.eqb_neq in A9.
  destruct Hf as [(N1 & _) | Hf]; [contradiction|].
  destruct (acted_on_first_success_counts _ _ _ _ _ _ Hf) as (_ & _ & _ & o & Ho).
  exists o. right. apply in_or_app. left. exact Ho.
Qed.

(** C9, as the code has it: two requirements whose bare names have the
    same sanitised form are downloaded into the same subdirectory, and
    a warning of the driver always reports a failure (of a pip command,
    of an attempt, or a missing source of the promotion copy), never
    the collision. *)
Theorem colliding_names_share_subdir (w : World) (pol : Policy)
    (spec1 spec2 download_dir : string) (p1 p2 : Progress) (s1 s2 : State) :
  PyStr.re_sub_non_name (bare_name spec1) = PyStr.re_sub_non_name (bare_name spec2) ->
  let subdir :=
    os_path_join w download_dir (PyStr.re_sub_non_name (bare_name spec1)) in
  let r1 := download_package_with_deps_under w pol spec1 download_dir p1 s1 in
  let r2 := download_package_with_deps_under w pol spec2 download_dir p2 s2 in
  Forall (agrees_on_subdir subdir spec1) (events_of r1)
  /\ Forall (agrees_on_subdir subdir spec2) (events_of r2)
  /\ Forall warns_only_of_failure (events_of r1)
  /\ Forall warns_only_of_failure (events_of r2).
Proof.
  intros Heq. cbv zeta.
  destruct (download_package_events_agree w pol spec1 download_dir p1 s1) as [A1 A2].
  destruct (download_package_events_agree w pol spec2 download_dir p2 s2) as [B1 B2].
  rewrite <- Heq in B1. auto.
Qed.

Lemma colliding_names_share_subdir_witness :
  PyStr.re_sub_non_name (bare_name "a.b") = PyStr.re_sub_non_name (bare_name "ab")
  /\ (let w := steady_world colliding_requirements pip_ok true in
      let subdir :=
        os_path_join w DEFAULT_DOWNLOAD_DIR (PyStr.re_sub_non_name (bare_name "a.b")) in
      let r1 := download_package_with_deps_under w source_policy "a.b"
                  DEFAULT_DOWNLOAD_DIR (1, 2) initial_state in
      let r2 := download_package_with_deps_under w source_policy "ab"
                  DEFAULT_DOWNLOAD_DIR (2, 2) initial_state in
      Forall (agrees_on_subdir subdir "a.b") (events_of r1)
      /\ Forall (agrees_on_subdir subdir "ab") (events_of r2)
      /\ Forall warns_only_of_failure (events_of r1)
      /\ Forall warns_only_of_failure (events_of r2)).
Proof.
  split; [reflexivity|].
  exact (colliding_names_share_subdir
           (steady_world colliding_requirements pip_ok true) source_policy
           "a.b" "ab" DEFAULT_DOWNLOAD_DIR (1, 2) (2, 2) initial_state initial_state
           eq_refl).
Defined.

(** ** The run over all requirements *)

Lemma between_attempts_app (a b : list Event) :
  between_attempts a -> between_attempts b -> between_attempts (a ++ b).
Proof.
  unfold between_attempts.
  intros (A1 & A2 & A3 & A4 & A5 & A6 & A7) (B1 & B2 & B3 & B4 & B5 & B6 & B7).
  rewrite !count_app, attempted_strategies_app, A1, A2, A3, A4, A5, A6,
    B1, B2, B3, B4, B5, B6.
  repeat split. intros q. rewrite attempted_strategies_for_app, A7, B7. reflexivity.
Qed.

Lemma between_attempts_one (e : Event) :
  is_attempt e = false ->
  is_attempt_succeeded e = false ->
  is_attempt_failed e = false ->
  is_pip_call e = false ->
  is_subdir_failure e = false ->
  between_attempts [e].
Proof.
  intros H1 H2 H3 H4 H5. unfold between_attempts.
  rewrite !count_cons, H1, H2, H3, H4, H5.
  assert (Ha : attempted_strategies [e] = []).
  { destruct e as [[] []| | | |]; try reflexivity; discriminate. }
  assert (Hb : forall q, attempted_strategies_for q [e] = []).
  { intros q. destruct e as [[] []| | | |]; try reflexivity; discriminate. }
  repeat split; auto.
Qed.

Lemma between_attempts_cons (e : Event) (l : list Event) :
  is_attempt e = false ->
  is_attempt_succeeded e = false ->
  is_attempt_failed e = false ->
  is_pip_call e = false ->
  is_subdir_failure e = false ->
  between_attempts l ->
  between_attempts (e :: l).
Proof.
  intros H1 H2 H3 H4 H5 Hl.
  apply (between_attempts_app [e] l); [apply between_attempts_one|]; assumption.
Qed.

Lemma download_package_with_deps_post (w : World)
    (package_spec download_dir : string) (p : Progress) (s : State) :
  let r := download_package_with_deps w package_spec download_dir p s in
  strategy_builds (state_of r) = S (strategy_builds s)
  /\ attempted_strategies_for p (events_of r) = download_strategies
  /\ (forall q, q <> p -> attempted_strategies_for q (events_of r) = []).
Proof.
  cbv zeta. unfold download_package_with_deps.
  rewrite download_package_with_deps_run. cbv zeta.
  pose proof (strategy_loop_accounting w source_policy package_spec download_dir
                (bare_name package_spec) p total_attempts download_strategies
                loop_start (built s)) as Ha.
  pose proof (strategy_loop_coverage w source_policy package_spec download_dir
                (bare_name package_spec) p total_attempts download_strategies
                loop_start (built s)) as Hc.
  cbv zeta in Ha, Hc.
  set (r := strategy_loop w source_policy package_spec download_dir
              (bare_name package_spec) p total_attempts download_strategies
              loop_start (built s)) in *.
  destruct Ha as (_ & A2 & _).
  destruct Hc as [C0 Hc]. destruct (Hc (or_introl eq_refl)) as [_ C2].
  destruct (closing_record_plain p (bare_name package_spec) (value_of r))
    as ((_ & _ & _ & _ & _ & _ & K7) & _).
  cbn [value_of state_of events_of fst snd].
  split; [exact A2|]. split.
  - rewrite (attempted_for_log p) by reflexivity.
    rewrite attempted_strategies_for_app, K7, app_nil_r. exact C2.
  - intros q Hq. rewrite (attempted_for_log q) by reflexivity.
    rewrite attempted_strategies_for_app, K7, app_nil_r. apply C0. exact Hq.
Qed.

Lemma process_packages_cons (w : World) (download_dir : string) (total : nat)
    (package_spec : string) (rest : list string) (c : nat)
    (succeeded failed : list string) (s : State) :
  process_packages w download_dir total (package_spec :: rest) c succeeded failed s
  = let r1 := download_package_with_deps w package_spec download_dir (S c, total) s in
    let r2 := if value_of r1
              then process_packages w download_dir total rest (S c)
                     (succeeded ++ [package_spec]) failed (state_of r1)
              else process_packages w download_dir total rest (S c)
                     succeeded (failed ++ [package_spec]) (state_of r1) in
    (value_of r2, state_of r2,
     events_of r1 ++ EvLog INFO MsgPackageRule :: events_of r2).
Proof.
  cbn [process_packages]. unfold bind at 1.
  destruct (download_package_with_deps w package_spec download_dir (S c, total) s)
    as [[ok s1] e1].
  cbv zeta. cbn [value_of state_of events_of fst snd].
  unfold bind at 1. unfold log at 1. cbn [visible].
  destruct ok.
  - destruct (process_packages w download_dir total rest (S c)
                (succeeded ++ [package_spec]) failed s1) as [[v s2] e2].
    reflexivity.
  - destruct (process_packages w download_dir total rest (S c)
                succeeded (failed ++ [package_spec]) s1) as [[v s2] e2].
    reflexivity.
Qed.

Lemma process_packages_post (w : World) (download_dir : string) (total : nat)
    (valid : list string) (c : nat) (succeeded failed : list string) (s : State) :
  let r := process_packages w download_dir total valid c succeeded failed s in
  strategy_builds (state_of r) = strategy_builds s + List.length valid
  /\ (forall i, c < i <= c + List.length valid ->
        attempted_strategies_for (i, total) (events_of r) = download_strategies)
  /\ (forall i, i <= c ->
        attempted_strategies_for (i, total) (events_of r) = []).
Proof.
  cbv zeta. revert c succeeded failed s.
  induction valid as [|package_spec rest IH]; intros c succeeded failed s.
  - cbn. split; [lia|]. split; [intros i Hi; lia | reflexivity].
  - rewrite process_packages_cons. cbv zeta.
    pose proof (download_package_with_deps_post w package_spec download_dir
                  (S c, total) s) as Hd.
    cbv zeta in Hd.
    set (r1 := download_package_with_deps w package_spec download_dir (S c, total) s)
      in *.
    destruct Hd as (D1 & D2 & D3).
    match goal with
    | |- context [if value_of r1 then ?a else ?b] =>
        assert (Hr : exists sa fa,
                   (if value_of r1 then a else b)
                   = process_packages w download_dir total rest (S c) sa fa (state_of r1))
          by (destruct (value_of r1); eauto);
        set (r2 := if value_of r1 then a else b) in *
    end.
    destruct Hr as (sa & fa & Hr).
    destruct (IH (S c) sa fa (state_of r1)) as (I1 & I2 & I3).
    rewrite <- Hr in I1, I2, I3.
    cbn [value_of state_of events_of fst snd List.length].
    split; [lia|]. split.
    + intros i Hi. rewrite attempted_strategies_for_app.
      rewrite (attempted_for_log (i, total)) by reflexivity.
      destruct (Nat.eq_dec i (S c)) as [->|Hne].
      * rewrite D2, I3 by lia. apply app_nil_r.
      * rewrite D3 by congruence. rewrite I2 by lia. reflexivity.
    + intros i Hi. rewrite attempted_strategies_for_app.
      rewrite (attempted_for_log (i, total)) by reflexivity.
      rewrite D3, I3 by (try lia; intros [=]; lia). reflexivity.
Qed.

Lemma log_each_warning (msgs : list Msg) (s : State) :
  log_each WARNING msgs s = (tt, s, map (EvLog WARNING) msgs).
Proof.
  induction msgs as [|m rest IH]; [reflexivity|].
  cbn [log_each]. unfold bind. unfold log at 1. rewrite IH. reflexivity.
Qed.

Lemma failed_packages_between (failed : list string) :
  between_attempts (map (EvLog WARNING) (map MsgFailedPackage failed)).
Proof.
  induction failed as [|f rest IH]; [apply between_attempts_nil|].
  cbn [map]. apply between_attempts_cons; try reflexivity. exact IH.
Qed.

Ltac between :=
  repeat match goal with
         | |- between_attempts [] => apply between_attempts_nil
         | |- between_attempts (map (EvLog WARNING) (map MsgFailedPackage _)) =>
             apply failed_packages_between
         | |- between_attempts (_ :: _) =>
             apply between_attempts_cons; [reflexivity..|]
         | |- between_attempts (_ ++ _) => apply between_attempts_app
         end.

(** The run after the requirement list is read: the loop over the
    requirements between a prologue and an epilogue that hold no
    attempt; the epilogue holds the summary and the status is 0. *)
Lemma run_packages_run (w : World) (requirements_file download_dir : string)
    (start_time : Z) (valid : list string) (s : State) :
  exists pre post s2,
    run_packages w requirements_file download_dir start_time valid s
    = (0%Z, s2,
       pre ++ events_of (process_packages w download_dir (List.length valid) valid
                           0 [] [] (ticked s))
           ++ post)
    /\ between_attempts pre
    /\ between_attempts post
    /\ In (EvLog INFO MsgFinished) post
    /\ strategy_builds s2
       = strategy_builds (state_of (process_packages w download_dir (List.length valid)
                                      valid 0 [] [] (ticked s))).
Proof.
  unfold run_packages.
  cbv beta delta [bind ret ask emit log write_file get_pip_call_times].
  cbn [visible]. cbv beta iota zeta.
  destruct (List.length valid =? 0);
    (destruct (open_write w (now s) BAT) as [|k1]; cbv beta iota zeta;
     [|match goal with |- context [?n <=? k1] => destruct (n <=? k1) end]);
    cbv beta iota zeta; fold (ticked s);
    (destruct (process_packages w download_dir (List.length valid) valid 0 [] []
                 (ticked s)) as [[[[pc sp] fp] s3] e3]);
    cbv beta iota zeta;
    cbn [value_of state_of events_of fst snd];
    (destruct (open_write w (now s3) BAT) as [|k2]; cbv beta iota zeta;
     [|match goal with |- context [?n <=? k2] => destruct (n <=? k2) end]);
    cbv beta iota zeta;
    (destruct fp as [|f fr]; [|rewrite log_each_warning]);
    cbv beta iota zeta;
    cbn [fst snd app now pip_call_times debug_enabled strategy_builds];
    destruct (pip_call_times s3) as [|t ts];
    cbv beta iota zeta;
    cbn [fst snd app now pip_call_times debug_enabled strategy_builds];
    (first [ eexists [_; _; _; _], _, _; split; [reflexivity|]
           | eexists [_; _; _; _; _], _, _; split; [reflexivity|]
           | eexists [_; _; _; _; _; _], _, _; split; [reflexivity|] ]);
    (split; [between|]); (split; [between|]);
    (split; [cbn [In app]; auto 8 | reflexivity]).
Qed.

(** ** The exit status *)

(** The cases of [main]: an early exit with status 1 and no summary, or
    the run over the requirements that were read. *)
Lemma main_run (w : World) (args : Args) (s : State) :
  let r := main w args s in
  (value_of r = 1%Z
   /\ (requirements_missing w args s \/ destination_uncreatable w args s
       \/ requirements_unreadable w args s)
   /\ ~ In (EvLog INFO MsgFinished) (events_of r))
  \/ (exists text s0 pre,
        os_path_isfile w (S (now s)) (requirements args) = true
        /\ os_makedirs w (S (S (now s))) (dest args) = true
        /\ open_read w (S (S (S (now s)))) (requirements args) = ReadOk text
        /\ strategy_builds s0 = strategy_builds s
        /\ between_attempts pre
        /\ let r' := run_packages w (requirements args) (dest args)
                       (perf_counter w (now s)) (read_requirements text) s0 in
           value_of r = value_of r'
           /\ state_of r = state_of r'
           /\ events_of r = pre ++ events_of r').
Proof.
  cbv zeta. unfold main, requirements_missing, destination_uncreatable,
    requirements_unreadable.
  cbv beta delta [bind ret ask emit log reset_pip_call_times enable_debug].
  cbv beta iota zeta.
  cbn [now pip_call_times debug_enabled strategy_builds visible].
  assert (Hearly : forall (evs : list Event) (st : State) (P Q R : Prop),
             P \/ Q \/ R ->
             Forall (fun e => e <> EvLog INFO MsgFinished) evs ->
             (1%Z = 1%Z /\ (P \/ Q \/ R) /\ ~ In (EvLog INFO MsgFinished) evs)).
  { intros evs st P Q R H Hall. split; [reflexivity|]. split; [exact H|].
    intros Hin. rewrite Forall_forall in Hall. apply (Hall _ Hin). reflexivity. }
  destruct (verbose args); cbv beta iota zeta;
    cbn [now pip_call_times debug_enabled strategy_builds visible fst snd app];
    (destruct (os_path_isfile w (S (now s)) (requirements args));
     cbv beta iota zeta;
     cbn [now pip_call_times debug_enabled strategy_builds visible fst snd app negb
          value_of state_of events_of];
     [|left; apply (Hearly _ s); [auto | repeat constructor; discriminate]]);
    (destruct (os_makedirs w (S (S (now s))) (dest args));
     cbv beta iota zeta;
     cbn [now pip_call_times debug_enabled strategy_builds visible fst snd app negb
          value_of state_of events_of];
     [|left; apply (Hearly _ s); [auto | repeat constructor; discriminate]]);
    (destruct (open_read w (S (S (S (now s)))) (requirements args)) as [text| |];
     cbv beta iota zeta;
     cbn [now pip_call_times debug_enabled strategy_builds visible fst snd app negb
          value_of state_of events_of];
     [|left; apply (Hearly _ s); [auto | repeat constructor; discriminate]..]);
    right; exists text;
    match goal with
    | |- context [run_packages w ?a ?b ?c ?d ?s0] =>
        exists s0; destruct (run_packages w a b c d s0) as [[v s2] e2]
    end;
    cbn [value_of state_of events_of fst snd];
    first [ exists [EvMakedirs (dest args) true;
                    EvLog INFO (MsgUsingBase (os_path_abspath w (dest args)))];
            repeat (split; [reflexivity|]); (split; [between|]);
            repeat split; reflexivity
          | exists [EvLog DEBUG MsgDebugEnabled; EvMakedirs (dest args) true;
                    EvLog INFO (MsgUsingBase (os_path_abspath w (dest args)))];
            repeat (split; [reflexivity|]); (split; [between|]);
            repeat split; reflexivity ].
Qed.


(** ** Strategy generation across a run *)

(** C8, as the code has it: the strategy sequence is built once for
    each requirement processed, not once for the run; being built from
    constants it is the same sequence each time, and every requirement
    is attempted with all of it, in the same order. *)
Theorem strategies_rebuilt_for_each_requirement (w : World) (args : Args) (s : State) :
  let r := main w args s in
  value_of r = 0%Z ->
  exists text,
    open_read w (S (S (S (now s)))) (requirements args) = ReadOk text
    /\ let n := List.length (read_requirements text) in
       strategy_builds (state_of r) = strategy_builds s + n
       /\ forall i, 1 <= i <= n ->
            attempted_strategies_for (i, n) (events_of r) = download_strategies.
Proof.
  cbv zeta. intros Hv.
  destruct (main_run w args s)
    as [(H1 & _) | (text & s0 & pre & _ & _ & F3 & B0 & Hpre & H)].
  { rewrite H1 in Hv. discriminate. }
  exists text. split; [exact F3|].
  cbv zeta in H. destruct H as (_ & S & E).
  destruct (run_packages_run w (requirements args) (dest args)
              (perf_counter w (now s)) (read_requirements text) s0)
    as (pre' & post & s2 & R & Hpre' & Hpost & _ & B2).
  rewrite R in S, E. cbn [state_of events_of fst snd] in S, E.
  destruct (process_packages_post w (dest args)
              (List.length (read_requirements text)) (read_requirements text)
              0 [] [] (ticked s0)) as (P1 & P2 & _).
  rewrite S, E, B2, P1. cbn [ticked strategy_builds]. rewrite B0.
  split; [reflexivity|].
  intros i Hi. rewrite !attempted_strategies_for_app.
  destruct Hpre as (_ & _ & _ & _ & _ & _ & Z1).
  destruct Hpre' as (_ & _ & _ & _ & _ & _ & Z2).
  destruct Hpost as (_ & _ & _ & _ & _ & _ & Z3).
  rewrite Z1, Z2, Z3, P2 by lia. cbn [app]. apply app_nil_r.
Qed.

Lemma strategies_rebuilt_for_each_requirement_witness :
  let w := steady_world colliding_requirements pip_ok true in
  let r := main w default_args initial_state in
  value_of r = 0%Z
  /\ exists text,
       open_read w (S (S (S (now initial_state)))) (requirements default_args)
       = ReadOk text
       /\ let n := List.length (read_requirements text) in
          strategy_builds (state_of r) = strategy_builds initial_state + n
          /\ forall i, 1 <= i <= n ->
               attempted_strategies_for (i, n) (events_of r) = download_strategies.
Proof.
  split; [vm_compute; reflexivity|].
  exact (strategies_rebuilt_for_each_requirement
           (steady_world colliding_requirements pip_ok true) default_args
           initial_state eq_refl).
Defined.

(** ** Runs that contradict the specification *)

(** Against C1: when the subdirectory cannot be created, all 43
    attempts are made and recorded failed, yet no duration at all is
    recorded. *)
Lemma no_duration_when_subdir_fails :
  let r := download_package_with_deps (steady_world "" pip_ok false) "flask"
             DEFAULT_DOWNLOAD_DIR (1, 1) initial_state in
  value_of r = false
  /\ List.length download_strategies = 43
  /\ count is_attempt (events_of r) = 43
  /\ count is_attempt_failed (events_of r) = 43
  /\ pip_call_times (state_of r) = []
  /\ List.length (pip_call_times (state_of r)) <> List.length download_strategies.
Proof.
  vm_compute. repeat split. discriminate.
Qed.

(** Against C8: in a run over two requirements the strategy sequence
    is built twice. *)
Lemma strategies_built_twice_for_two_requirements :
  let r := main (steady_world colliding_requirements pip_ok true) default_args
                initial_state in
  value_of r = 0%Z
  /\ read_requirements colliding_requirements = ["a.b"; "ab"]
  /\ strategy_builds (state_of r) = 2
  /\ strategy_builds (state_of r) <> 1.
Proof.
  vm_compute. repeat split. discriminate.
Qed.

(** Against C9: the distinct names [a.b] and [ab] are both downloaded
    into [wheels_offline/ab], by 86 successful pip calls, and the run
    logs no warning at all. *)
Lemma collision_merges_without_warning :
  let r := main (steady_world colliding_requirements pip_ok true) default_args
                initial_state in
  read_requirements colliding_requirements = ["a.b"; "ab"]
  /\ bare_name "a.b" <> bare_name "ab"
  /\ PyStr.re_sub_non_name (bare_name "a.b") = PyStr.re_sub_non_name (bare_name "ab")
  /\ count is_pip_call (events_of r) = 86
  /\ count is_attempt_succeeded (events_of r) = 86
  /\ all_pip_calls_into "wheels_offline/ab" (events_of r) = true
  /\ count is_warning (events_of r) = 0.
Proof.
  vm_compute. repeat split. discriminate.
Qed.

(** * Further properties of the code *)

(** ** The strategy generator *)

Lemma prefix_append (p s : string) : String.prefix p (p +++ s) = true.
Proof.
  induction p as [|c p IH]; [apply prefix_empty|].
  cbn [String.append]. rewrite prefix_cons.
  destruct (ascii_dec c c); [exact IH | contradiction].
Qed.

(** The derived tag always begins with [cp] or [abi]. *)
Lemma abi_specific_is_compiled (token : string) :
  PyStr.startswith_any ["cp"; "abi"] (abi_specific_of token) = true.
Proof.
  unfold PyStr.startswith_any, PyStr.startswith, abi_specific_of. cbn [existsb].
  destruct (PyStr.contains "." token);
    [|destruct (String.length token =? 1)];
    rewrite ?prefix_append, ?orb_true_r; reflexivity.
Qed.

Lemma make_strategy_inj (p v a i b p' v' a' i' b' : string) :
  make_strategy p v a i b = make_strategy p' v' a' i' b' ->
  p = p' /\ v = v' /\ a = a' /\ i = i' /\ b = b'.
Proof. unfold make_strategy. intros [= -> -> -> -> ->]. repeat split. Qed.

Lemma enumerate_combinations_complete ps vs ims bs p v a i b :
  In p ps -> In v vs -> In a (specific_abis_of v) -> In i ims -> In b bs ->
  invalid_combination i a = false ->
  In (make_strategy p v a i b) (enumerate_combinations ps vs ims bs).
Proof.
  intros Hp Hv Ha Hi Hb Hinv. unfold enumerate_combinations.
  apply in_flat_map. exists p. split; [exact Hp|].
  apply in_flat_map. exists v. split; [exact Hv|].
  apply in_flat_map. exists a. split; [exact Ha|].
  apply in_flat_map. exists i. split; [exact Hi|].
  rewrite Hinv. apply in_map. exact Hb.
Qed.

(** X1: the generator emits exactly the combinations it does not skip,
    plus the empty constraint: a sequence is generated iff it is empty
    or combines configured values that are not an invalid pairing; and
    a generated constraint for the implementation [py] always carries
    the ABI [none]. *)
Theorem generated_iff_valid_combination
    (platforms versions implementations binary_types : list string) (s : Strategy) :
  (In s (build_strategies platforms versions implementations binary_types)
   <-> s = []
       \/ exists p v a i b,
            In p platforms /\ In v versions /\ In a (specific_abis_of v)
            /\ In i implementations /\ In b binary_types
            /\ invalid_combination i a = false
            /\ s = make_strategy p v a i b)
  /\ (forall p v a b,
        s = make_strategy p v a "py" b ->
        In s (build_strategies platforms versions implementations binary_types) ->
        a = "none").
Proof.
  unfold build_strategies. split; [split|].
  - intros H. apply in_app_or in H as [H|[<-|[]]]; [right | left; reflexivity].
    apply in_enumerate_combinations. exact H.
  - intros [->|(p & v & a & i & b & Hp & Hv & Ha & Hi & Hb & Hinv & ->)].
    + apply in_or_app. right. left. reflexivity.
    + apply in_or_app. left. apply enumerate_combinations_complete; assumption.
  - intros p v a b -> H. apply in_app_or in H as [H|[H|[]]]; [|discriminate].
    apply in_enumerate_combinations in H.
    destruct H as (p' & v' & a' & i' & b' & _ & _ & Ha & _ & _ & Hinv & E).
    apply make_strategy_inj in E as (_ & _ & -> & <- & _).
    destruct Ha as [<-|[<-|[]]]; [reflexivity|].
    unfold invalid_combination in Hinv.
    rewrite abi_specific_is_compiled in Hinv. discriminate.
Qed.

(** The implementations that are not [py]. *)
Lemma combinations_per_abi (p v a : string) (ims bs : list string) :
  List.length
    (flat_map (fun i => if invalid_combination i a then []
                        else map (make_strategy p v a i) bs) ims)
  = List.length (filter (fun i => negb (invalid_combination i a)) ims)
    * List.length bs.
Proof.
  induction ims as [|i ims IH]; [reflexivity|].
  cbn [flat_map filter]. rewrite length_app, IH.
  destruct (invalid_combination i a); cbn [negb List.length];
    rewrite ?length_map; lia.
Qed.

(** X2: the number of generated constraints is one more than
    platforms x versions x binary flags x (implementations +
    implementations other than [py]): every implementation is paired
    with the ABI [none], and all but [py] with the derived tag. *)
Theorem number_of_strategies
    (platforms versions implementations binary_types : list string) :
  List.length (build_strategies platforms versions implementations binary_types)
  = List.length platforms * (List.length versions
      * ((List.length implementations
          + List.length (filter (fun i => negb (i =? "py")%string) implementations))
         * List.length binary_types))
    + 1.
Proof.
  unfold build_strategies, enumerate_combinations. rewrite length_app. cbn [List.length].
  f_equal. apply flat_map_constant_length. intros p _.
  apply flat_map_constant_length. intros v _.
  unfold specific_abis_of. cbn [flat_map]. rewrite app_nil_r, length_app.
  rewrite !combinations_per_abi, Nat.mul_add_distr_r. f_equal.
  - f_equal. rewrite (filter_ext_in _ (fun _ => true)).
    + clear. induction implementations as [|i l IH]; [reflexivity|].
      cbn [filter List.length]. rewrite IH. reflexivity.
    + intros i _. unfold invalid_combination.
      replace (PyStr.startswith_any ["cp"; "abi"] "none") with false by reflexivity.
      rewrite andb_false_r. reflexivity.
  - f_equal. f_equal. apply filter_ext. intros i. unfold invalid_combination.
    rewrite abi_specific_is_compiled, andb_true_r. reflexivity.
Qed.

(** ** Names and specifiers *)

Lemma filter_chars_keeps (keep : ascii -> bool) (s : string) (c : ascii) :
  In c (PyStr.chars (PyStr.filter_chars keep s)) ->
  keep c = true /\ In c (PyStr.chars s).
Proof.
  unfold PyStr.chars. induction s as [|d t IH]; [intros []|].
  cbn [PyStr.filter_chars]. destruct (keep d) eqn:E.
  - cbn [list_ascii_of_string In]. intros [<-|H]; [auto|].
    destruct (IH H). auto.
  - cbn [list_ascii_of_string In]. intros H. destruct (IH H). auto.
Qed.

Lemma filter_chars_fixed (keep : ascii -> bool) (s : string) :
  PyStr.filter_chars keep s = s
  <-> (forall c, In c (PyStr.chars s) -> keep c = true).
Proof.
  unfold PyStr.chars. induction s as [|d t IH]; [split; [intros _ c [] | reflexivity]|].
  cbn [PyStr.filter_chars list_ascii_of_string In]. destruct (keep d) eqn:E.
  - split.
    + intros [= H] c [<-|Hc]; [exact E | apply IH; assumption].
    + intros H. f_equal. apply IH. intros c Hc. apply H. right. exact Hc.
  - split.
    + intros H. exfalso.
      assert (Hd : In d (PyStr.chars (PyStr.filter_chars keep t))).
      { rewrite H. left. reflexivity. }
      apply filter_chars_keeps in Hd as [Hd _]. congruence.
    + intros H. specialize (H d (or_introl eq_refl)). congruence.
Qed.

Lemma filter_chars_length (keep : ascii -> bool) (s : string) :
  String.length (PyStr.filter_chars keep s) <= String.length s.
Proof.
  induction s as [|d t IH]; [reflexivity|].
  cbn [PyStr.filter_chars]. destruct (keep d); cbn [String.length]; lia.
Qed.

(** X3: a sanitised name holds only letters, digits, underscore and
    hyphen, hence no path separator, dot, colon or blank; sanitising is
    idempotent, never lengthens, and leaves a name unchanged exactly
    when all its characters are of that class. *)
Theorem sanitised_name_is_safe (name : string) :
  let n := PyStr.re_sub_non_name name in
  (forall c, In c (PyStr.chars n) -> PyStr.is_name_char c = true)
  /\ ~ In "/"%char (PyStr.chars n)
  /\ ~ In (ascii_of_nat 92) (PyStr.chars n)
  /\ ~ In "."%char (PyStr.chars n)
  /\ ~ In ":"%char (PyStr.chars n)
  /\ ~ In " "%char (PyStr.chars n)
  /\ PyStr.re_sub_non_name n = n
  /\ String.length n <= String.length name
  /\ (n = name <-> forall c, In c (PyStr.chars name) -> PyStr.is_name_char c = true).
Proof.
  cbv zeta. unfold PyStr.re_sub_non_name.
  assert (H : forall c, In c (PyStr.chars (PyStr.filter_chars PyStr.is_name_char name)) ->
                        PyStr.is_name_char c = true).
  { intros c Hc. apply filter_chars_keeps in Hc. tauto. }
  split; [exact H|].
  split; [intros Hc; apply H in Hc; discriminate|].
  split; [intros Hc; apply H in Hc; discriminate|].
  split; [intros Hc; apply H in Hc; discriminate|].
  split; [intros Hc; apply H in Hc; discriminate|].
  split; [intros Hc; apply H in Hc; discriminate|].
  split; [apply filter_chars_fixed; exact H|].
  split; [apply filter_chars_length | apply filter_chars_fixed].
Qed.

Lemma lstrip_chars (s : string) (c : ascii) :
  In c (PyStr.chars (PyStr.lstrip s)) -> In c (PyStr.chars s).
Proof.
  unfold PyStr.chars. induction s as [|d t IH]; [intros []|].
  cbn [PyStr.lstrip]. destruct (PyStr.isspace d); [|auto].
  intros H. right. exact (IH H).
Qed.

Lemma rstrip_chars (s : string) (c : ascii) :
  In c (PyStr.chars (PyStr.rstrip s)) -> In c (PyStr.chars s).
Proof.
  unfold PyStr.chars. induction s as [|d t IH]; [intros []|].
  cbn [PyStr.rstrip]. destruct (PyStr.rstrip t) as [|e r].
  - destruct (PyStr.isspace d); [intros [] | intros [<-|[]]; left; reflexivity].
  - cbn [list_ascii_of_string In] in *. intros [<-|H]; [left; reflexivity|].
    right. apply IH. exact H.
Qed.

Lemma strip_chars (s : string) (c : ascii) :
  In c (PyStr.chars (PyStr.strip s)) -> In c (PyStr.chars s).
Proof. intros H. apply lstrip_chars, rstrip_chars, H. Qed.

Lemma take_while_chars (keep : ascii -> bool) (s : string) (c : ascii) :
  In c (PyStr.chars (PyStr.take_while keep s)) -> keep c = true.
Proof.
  unfold PyStr.chars. induction s as [|d t IH]; [intros []|].
  cbn [PyStr.take_while]. destruct (keep d) eqn:E; [|intros []].
  cbn [list_ascii_of_string In]. intros [<-|H]; [exact E | exact (IH H)].
Qed.

Lemma take_while_stops (keep : ascii -> bool) (name rest : string) (op : ascii) :
  (forall c, In c (PyStr.chars name) -> keep c = true) ->
  keep op = false ->
  PyStr.take_while keep (name +++ String op rest) = name.
Proof.
  unfold PyStr.chars. induction name as [|d t IH]; intros Hall Hop.
  - cbn. rewrite Hop. reflexivity.
  - cbn [String.append PyStr.take_while].
    rewrite (Hall d (or_introl eq_refl)). f_equal.
    apply IH; [|exact Hop]. intros c Hc. apply Hall. right. exact Hc.
Qed.

Lemma take_while_all (keep : ascii -> bool) (s : string) :
  (forall c, In c (PyStr.chars s) -> keep c = true) ->
  PyStr.take_while keep s = s.
Proof.
  unfold PyStr.chars. induction s as [|d t IH]; intros Hall; [reflexivity|].
  cbn [PyStr.take_while]. rewrite (Hall d (or_introl eq_refl)). f_equal.
  apply IH. intros c Hc. apply Hall. right. exact Hc.
Qed.

(** X4: the bare name of a requirement holds no version operator
    character and is trimmed; it is the trimmed text before the first
    operator character, and the whole trimmed requirement when there
    is none. *)
Theorem bare_name_is_text_before_operator (package_spec : string) :
  (forall c, In c (PyStr.chars (bare_name package_spec)) ->
     PyStr.in_class "<>=!~" c = false)
  /\ PyStr.strip (bare_name package_spec) = bare_name package_spec
  /\ (forall name op rest,
        (forall c, In c (PyStr.chars name) -> PyStr.in_class "<>=!~" c = false) ->
        PyStr.in_class "<>=!~" op = true ->
        package_spec = name +++ String op rest ->
        bare_name package_spec = PyStr.strip name)
  /\ ((forall c, In c (PyStr.chars package_spec) -> PyStr.in_class "<>=!~" c = false) ->
      bare_name package_spec = PyStr.strip package_spec).
Proof.
  unfold bare_name, PyStr.re_split_head. split; [|split; [|split]].
  - intros c Hc. apply strip_chars, take_while_chars in Hc.
    apply negb_true_iff. exact Hc.
  - apply strip_shape.
  - intros name op rest Hname Hop ->. rewrite take_while_stops; [reflexivity | |].
    + intros c Hc. rewrite (Hname c Hc). reflexivity.
    + rewrite Hop. reflexivity.
  - intros Hall. rewrite take_while_all; [reflexivity|].
    intros c Hc. rewrite (Hall c Hc). reflexivity.
Qed.

Lemma filter_line_stable (line p : string) :
  filter_line line = Some p -> filter_line p = Some p.
Proof.
  intros H. destruct (filter_line_shape line p H) as (H1 & H2 & H3 & H4 & H5).
  unfold filter_line. rewrite H2, H1, H3, H5. cbn [orb]. rewrite H1.
  rewrite startswith_dashes, H4. reflexivity.
Qed.

Lemma surviving_fixed (lines : list string) :
  (forall p, In p lines -> filter_line p = Some p) ->
  RequirementSourceSpec.surviving lines = lines.
Proof.
  induction lines as [|l rest IH]; intros H; [reflexivity|].
  rewrite surviving_cons, (H l (or_introl eq_refl)). f_equal.
  apply IH. intros p Hp. apply H. right. exact Hp.
Qed.

(** X5: the filter is idempotent: filtering the specifiers it yielded
    yields them again, unchanged and in the same order. *)
Theorem filtering_twice_changes_nothing (text : string) :
  collect_valid (read_requirements text) [] = read_requirements text.
Proof.
  rewrite collect_valid_surviving. cbn [app]. apply surviving_fixed.
  intros p Hp. unfold read_requirements in Hp.
  rewrite collect_valid_surviving in Hp. cbn [app] in Hp.
  destruct (surviving_from_line _ _ Hp) as (line & _ & Hf).
  exact (filter_line_stable line p Hf).
Qed.

(** ** The pip-invocation helper *)

(** X6: the helper returns true exactly when pip ran and exited with
    code 0; it calls pip at most once, only when the subdirectory could
    be ensured, and with the command built from the subdirectory, the
    strategy flags and the specifier tokens; every other ending of the
    call is reported by its own record (nonzero exit, pip not found,
    other exception); and the duration is appended exactly when pip
    was called, as the difference of the two clock readings. *)
Theorem pip_helper_classification (w : World)
    (package_spec name download_dir : string) (d : AttemptDesc)
    (extra_args : Strategy) (s : State) :
  let r := run_pip_download_deps w package_spec name download_dir d extra_args s in
  let evs := events_of r in
  let subdir := os_path_join w download_dir (PyStr.re_sub_non_name name) in
  let ensured := os_makedirs w (S (now s)) subdir in
  value_of r = negb (count is_clean_pip_exit evs =? 0)
  /\ count is_pip_call evs = (if ensured then 1 else 0)
  /\ Forall (helper_event_on subdir (pip_command subdir extra_args package_spec)) evs
  /\ count is_rejection_record evs = count is_pip_rejection evs
  /\ count is_not_found_record evs = count is_pip_not_found evs
  /\ count is_exception_record evs = count is_pip_exception evs
  /\ count is_subdir_failure evs = (if ensured then 0 else 1)
  /\ pip_call_times (state_of r)
     = pip_call_times s
       ++ (if ensured
           then [(perf_counter w (S (S (S (now s)))) - perf_counter w (now s))%Z]
           else []).
Proof.
  cbv zeta. unfold run_pip_download_deps, pip_command.
  cbv beta delta [bind ret ask emit log append_pip_call_time
                  value_of state_of events_of].
  cbn [fst snd app visible negb now pip_call_times debug_enabled strategy_builds].
  destruct (os_makedirs w (S (now s))
              (os_path_join w download_dir (PyStr.re_sub_non_name name))).
  2:{ cbn. rewrite app_nil_r. repeat split; repeat constructor. }
  cbn [fst snd app visible negb now pip_call_times debug_enabled strategy_builds].
  match goal with
  | |- context [subprocess_run w ?t ?c] =>
      destruct (subprocess_run w t c) as [rc out err| |] eqn:Hrun
  end;
    [destruct (rc =? 0)%Z eqn:Hrc|..];
    cbn [fst snd app visible negb now pip_call_times debug_enabled strategy_builds];
    destruct (debug_enabled s); cbn; rewrite ?Hrc; cbn;
    repeat split; repeat constructor.
Qed.

(** ** The stop-on-first-success policy *)




(** ** Totals of a run *)

(** The driver as [main] calls it: attempts, calls, outcomes, writes. *)
Lemma download_package_with_deps_totals (w : World)
    (package_spec download_dir : string) (p : Progress) (s : State) :
  let r := download_package_with_deps w package_spec download_dir p s in
  let evs := events_of r in
  List.length (pip_call_times (state_of r))
  = List.length (pip_call_times s) + count is_pip_call evs
  /\ count is_attempt evs = total_attempts
  /\ count is_attempt evs = count is_pip_call evs + count is_subdir_failure evs
  /\ count is_attempt evs = count is_attempt_succeeded evs + count is_attempt_failed evs
  /\ count is_file_write evs = (if value_of r then 1 else 0)
  /\ count is_copy_start evs = 0
  /\ value_of r = negb (count is_attempt_succeeded evs =? 0).
Proof.
  cbv zeta. unfold download_package_with_deps.
  rewrite download_package_with_deps_run. cbv zeta.
  pose proof (strategy_loop_accounting w source_policy package_spec download_dir
                (bare_name package_spec) p total_attempts download_strategies
                loop_start (built s)) as Ha.
  pose proof (strategy_loop_coverage w source_policy package_spec download_dir
                (bare_name package_spec) p total_attempts download_strategies
                loop_start (built s)) as Hc.
  pose proof (strategy_loop_first_success w source_policy package_spec download_dir
                (bare_name package_spec) p total_attempts download_strategies
                loop_start (built s) eq_refl) as Hf.
  cbv zeta in Ha, Hc, Hf.
  set (r := strategy_loop w source_policy package_spec download_dir
              (bare_name package_spec) p total_attempts download_strategies
              loop_start (built s)) in *.
  destruct Ha as (A1 & _ & _ & _ & _ & A6 & A7 & _ & A9).
  destruct Hc as [_ Hc]. destruct (Hc (or_introl eq_refl)) as [C1 _].
  cbn [value_of state_of events_of fst snd].
  destruct (closing_record_plain p (bare_name package_spec) (value_of r))
    as ((K1 & K2 & K3 & K6 & K7 & _) & K4 & K5 & _).
  set (fin := [closing_record p (bare_name package_spec) (value_of r)]) in *.
  repeat (rewrite count_cons || rewrite count_app).
  cbn [is_attempt is_attempt_succeeded is_attempt_failed is_pip_call
       is_subdir_failure is_file_write is_copy_start].
  rewrite K1, K2, K3, K4, K5, K6, K7.
  cbn [pip_call_times built loop_start download_success orb] in A1, A9.
  rewrite count_attempts_length, C1 in A6, A7.
  rewrite count_attempts_length, C1. unfold total_attempts.
  split; [lia|]. split; [lia|]. split; [lia|]. split; [lia|].
  assert (Hw : count is_file_write (events_of r)
               = (if download_success (value_of r) then 1 else 0)
               /\ count is_copy_start (events_of r) = 0).
  { destruct Hf as [(N1 & N2 & N3) | Hf].
    - rewrite A9, N1. cbn [Nat.eqb negb]. lia.
    - destruct (acted_on_first_success_counts _ _ _ _ _ _ Hf) as (S1 & S2 & S3 & _).
      rewrite A9. destruct (Nat.eqb_spec (count is_attempt_succeeded (events_of r)) 0);
        [lia|]. cbn [negb COPY_FIRST_SET_TO_PARENT_DIRECTORY source_policy] in *. lia. }
  destruct Hw as [W1 W2]. rewrite W1, W2.
  split; [lia|]. split; [lia|]. rewrite A9. f_equal. f_equal. lia.
Qed.

Lemma selected_nil (flag : bool) (l : list string) : selected flag [] l = [].
Proof. reflexivity. Qed.

(** The loop over the requirements: every requirement is processed
    once and lands in exactly one of the two lists, in order. *)
Lemma process_packages_totals (w : World) (download_dir : string) (total : nat)
    (valid : list string) (c : nat) (succeeded failed : list string) (s : State) :
  let r := process_packages w download_dir total valid c succeeded failed s in
  let evs := events_of r in
  fst (fst (value_of r)) = c + List.length valid
  /\ (exists oks,
         List.length oks = List.length valid
         /\ snd (fst (value_of r)) = succeeded ++ selected true oks valid
         /\ snd (value_of r) = failed ++ selected false oks valid)
  /\ count is_attempt evs = List.length valid * total_attempts
  /\ count is_attempt evs = count is_pip_call evs + count is_subdir_failure evs
  /\ count is_attempt evs = count is_attempt_succeeded evs + count is_attempt_failed evs
  /\ List.length (pip_call_times (state_of r))
     = List.length (pip_call_times s) + count is_pip_call evs
  /\ List.length (snd (fst (value_of r)))
     = List.length succeeded + count is_file_write evs
  /\ count is_copy_start evs = 0.
Proof.
  cbv zeta. revert c succeeded failed s.
  induction valid as [|package_spec rest IH]; intros c succeeded failed s.
  - cbn [process_packages]. unfold ret.
    cbn [value_of state_of events_of fst snd List.length].
    split; [lia|].
    split; [exists []; cbn [selected List.length]; rewrite !app_nil_r; auto|].
    rewrite !count_nil. repeat split; lia.
  - rewrite process_packages_cons. cbv zeta.
    pose proof (download_package_with_deps_totals w package_spec download_dir
                  (S c, total) s) as Hd.
    cbv zeta in Hd.
    set (r1 := download_package_with_deps w package_spec download_dir (S c, total) s)
      in *.
    destruct Hd as (D1 & D2 & D3 & D4 & D5 & D6 & D7).
    destruct (value_of r1) eqn:Hok.
    + destruct (IH (S c) (succeeded ++ [package_spec]) failed (state_of r1))
        as (I1 & (oks & O1 & O2 & O3) & I3 & I4 & I5 & I6 & I7 & I8).
      set (r2 := process_packages w download_dir total rest (S c)
                   (succeeded ++ [package_spec]) failed (state_of r1)) in *.
      cbn [value_of state_of events_of fst snd List.length].
      repeat (rewrite count_cons || rewrite count_app).
      cbn [is_attempt is_attempt_succeeded is_attempt_failed is_pip_call
           is_subdir_failure is_file_write is_copy_start].
      rewrite length_app in I7. cbn [List.length] in I7.
      split; [lia|]. split.
      { exists (true :: oks). cbn [selected List.length Bool.eqb].
        rewrite O1, O2, O3, <- app_assoc. repeat split. }
      repeat split; lia.
    + destruct (IH (S c) succeeded (failed ++ [package_spec]) (state_of r1))
        as (I1 & (oks & O1 & O2 & O3) & I3 & I4 & I5 & I6 & I7 & I8).
      set (r2 := process_packages w download_dir total rest (S c)
                   succeeded (failed ++ [package_spec]) (state_of r1)) in *.
      cbn [value_of state_of events_of fst snd List.length].
      repeat (rewrite count_cons || rewrite count_app).
      cbn [is_attempt is_attempt_succeeded is_attempt_failed is_pip_call
           is_subdir_failure is_file_write is_copy_start].
      split; [lia|]. split.
      { exists (false :: oks). cbn [selected List.length Bool.eqb].
        rewrite O1, O2, O3, <- app_assoc. repeat split. }
      repeat split; lia.
Qed.

Lemma main_unfolded (w : World) (args : Args) (s : State) :
  main w args s
  = if negb (os_path_isfile w (S (now s)) (requirements args)) then
      (1%Z, at_step 2 args s,
       debug_notice args ++ [EvLog ERROR (MsgRequirementsNotFound (requirements args))])
    else if negb (os_makedirs w (S (S (now s))) (dest args)) then
      (1%Z, at_step 3 args s,
       debug_notice args
       ++ [EvMakedirs (dest args) false; EvLog ERROR (MsgBaseFailed (dest args))])
    else
      match open_read w (S (S (S (now s)))) (requirements args) with
      | ReadIOError =>
          (1%Z, at_step 4 args s,
           debug_notice args
           ++ [EvMakedirs (dest args) true;
               EvLog INFO (MsgUsingBase (os_path_abspath w (dest args)));
               EvLog ERROR (MsgReadFailed (requirements args))])
      | ReadRaises =>
          (1%Z, at_step 4 args s,
           debug_notice args
           ++ [EvMakedirs (dest args) true;
               EvLog INFO (MsgUsingBase (os_path_abspath w (dest args)))])
      | ReadOk text =>
          let r := run_packages w (requirements args) (dest args)
                     (perf_counter w (now s)) (read_requirements text)
                     (at_step 4 args s) in
          (value_of r, state_of r,
           debug_notice args
           ++ EvMakedirs (dest args) true
           :: EvLog INFO (MsgUsingBase (os_path_abspath w (dest args)))
           :: events_of r)
      end.
Proof.
  unfold main, debug_notice, at_step.
  cbv beta delta [bind ret ask emit log reset_pip_call_times enable_debug].
  cbv beta iota zeta.
  cbn [now pip_call_times debug_enabled strategy_builds visible].
  destruct (verbose args); cbv beta iota zeta;
    cbn [now pip_call_times debug_enabled strategy_builds visible fst snd app];
    (destruct (os_path_isfile w (S (now s)) (requirements args));
     cbv beta iota zeta;
     cbn [now pip_call_times debug_enabled strategy_builds visible fst snd app negb
          Nat.add];
     [|reflexivity]);
    (destruct (os_makedirs w (S (S (now s))) (dest args));
     cbv beta iota zeta;
     cbn [now pip_call_times debug_enabled strategy_builds visible fst snd app negb
          Nat.add];
     [|reflexivity]);
    (destruct (open_read w (S (S (S (now s)))) (requirements args)) as [text| |];
     cbv beta iota zeta;
     cbn [now pip_call_times debug_enabled strategy_builds visible fst snd app negb
          Nat.add];
     [|reflexivity..]);
    match goal with
    | |- context [run_packages w ?a ?b ?c ?d ?s0] =>
        destruct (run_packages w a b c d s0) as [[v s2] e2]
    end;
    reflexivity.
Qed.

Lemma file_writes_of_warnings (msgs : list Msg) :
  filter is_file_write (map (EvLog WARNING) msgs) = [].
Proof. induction msgs as [|m l IH]; [reflexivity | exact IH]. Qed.

Ltac find_in :=
  repeat match goal with
         | |- In _ (_ :: _) => first [left; reflexivity | right]
         | |- In _ (_ ++ _) => apply in_or_app; right
         end.

Ltac find_in_chunk :=
  repeat match goal with
         | |- In _ (_ :: _) => right
         | |- In _ (_ ++ _) => apply in_or_app; left
         | |- In _ (map _ _) => apply in_map, in_map; assumption
         end.

Ltac only_writes :=
  unfold file_writes;
  repeat (cbn [filter is_file_write app];
          rewrite ?filter_app, ?file_writes_of_warnings);
  reflexivity.

(** The run after the requirement list is read, with what its prologue
    and epilogue hold: the header write, the footer write and the
    records of the summary. *)
Lemma run_packages_report (w : World) (requirements_file download_dir : string)
    (start_time : Z) (valid : list string) (s : State) :
  let n := List.length valid in
  let rp := process_packages w download_dir n valid 0 [] [] (ticked s) in
  let processed := fst (fst (value_of rp)) in
  let succeeded := snd (fst (value_of rp)) in
  let failed := snd (value_of rp) in
  let times := pip_call_times (state_of rp) in
  let r := run_packages w requirements_file download_dir start_time valid s in
  exists pre post,
    value_of r = 0%Z
    /\ events_of r = pre ++ events_of rp ++ post
    /\ pip_call_times (state_of r) = times
    /\ between_attempts pre
    /\ between_attempts post
    /\ file_writes pre
       = [EvFile BAT ModeW (bat_header (os_path_abspath w download_dir))
                 (open_write w (now s) BAT)]
    /\ file_writes post
       = [EvFile BAT ModeA bat_footer (open_write w (now (state_of rp)) BAT)]
    /\ In (EvLog INFO (MsgProcessed processed n requirements_file)) post
    /\ In (EvLog INFO (MsgSucceededCount (List.length succeeded))) post
    /\ (failed <> [] ->
        In (EvLog WARNING (MsgFailedCount (List.length failed))) post)
    /\ (forall f, In f failed -> In (EvLog WARNING (MsgFailedPackage f)) post)
    /\ (failed = [] -> count is_warning post = 0)
    /\ (times = [] -> In (EvLog INFO MsgNoCalls) post)
    /\ (times <> [] ->
        In (EvLog INFO (MsgTotalCalls (List.length times))) post
        /\ In (EvLog INFO (MsgTotalTime (Zsum_list times))) post
        /\ In (EvLog INFO (MsgMinTime (Zmin_list times))) post
        /\ In (EvLog INFO (MsgMaxTime (Zmax_list times))) post).
Proof.
  cbv zeta. unfold run_packages.
  cbv beta delta [bind ret ask emit log write_file get_pip_call_times].
  cbn [visible]. cbv beta iota zeta.
  destruct (List.length valid =? 0);
    (destruct (open_write w (now s) BAT) as [|k1] eqn:Ho1; cbv beta iota zeta;
     [|match goal with |- context [?n <=? k1] => destruct (n <=? k1) end]);
    cbv beta iota zeta; fold (ticked s);
    (destruct (process_packages w download_dir (List.length valid) valid 0 [] []
                 (ticked s)) as [[[[pc sp] fp] s3] e3]);
    cbv beta iota zeta;
    cbn [value_of state_of events_of fst snd];
    (destruct (open_write w (now s3) BAT) as [|k2] eqn:Ho2; cbv beta iota zeta;
     [|match goal with |- context [?n <=? k2] => destruct (n <=? k2) end]);
    cbv beta iota zeta;
    (destruct fp as [|f fr]; [|rewrite log_each_warning]);
    cbv beta iota zeta;
    cbn [fst snd app now pip_call_times debug_enabled strategy_builds];
    destruct (pip_call_times s3) as [|t ts] eqn:Hts;
    cbv beta iota zeta;
    cbn [fst snd app now pip_call_times debug_enabled strategy_builds];
    (first [ eexists [_; _; _; _], _; split; [reflexivity|]; split; [reflexivity|]
           | eexists [_; _; _; _; _], _; split; [reflexivity|]; split; [reflexivity|]
           | eexists [_; _; _; _; _; _], _; split; [reflexivity|];
             split; [reflexivity|] ]);
    (split; [first [reflexivity | exact Hts]|]);
    (split; [solve [between]|]); (split; [solve [between]|]);
    (split; [only_writes|]); (split; [only_writes|]);
    (split; [solve [find_in]|]); (split; [solve [find_in]|]);
    (split; [first [intros H; contradiction H; reflexivity
                   | intros _; solve [find_in]]|]);
    (split; [intros x Hx; first [contradiction | solve [find_in_chunk]]|]);
    (split; [first [intros; reflexivity | intros; discriminate]|]);
    (split; [first [intros _; solve [find_in] | intros; discriminate]|]);
    first [intros H; contradiction H; reflexivity
          | intros _; repeat split; solve [find_in]].
Qed.

(** A run that ends with status 0 read its requirements and went
    through [run_packages]. *)
Lemma main_completed (w : World) (args : Args) (s : State) :
  value_of (main w args s) = 0%Z ->
  exists text,
    open_read w (S (S (S (now s)))) (requirements args) = ReadOk text
    /\ requirements_read w args s = read_requirements text
    /\ let r := run_packages w (requirements args) (dest args)
                  (perf_counter w (now s)) (read_requirements text)
                  (at_step 4 args s) in
       main w args s
       = (value_of r, state_of r,
          debug_notice args
          ++ EvMakedirs (dest args) true
          :: EvLog INFO (MsgUsingBase (os_path_abspath w (dest args)))
          :: events_of r).
Proof.
  unfold requirements_read. rewrite main_unfolded.
  destruct (os_path_isfile w (S (now s)) (requirements args)); [|discriminate].
  destruct (os_makedirs w (S (S (now s))) (dest args)); [|discriminate].
  destruct (open_read w (S (S (S (now s)))) (requirements args)) as [text| |];
    [|discriminate..].
  intros _. exists text. repeat split.
Qed.

Lemma debug_notice_plain (args : Args) :
  between_attempts (debug_notice args)
  /\ file_writes (debug_notice args) = []
  /\ count is_file_write (debug_notice args) = 0.
Proof. unfold debug_notice. destruct (verbose args); repeat split. Qed.


(** A run that ends with status 0 is the loop over the requirements it
    read, between a prologue holding the header write and an epilogue
    holding the footer write and the summary. *)
Lemma main_report (w : World) (args : Args) (s : State) :
  let valid := requirements_read w args s in
  let n := List.length valid in
  let rp := process_packages w (dest args) n valid 0 [] []
              (ticked (at_step 4 args s)) in
  let processed := fst (fst (value_of rp)) in
  let succeeded := snd (fst (value_of rp)) in
  let failed := snd (value_of rp) in
  let times := pip_call_times (state_of rp) in
  let r := main w args s in
  value_of r = 0%Z ->
  exists pre post,
    events_of r = pre ++ events_of rp ++ post
    /\ pip_call_times (state_of r) = times
    /\ between_attempts pre
    /\ between_attempts post
    /\ file_writes pre
       = [EvFile BAT ModeW (bat_header (os_path_abspath w (dest args)))
                 (open_write w (4 + now s) BAT)]
    /\ file_writes post
       = [EvFile BAT ModeA bat_footer (open_write w (now (state_of rp)) BAT)]
    /\ In (EvLog INFO (MsgProcessed processed n (requirements args))) post
    /\ In (EvLog INFO (MsgSucceededCount (List.length succeeded))) post
    /\ (failed <> [] ->
        In (EvLog WARNING (MsgFailedCount (List.length failed))) post)
    /\ (forall f, In f failed -> In (EvLog WARNING (MsgFailedPackage f)) post)
    /\ (failed = [] -> count is_warning post = 0)
    /\ (times = [] -> In (EvLog INFO MsgNoCalls) post)
    /\ (times <> [] ->
        In (EvLog INFO (MsgTotalCalls (List.length times))) post
        /\ In (EvLog INFO (MsgTotalTime (Zsum_list times))) post
        /\ In (EvLog INFO (MsgMinTime (Zmin_list times))) post
        /\ In (EvLog INFO (MsgMaxTime (Zmax_list times))) post).
Proof.
  cbv zeta. intros Hv.
  destruct (main_completed w args s Hv) as (text & _ & Hread & Hmain).
  cbv zeta in Hmain. rewrite Hmain, Hread. clear Hmain Hv.
  destruct (run_packages_report w (requirements args) (dest args)
              (perf_counter w (now s)) (read_requirements text) (at_step 4 args s))
    as (pre & post & R1 & R2 & R3 & R4 & R5 & R6 & R7 & R8).
  cbn [value_of state_of events_of fst snd].
  destruct (debug_notice_plain args) as (D1 & D2 & _).
  exists (debug_notice args
          ++ EvMakedirs (dest args) true
          :: EvLog INFO (MsgUsingBase (os_path_abspath w (dest args))) :: pre),
    post.
  split.
  { rewrite R2, <- app_assoc. reflexivity. }
  split; [exact R3|].
  split.
  { apply between_attempts_app; [exact D1|].
    apply between_attempts_cons; try reflexivity.
    apply between_attempts_cons; try reflexivity. exact R4. }
  split; [exact R5|].
  split.
  { unfold file_writes in *. rewrite filter_app, D2. cbn [filter is_file_write app].
    exact R6. }
  split; [exact R7 | exact R8].
Qed.

(** X8: a run that ends with status 0 makes, for every requirement it
    read, one attempt per strategy: the attempts number requirements x
    strategies, each attempt calls pip or stops at a subdirectory that
    cannot be created, and each is recorded as succeeded or failed. *)
Theorem every_requirement_gets_every_strategy (w : World) (args : Args) (s : State) :
  let r := main w args s in
  let evs := events_of r in
  value_of r = 0%Z ->
  count is_attempt evs
  = List.length (requirements_read w args s) * List.length download_strategies
  /\ count is_attempt evs = count is_pip_call evs + count is_subdir_failure evs
  /\ count is_attempt evs = count is_attempt_succeeded evs + count is_attempt_failed evs.
Proof.
  cbv zeta. intros Hv.
  destruct (main_report w args s Hv) as (pre & post & E & _ & Hpre & Hpost & _).
  rewrite E.
  destruct (process_packages_totals w (dest args)
              (List.length (requirements_read w args s)) (requirements_read w args s)
              0 [] [] (ticked (at_step 4 args s)))
    as (_ & _ & T3 & T4 & T5 & _).
  destruct Hpre as (A1 & A2 & A3 & A4 & A5 & _).
  destruct Hpost as (B1 & B2 & B3 & B4 & B5 & _).
  repeat (rewrite count_app).
  rewrite A1, A2, A3, A4, A5, B1, B2, B3, B4, B5.
  unfold total_attempts in T3.
  split; [lia|]. split; lia.
Qed.

Lemma every_requirement_gets_every_strategy_witness :
  let w := steady_world scenario_requirements pip_rejects true in
  let r := main w default_args initial_state in
  let evs := events_of r in
  value_of r = 0%Z
  /\ (count is_attempt evs
      = List.length (requirements_read w default_args initial_state)
        * List.length download_strategies
      /\ count is_attempt evs = count is_pip_call evs + count is_subdir_failure evs
      /\ count is_attempt evs
         = count is_attempt_succeeded evs + count is_attempt_failed evs).
Proof.
  split; [vm_compute; reflexivity|].
  exact (every_requirement_gets_every_strategy
           (steady_world scenario_requirements pip_rejects true) default_args
           initial_state eq_refl).
Defined.

(** ** The timing statistics *)

Lemma fold_min_bounds (l : list Z) (a : Z) :
  (fold_left Z.min l a <= a)%Z
  /\ (forall x, In x l -> (fold_left Z.min l a <= x)%Z)
  /\ In (fold_left Z.min l a) (a :: l).
Proof.
  revert a. induction l as [|y l IH]; intros a.
  - cbn. split; [lia|]. split; [intros x []| left; reflexivity].
  - cbn [fold_left]. destruct (IH (Z.min a y)) as (I1 & I2 & I3).
    split; [lia|]. split.
    + intros x [<-|Hx]; [lia | auto].
    + destruct I3 as [I3|I3]; [|right; right; exact I3].
      rewrite <- I3. destruct (Z.min_spec a y) as [[_ ->]|[_ ->]];
        [left | right; left]; reflexivity.
Qed.

Lemma fold_max_bounds (l : list Z) (a : Z) :
  (a <= fold_left Z.max l a)%Z
  /\ (forall x, In x l -> (x <= fold_left Z.max l a)%Z)
  /\ In (fold_left Z.max l a) (a :: l).
Proof.
  revert a. induction l as [|y l IH]; intros a.
  - cbn. split; [lia|]. split; [intros x []| left; reflexivity].
  - cbn [fold_left]. destruct (IH (Z.max a y)) as (I1 & I2 & I3).
    split; [lia|]. split.
    + intros x [<-|Hx]; [lia | auto].
    + destruct I3 as [I3|I3]; [|right; right; exact I3].
      rewrite <- I3. destruct (Z.max_spec a y) as [[_ ->]|[_ ->]];
        [right; left | left]; reflexivity.
Qed.

Lemma fold_add_shift (l : list Z) (a : Z) :
  fold_left Z.add l a = (a + fold_left Z.add l 0)%Z.
Proof.
  revert a. induction l as [|y l IH]; intros a; cbn [fold_left]; [lia|].
  rewrite (IH (a + y)%Z), (IH (0 + y)%Z). lia.
Qed.

(** For a non-empty series, the minimum and the maximum are elements
    of the series and bound every element; totals add up. *)
Lemma min_max_sum_of_series (times more : list Z) :
  times <> [] ->
  In (Zmin_list times) times
  /\ In (Zmax_list times) times
  /\ (forall t, In t times -> (Zmin_list times <= t <= Zmax_list times)%Z)
  /\ Zsum_list (times ++ more) = (Zsum_list times + Zsum_list more)%Z.
Proof.
  intros Hne. destruct times as [|a l]; [contradiction|]. clear Hne.
  unfold Zmin_list, Zmax_list, Zsum_list.
  destruct (fold_min_bounds l a) as (M1 & M2 & M3).
  destruct (fold_max_bounds l a) as (N1 & N2 & N3).
  split; [exact M3|]. split; [exact N3|]. split.
  - intros t [<-|Ht]; [lia|]. split; auto.
  - rewrite fold_left_app. apply fold_add_shift.
Qed.

(** X9: in a run that ends with status 0 the series of durations
    holds exactly one entry per pip call of this run, whatever it held
    before; with no call the run reports that none was recorded; with
    calls it reports their number, their total, and a minimum and a
    maximum that bound every recorded duration. *)
Theorem reported_statistics_cover_the_run (w : World) (args : Args) (s : State) :
  let r := main w args s in
  let evs := events_of r in
  let times := pip_call_times (state_of r) in
  value_of r = 0%Z ->
  List.length times = count is_pip_call evs
  /\ (count is_pip_call evs = 0 -> In (EvLog INFO MsgNoCalls) evs)
  /\ (count is_pip_call evs <> 0 ->
      In (EvLog INFO (MsgTotalCalls (count is_pip_call evs))) evs
      /\ In (EvLog INFO (MsgTotalTime (Zsum_list times))) evs
      /\ In (EvLog INFO (MsgMinTime (Zmin_list times))) evs
      /\ In (EvLog INFO (MsgMaxTime (Zmax_list times))) evs
      /\ In (Zmin_list times) times
      /\ In (Zmax_list times) times
      /\ forall t, In t times -> (Zmin_list times <= t <= Zmax_list times)%Z).
Proof.
  cbv zeta. intros Hv.
  destruct (main_report w args s Hv)
    as (pre & post & E & Ht & Hpre & Hpost & _ & _ & _ & _ & _ & _ & _ & N0 & N1).
  destruct (process_packages_totals w (dest args)
              (List.length (requirements_read w args s)) (requirements_read w args s)
              0 [] [] (ticked (at_step 4 args s)))
    as (_ & _ & _ & _ & _ & T6 & _).
  cbn [ticked at_step pip_call_times List.length] in T6.
  destruct Hpre as (_ & _ & _ & A4 & _). destruct Hpost as (_ & _ & _ & B4 & _).
  rewrite E, Ht. repeat rewrite count_app. rewrite A4, B4.
  set (rp := process_packages w (dest args)
               (List.length (requirements_read w args s)) (requirements_read w args s)
               0 [] [] (ticked (at_step 4 args s))) in *.
  set (times := pip_call_times (state_of rp)) in *.
  replace (0 + (count is_pip_call (events_of rp) + 0))
    with (List.length times) by lia.
  assert (Hin : forall e, In e post -> In e (pre ++ events_of rp ++ post)).
  { intros e He. apply in_or_app. right. apply in_or_app. right. exact He. }
  split; [reflexivity|]. split.
  - intros H0. apply Hin, N0. destruct times; [reflexivity | discriminate].
  - intros Hne.
    assert (Hne' : times <> []) by (intros Hnil; rewrite Hnil in Hne; auto).
    destruct (N1 Hne') as (P1 & P2 & P3 & P4).
    destruct (min_max_sum_of_series times [] Hne') as (M1 & M2 & M3 & _).
    repeat split; auto; apply M3; assumption.
Qed.

Lemma reported_statistics_cover_the_run_witness :
  let w := steady_world scenario_requirements pip_rejects true in
  let r := main w default_args initial_state in
  let evs := events_of r in
  let times := pip_call_times (state_of r) in
  value_of r = 0%Z
  /\ (List.length times = count is_pip_call evs
      /\ (count is_pip_call evs = 0 -> In (EvLog INFO MsgNoCalls) evs)
      /\ (count is_pip_call evs <> 0 ->
          In (EvLog INFO (MsgTotalCalls (count is_pip_call evs))) evs
          /\ In (EvLog INFO (MsgTotalTime (Zsum_list times))) evs
          /\ In (EvLog INFO (MsgMinTime (Zmin_list times))) evs
          /\ In (EvLog INFO (MsgMaxTime (Zmax_list times))) evs
          /\ In (Zmin_list times) times
          /\ In (Zmax_list times) times
          /\ forall t, In t times -> (Zmin_list times <= t <= Zmax_list times)%Z)).
Proof.
  split; [vm_compute; reflexivity|].
  exact (reported_statistics_cover_the_run
           (steady_world scenario_requirements pip_rejects true) default_args
           initial_state eq_refl).
Defined.

(** ** The summary and the instruction file *)











(** ** Properties kept along a computation *)

Lemma bind_run {A B} (m : M A) (f : A -> M B) (s : State) :
  bind m f s
  = (value_of (f (value_of (m s)) (state_of (m s))),
     state_of (f (value_of (m s)) (state_of (m s))),
     events_of (m s) ++ events_of (f (value_of (m s)) (state_of (m s)))).
Proof.
  unfold bind, value_of, state_of, events_of.
  destruct (m s) as [[a s1] e1]. cbn [fst snd].
  destruct (f a s1) as [[b s2] e2]. reflexivity.
Qed.

Lemma same_but_debug_refl (s : State) : same_but_debug s s.
Proof. repeat split. Qed.

Lemma debug_blind_ret {A} (a : A) : debug_blind (ret a).
Proof. intros s s' H. repeat split; apply H. Qed.

Lemma debug_blind_bind {A B} (m : M A) (f : A -> M B) :
  debug_blind m -> (forall a, debug_blind (f a)) -> debug_blind (bind m f).
Proof.
  intros Hm Hf s s' Hs. rewrite !bind_run.
  cbn [value_of state_of events_of fst snd].
  destruct (Hm s s' Hs) as (V & S1 & E1). rewrite V.
  destruct (Hf (value_of (m s')) (state_of (m s)) (state_of (m s')) S1)
    as (V2 & S2 & E2).
  split; [exact V2|]. split; [exact S2|].
  unfold without_debug in *. rewrite !filter_app, E1, E2. reflexivity.
Qed.

Lemma debug_blind_ask {A} (q : nat -> A) : debug_blind (ask q).
Proof.
  intros s s' (H1 & H2 & H3). unfold ask, same_but_debug.
  cbn [value_of state_of events_of fst snd now pip_call_times strategy_builds].
  rewrite H1. repeat split; assumption.
Qed.

Lemma debug_blind_emit (e : Event) : debug_blind (emit e).
Proof. intros s s' H. repeat split; apply H. Qed.

Lemma debug_blind_log (lvl : Level) (msg : Msg) : debug_blind (log lvl msg).
Proof.
  intros s s' H. split; [reflexivity|]. split; [exact H|].
  unfold log. cbn [events_of snd].
  destruct lvl, (debug_enabled s), (debug_enabled s'); reflexivity.
Qed.

Lemma debug_blind_append (elapsed : Z) : debug_blind (append_pip_call_time elapsed).
Proof.
  intros s s' (H1 & H2 & H3). unfold append_pip_call_time, same_but_debug.
  cbn [value_of state_of events_of fst snd now pip_call_times strategy_builds].
  rewrite H2. repeat split; assumption.
Qed.

Lemma debug_blind_get : debug_blind get_pip_call_times.
Proof.
  intros s s' H. split; [apply H|]. split; [exact H | reflexivity].
Qed.

Lemma debug_blind_count : debug_blind count_strategy_build.
Proof.
  intros s s' (H1 & H2 & H3). unfold count_strategy_build, same_but_debug.
  cbn [value_of state_of events_of fst snd now pip_call_times strategy_builds].
  rewrite H3. repeat split; assumption.
Qed.

Ltac blind_with tac :=
  repeat first
    [ tac
    | apply debug_blind_ret | apply debug_blind_ask | apply debug_blind_emit
    | apply debug_blind_log | apply debug_blind_append | apply debug_blind_get
    | apply debug_blind_count
    | apply debug_blind_bind; [|intros ?]
    | match goal with
      | |- debug_blind (if ?b then _ else _) => destruct b
      | |- debug_blind (match ?x with _ => _ end) => destruct x
      end ].

Lemma debug_blind_write_file (w : World) (path : string) (mode : Mode)
    (chunks : list string) :
  debug_blind (write_file w path mode chunks).
Proof. unfold write_file. blind_with fail. Qed.

Lemma debug_blind_run_pip (w : World) (package_spec name download_dir : string)
    (d : AttemptDesc) (extra_args : Strategy) :
  debug_blind (run_pip_download_deps w package_spec name download_dir d extra_args).
Proof. unfold run_pip_download_deps. cbv zeta. blind_with fail. Qed.

Lemma debug_blind_copy_items (w : World) (src_dir dst_dir : string)
    (items : list string) :
  debug_blind (copy_items w src_dir dst_dir items).
Proof.
  induction items as [|item rest IH]; cbn [copy_items]; cbv zeta;
    blind_with ltac:(exact IH).
Qed.

Lemma debug_blind_first_success_actions (w : World) (pol : Policy)
    (package_spec download_dir name : string) (p : Progress) :
  debug_blind (first_success_actions w pol package_spec download_dir name p).
Proof.
  unfold first_success_actions. cbv zeta.
  blind_with ltac:(idtac; match goal with
                   | |- debug_blind (write_file _ _ _ _) => apply debug_blind_write_file
                   | |- debug_blind (copy_items _ _ _ _) => apply debug_blind_copy_items
                   end).
Qed.

Lemma debug_blind_strategy_loop (w : World) (pol : Policy)
    (package_spec download_dir name : string) (p : Progress) (total : nat)
    (strategies : list Strategy) (v : LoopVars) :
  debug_blind (strategy_loop w pol package_spec download_dir name p total strategies v).
Proof.
  revert v. induction strategies as [|strategy rest IH]; intros v;
    cbn [strategy_loop]; cbv zeta;
    blind_with ltac:(idtac; match goal with
                     | |- debug_blind (strategy_loop _ _ _ _ _ _ _ _ _) => apply IH
                     | |- debug_blind (run_pip_download_deps _ _ _ _ _ _) =>
                         apply debug_blind_run_pip
                     | |- debug_blind (first_success_actions _ _ _ _ _ _) =>
                         apply debug_blind_first_success_actions
                     end).
Qed.

Lemma debug_blind_download_package (w : World) (pol : Policy)
    (package_spec download_dir : string) (p : Progress) :
  debug_blind (download_package_with_deps_under w pol package_spec download_dir p).
Proof.
  unfold download_package_with_deps_under. cbv zeta.
  blind_with ltac:(idtac; match goal with
                   | |- debug_blind (strategy_loop _ _ _ _ _ _ _ _ _) =>
                       apply debug_blind_strategy_loop
                   end).
Qed.

Lemma debug_blind_process_packages (w : World) (download_dir : string) (total : nat)
    (valid : list string) (c : nat) (succeeded failed : list string) :
  debug_blind (process_packages w download_dir total valid c succeeded failed).
Proof.
  revert c succeeded failed.
  induction valid as [|package_spec rest IH]; intros c succeeded failed;
    cbn [process_packages]; cbv zeta;
    blind_with ltac:(idtac; match goal with
                     | |- debug_blind (process_packages _ _ _ _ _ _ _) => apply IH
                     | |- debug_blind (download_package_with_deps _ _ _ _) =>
                         unfold download_package_with_deps;
                         apply debug_blind_download_package
                     end).
Qed.

Lemma debug_blind_log_each (lvl : Level) (msgs : list Msg) :
  debug_blind (log_each lvl msgs).
Proof.
  induction msgs as [|m rest IH]; cbn [log_each]; blind_with ltac:(exact IH).
Qed.

Lemma debug_blind_run_packages (w : World) (requirements_file download_dir : string)
    (start_time : Z) (valid : list string) :
  debug_blind (run_packages w requirements_file download_dir start_time valid).
Proof.
  unfold run_packages. cbv zeta.
  blind_with ltac:(idtac; match goal with
                   | |- debug_blind (write_file _ _ _ _) => apply debug_blind_write_file
                   | |- debug_blind (process_packages _ _ _ _ _ _ _) =>
                       apply debug_blind_process_packages
                   | |- debug_blind (log_each _ _) => apply debug_blind_log_each
                   end).
Qed.

Section Respecting.

Variable w : World.
Variable I : State -> Prop.
Variable P : Event -> Prop.

Hypothesis I_ticked : forall s, I s -> I (ticked s).
Hypothesis I_built : forall s, I s -> I (built s).
Hypothesis P_log :
  forall s lvl msg, I s -> visible (debug_enabled s) lvl = true -> P (EvLog lvl msg).

Lemma respects_ret {A} (a : A) : respects I P (ret a).
Proof. intros s H. split; [exact H | constructor]. Qed.

Lemma respects_bind {A B} (m : M A) (f : A -> M B) :
  respects I P m -> (forall a, respects I P (f a)) -> respects I P (bind m f).
Proof.
  intros Hm Hf s H. rewrite bind_run. cbn [state_of events_of fst snd].
  destruct (Hm s H) as [H1 E1].
  destruct (Hf (value_of (m s)) (state_of (m s)) H1) as [H2 E2].
  split; [exact H2|]. apply Forall_app. split; assumption.
Qed.

Lemma respects_ask {A} (q : nat -> A) : respects I P (ask q).
Proof. intros s H. split; [exact (I_ticked s H) | constructor]. Qed.

Lemma respects_emit (e : Event) : P e -> respects I P (emit e).
Proof. intros He s H. split; [exact H | repeat constructor; exact He]. Qed.

Lemma respects_log (lvl : Level) (msg : Msg) : respects I P (log lvl msg).
Proof.
  intros s H. split; [exact H|]. unfold log. cbn [events_of snd].
  destruct (visible (debug_enabled s) lvl) eqn:V; repeat constructor.
  exact (P_log s lvl msg H V).
Qed.

Lemma respects_get : respects I P get_pip_call_times.
Proof. intros s H. split; [exact H | constructor]. Qed.

Lemma respects_count : respects I P count_strategy_build.
Proof. intros s H. split; [exact (I_built s H) | constructor]. Qed.

Ltac walk_with tac :=
  repeat first
    [ tac
    | assumption
    | apply respects_ret | apply respects_ask | apply respects_log
    | apply respects_get | apply respects_count
    | apply respects_bind; [|intros ?]
    | match goal with
      | |- respects _ _ (if ?b then _ else _) => destruct b
      | |- respects _ _ (match ?x with _ => _ end) => destruct x
      end ].

Lemma respects_write_file (path : string) (mode : Mode) (chunks : list string) :
  (forall o, P (EvFile path mode chunks o)) ->
  respects I P (write_file w path mode chunks).
Proof.
  intros H. unfold write_file. walk_with fail. apply respects_emit, H.
Qed.

Lemma respects_run_pip (package_spec name download_dir : string) (d : AttemptDesc)
    (extra_args : Strategy) :
  let package_subdir := os_path_join w download_dir (PyStr.re_sub_non_name name) in
  (forall elapsed s, I s -> I (state_of (append_pip_call_time elapsed s))) ->
  (forall made, P (EvMakedirs package_subdir made)) ->
  (forall result, P (EvPip (pip_command package_subdir extra_args package_spec) result)) ->
  respects I P (run_pip_download_deps w package_spec name download_dir d extra_args).
Proof.
  cbv zeta. intros Happ Hmk Hpip. unfold run_pip_download_deps. cbv zeta.
  walk_with ltac:(idtac; match goal with
                  | |- respects _ _ (emit (EvMakedirs _ _)) => apply respects_emit, Hmk
                  | |- respects _ _ (emit (EvPip _ _)) => apply respects_emit, Hpip
                  | |- respects _ _ (append_pip_call_time _) =>
                      intros s0 H0; split; [apply Happ, H0 | constructor]
                  end).
Qed.

Lemma respects_copy_items (src_dir dst_dir : string) (items : list string) :
  (forall item_name ok,
     P (EvCopy (os_path_join w src_dir item_name) (os_path_join w dst_dir item_name) ok)) ->
  respects I P (copy_items w src_dir dst_dir items).
Proof.
  intros H. induction items as [|item rest IH]; cbn [copy_items]; cbv zeta;
    walk_with ltac:(idtac; match goal with
                    | |- respects _ _ (emit _) => apply respects_emit, H
                    end).
Qed.

Lemma respects_first_success_actions (pol : Policy)
    (package_spec download_dir name : string) (p : Progress) :
  (forall o,
     P (EvFile BAT ModeA
          (install_instruction
             (os_path_join w download_dir (PyStr.re_sub_non_name name)) package_spec)
          o)) ->
  (COPY_FIRST_SET_TO_PARENT_DIRECTORY pol = true ->
   forall item_name ok,
     P (EvCopy (os_path_join w (os_path_join w download_dir (PyStr.re_sub_non_name name))
                             item_name)
               (os_path_join w download_dir item_name) ok)) ->
  respects I P (first_success_actions w pol package_spec download_dir name p).
Proof.
  intros Hf Hc. unfold first_success_actions. cbv zeta.
  destruct (COPY_FIRST_SET_TO_PARENT_DIRECTORY pol);
    walk_with ltac:(idtac; match goal with
                    | |- respects _ _ (write_file _ _ _ _) =>
                        apply respects_write_file, Hf
                    | |- respects _ _ (copy_items _ _ _ _) =>
                        apply respects_copy_items, Hc; reflexivity
                    end).
Qed.

Lemma respects_strategy_loop (pol : Policy)
    (package_spec download_dir name : string) (p : Progress) (total : nat)
    (strategies : list Strategy) :
  (forall strategy d,
     In strategy strategies ->
     respects I P
       (run_pip_download_deps w
          (dict_get known_dependencies (PyStr.lower name) package_spec)
          name download_dir d strategy)) ->
  respects I P (first_success_actions w pol package_spec download_dir name p) ->
  forall v,
    respects I P
      (strategy_loop w pol package_spec download_dir name p total strategies v).
Proof.
  intros Hpip Hact.
  induction strategies as [|strategy rest IH]; intros v; [apply respects_ret|].
  assert (IH' := IH (fun st d H => Hpip st d (or_intror H))).
  cbn [strategy_loop]. cbv zeta.
  walk_with ltac:(idtac; match goal with
                  | |- respects _ _ (strategy_loop _ _ _ _ _ _ _ _ _) => apply IH'
                  | |- respects _ _ (run_pip_download_deps _ _ _ _ _ _) =>
                      apply Hpip; left; reflexivity
                  | |- respects _ _ (first_success_actions _ _ _ _ _ _) => exact Hact
                  end).
Qed.

Lemma respects_download_package (pol : Policy)
    (package_spec download_dir : string) (p : Progress) :
  (forall strategy d,
     In strategy download_strategies ->
     respects I P
       (run_pip_download_deps w (spec_for_pip package_spec) (bare_name package_spec)
          download_dir d strategy)) ->
  respects I P
    (first_success_actions w pol package_spec download_dir (bare_name package_spec) p) ->
  respects I P (download_package_with_deps_under w pol package_spec download_dir p).
Proof.
  intros Hpip Hact. unfold download_package_with_deps_under. cbv zeta.
  walk_with ltac:(idtac; match goal with
                  | |- respects _ _ (strategy_loop _ _ _ _ _ _ _ _ _) =>
                      apply respects_strategy_loop; [exact Hpip | exact Hact]
                  end).
Qed.

Lemma respects_process_packages (download_dir : string) (total : nat)
    (valid : list string) :
  (forall r p, In r valid -> respects I P (download_package_with_deps w r download_dir p)) ->
  forall c succeeded failed,
    respects I P (process_packages w download_dir total valid c succeeded failed).
Proof.
  induction valid as [|package_spec rest IH]; intros H c succeeded failed;
    [apply respects_ret|].
  assert (IH' := IH (fun r p Hr => H r p (or_intror Hr))).
  cbn [process_packages]. cbv zeta.
  walk_with ltac:(idtac; match goal with
                  | |- respects _ _ (process_packages _ _ _ _ _ _ _) => apply IH'
                  | |- respects _ _ (download_package_with_deps _ _ _ _) =>
                      apply H; left; reflexivity
                  end).
Qed.

Lemma respects_log_each (lvl : Level) (msgs : list Msg) :
  respects I P (log_each lvl msgs).
Proof.
  induction msgs as [|m rest IH]; cbn [log_each]; walk_with fail.
Qed.

Lemma respects_run_packages (requirements_file download_dir : string)
    (start_time : Z) (valid : list string) :
  (forall mode chunks o, P (EvFile BAT mode chunks o)) ->
  (forall r p, In r valid -> respects I P (download_package_with_deps w r download_dir p)) ->
  respects I P (run_packages w requirements_file download_dir start_time valid).
Proof.
  intros Hf Hd. unfold run_packages. cbv zeta.
  walk_with ltac:(idtac; match goal with
                  | |- respects _ _ (write_file _ _ _ _) =>
                      apply respects_write_file; intros; apply Hf
                  | |- respects _ _ (process_packages _ _ _ _ _ _ _) =>
                      apply respects_process_packages, Hd
                  | |- respects _ _ (log_each _ _) => apply respects_log_each
                  end).
Qed.

End Respecting.

(** ** The verbosity flag *)

Lemma without_debug_fixed (evs : list Event) :
  Forall (fun e => is_debug_record e = false) evs -> without_debug evs = evs.
Proof.
  induction 1 as [|e l He _ IH]; [reflexivity|].
  unfold without_debug in *. cbn [filter]. rewrite He, IH. reflexivity.
Qed.

Ltac quiet_side :=
  try solve [ intros ? H; exact H
            | intros ? ? H; exact H
            | intros; reflexivity
            | intros s lvl msg H V; unfold debug_off in H; rewrite H in V;
              destruct lvl; [discriminate V | reflexivity..] ].

Lemma quiet_download_package (w : World) (pol : Policy)
    (package_spec download_dir : string) (p : Progress) :
  respects debug_off (fun e => is_debug_record e = false)
    (download_package_with_deps_under w pol package_spec download_dir p).
Proof.
  apply respects_download_package; quiet_side.
  - intros strategy d _. apply respects_run_pip; quiet_side.
  - apply respects_first_success_actions; quiet_side.
Qed.

(** With DEBUG records switched off, none is logged. *)
Lemma quiet_run_packages (w : World) (requirements_file download_dir : string)
    (start_time : Z) (valid : list string) :
  respects debug_off (fun e => is_debug_record e = false)
    (run_packages w requirements_file download_dir start_time valid).
Proof.
  apply respects_run_packages; quiet_side.
  intros r p _. unfold download_package_with_deps. apply quiet_download_package.
Qed.

(** X13: the flag [-v] changes nothing but the log: with and without
    it a run ends with the same status, the same recorded durations
    and the same events in the same order, DEBUG records apart; and
    when the logger starts at its default level, the run without the
    flag is the run with it, minus the DEBUG records. *)
Theorem verbose_only_adds_debug_records (w : World) (args : Args) (s : State) :
  let loud := main w (with_verbose true args) s in
  let quiet := main w (with_verbose false args) s in
  value_of loud = value_of quiet
  /\ pip_call_times (state_of loud) = pip_call_times (state_of quiet)
  /\ strategy_builds (state_of loud) = strategy_builds (state_of quiet)
  /\ without_debug (events_of loud) = without_debug (events_of quiet)
  /\ (debug_enabled s = false -> events_of quiet = without_debug (events_of loud)).
Proof.
  cbv zeta. rewrite !main_unfolded.
  unfold debug_notice, with_verbose. cbn [requirements dest verbose].
  destruct (os_path_isfile w (S (now s)) (requirements args)); cbn [negb];
    [|repeat split; reflexivity].
  destruct (os_makedirs w (S (S (now s))) (dest args)); cbn [negb];
    [|repeat split; reflexivity].
  destruct (open_read w (S (S (S (now s)))) (requirements args)) as [text| |];
    [|repeat split; reflexivity..].
  cbv zeta.
  set (A := {| requirements := requirements args; dest := dest args; verbose := true |}).
  set (B := {| requirements := requirements args; dest := dest args; verbose := false |}).
  assert (Hs : same_but_debug (at_step 4 A s) (at_step 4 B s)) by (repeat split).
  destruct (debug_blind_run_packages w (requirements args) (dest args)
              (perf_counter w (now s)) (read_requirements text) _ _ Hs)
    as (V & (_ & S2 & S3) & E).
  cbn [value_of state_of events_of fst snd].
  split; [exact V|]. split; [exact S2|]. split; [exact S3|].
  set (el := events_of (run_packages w (requirements args) (dest args)
                          (perf_counter w (now s)) (read_requirements text)
                          (at_step 4 A s))) in *.
  set (eq := events_of (run_packages w (requirements args) (dest args)
                          (perf_counter w (now s)) (read_requirements text)
                          (at_step 4 B s))) in *.
  assert (Hl : without_debug
                 ([EvLog DEBUG MsgDebugEnabled]
                  ++ EvMakedirs (dest args) true
                  :: EvLog INFO (MsgUsingBase (os_path_abspath w (dest args))) :: el)
               = EvMakedirs (dest args) true
                 :: EvLog INFO (MsgUsingBase (os_path_abspath w (dest args)))
                 :: without_debug el) by reflexivity.
  assert (Hq : without_debug
                 ([] ++ EvMakedirs (dest args) true
                  :: EvLog INFO (MsgUsingBase (os_path_abspath w (dest args))) :: eq)
               = EvMakedirs (dest args) true
                 :: EvLog INFO (MsgUsingBase (os_path_abspath w (dest args)))
                 :: without_debug eq) by reflexivity.
  rewrite Hl, Hq, E. split; [reflexivity|].
  intros Hoff. cbn [app]. do 2 f_equal. symmetry. apply without_debug_fixed.
  apply (quiet_run_packages w (requirements args) (dest args)
           (perf_counter w (now s)) (read_requirements text) (at_step 4 B s)).
  exact Hoff.
Qed.

(** ** What a run touches *)

Lemma effects_download_package (w : World) (download_dir : string)
    (valid : list string) (r : string) (p : Progress) :
  In r valid ->
  respects (fun _ => True) (effect_of_run w download_dir valid)
    (download_package_with_deps w r download_dir p).
Proof.
  intros Hr. unfold download_package_with_deps.
  apply respects_download_package; try solve [intros; exact I].
  - intros strategy d Hs. apply respects_run_pip; try solve [intros; exact I].
    + intros made. right. exists r. split; [exact Hr | reflexivity].
    + intros result. exists r, strategy. repeat split; assumption.
  - apply respects_first_success_actions; try solve [intros; exact I].
    + intros o. reflexivity.
    + intros H. discriminate H.
Qed.

Lemma effects_run_packages (w : World) (requirements_file download_dir : string)
    (start_time : Z) (valid : list string) :
  respects (fun _ => True) (effect_of_run w download_dir valid)
    (run_packages w requirements_file download_dir start_time valid).
Proof.
  apply respects_run_packages; try solve [intros; exact I].
  - intros mode chunks o. reflexivity.
  - intros r p Hr. apply effects_download_package, Hr.
Qed.

(** X14: whatever the environment answers, a run creates no directory
    but the base directory and the subdirectories of the requirements
    it read, writes no file but the batch file, copies nothing, and
    runs no command but [pip download --dest] into the subdirectory of
    a requirement it read, with one of the generated strategies and
    the words of that requirement; for a requirement named pyautogui,
    in any letter case, the words are those of the fixed replacement,
    which drops the version constraint of the requirement. *)
Theorem run_touches_only_its_own_places (w : World) (args : Args) (s : State) :
  Forall (effect_of_run w (dest args) (requirements_read w args s))
         (events_of (main w args s))
  /\ (forall r, PyStr.lower (bare_name r) = "pyautogui" ->
        PyStr.split (spec_for_pip r) = ["pyautogui"; "setuptools"; "wheel"])
  /\ (forall r, PyStr.lower (bare_name r) <> "pyautogui" -> spec_for_pip r = r).
Proof.
  split.
  - rewrite main_unfolded. unfold requirements_read.
    assert (Hd : forall valid, Forall (effect_of_run w (dest args) valid)
                                      (debug_notice args)).
    { intros valid. unfold debug_notice. destruct (verbose args); repeat constructor. }
    destruct (os_path_isfile w (S (now s)) (requirements args)); cbn [negb].
    2:{ cbn [events_of snd]. apply Forall_app. split; [apply Hd|].
        repeat constructor. }
    destruct (os_makedirs w (S (S (now s))) (dest args)); cbn [negb].
    2:{ cbn [events_of snd]. apply Forall_app. split; [apply Hd|].
        repeat constructor. }
    destruct (open_read w (S (S (S (now s)))) (requirements args)) as [text| |].
    + cbv zeta. cbn [events_of snd]. apply Forall_app. split; [apply Hd|].
      constructor; [left; reflexivity|]. constructor; [exact I|].
      apply (effects_run_packages w (requirements args) (dest args)
               (perf_counter w (now s)) (read_requirements text) (at_step 4 args s)).
      exact I.
    + cbn [events_of snd]. apply Forall_app. split; [apply Hd|].
      constructor; [left; reflexivity|]. repeat constructor.
    + cbn [events_of snd]. apply Forall_app. split; [apply Hd|].
      constructor; [left; reflexivity|]. repeat constructor.
  - split; intros r H; unfold spec_for_pip, known_dependencies; cbn [dict_get].
    + rewrite H. reflexivity.
    + destruct (String.eqb_spec "pyautogui" (PyStr.lower (bare_name r))) as [E|E];
        [contradiction H; symmetry; exact E | reflexivity].
Qed.

(** ** Durations *)









(** ** Success and the exit code of pip *)

Lemma clean_exits_are_pip_calls (evs : list Event) :
  count is_pip_call evs = 0 -> count is_clean_pip_exit evs = 0.
Proof.
  induction evs as [|e l IH]; [reflexivity|].
  rewrite !count_cons.
  destruct e; cbn [is_pip_call is_clean_pip_exit]; intros H;
    first [apply IH; exact H | discriminate H].
Qed.

Lemma run_pip_download_deps_clean (w : World)
    (package_spec name download_dir : string) (d : AttemptDesc)
    (extra_args : Strategy) (s : State) :
  let r := run_pip_download_deps w package_spec name download_dir d extra_args s in
  count is_clean_pip_exit (events_of r) = (if value_of r then 1 else 0).
Proof.
  cbv zeta. unfold run_pip_download_deps.
  cbv beta delta [bind ret ask emit log append_pip_call_time
                  value_of state_of events_of].
  cbn [fst snd app visible negb now pip_call_times debug_enabled strategy_builds].
  destruct (os_makedirs w (S (now s))
              (os_path_join w download_dir (PyStr.re_sub_non_name name))).
  2:{ reflexivity. }
  cbn [fst snd app visible negb now pip_call_times debug_enabled strategy_builds].
  match goal with
  | |- context [subprocess_run w ?t ?c] =>
      destruct (subprocess_run w t c) as [rc out err| |] eqn:Hrun
  end;
    [destruct (rc =? 0)%Z eqn:Hrc|..];
    cbn [fst snd app visible negb now pip_call_times debug_enabled strategy_builds];
    destruct (debug_enabled s); cbn; rewrite ?Hrc; reflexivity.
Qed.

(** Along the loop, every success record answers one pip call that
    exited with code 0, and conversely. *)
Lemma strategy_loop_clean_exits (w : World) (pol : Policy)
    (package_spec download_dir name : string) (p : Progress) (total : nat)
    (strategies : list Strategy) (v : LoopVars) (s : State) :
  let r := strategy_loop w pol package_spec download_dir name p total strategies v s in
  count is_attempt_succeeded (events_of r) = count is_clean_pip_exit (events_of r).
Proof.
  cbv zeta. revert v s.
  induction strategies as [|strategy rest IH]; intros v s; [reflexivity|].
  rewrite strategy_loop_cons.
  destruct (negb (download_success v) || DOWNLOAD_ALL_VERSIONS pol); [|apply IH].
  cbv zeta.
  match goal with
  | |- context [run_pip_download_deps w ?a ?b ?c ?d ?e s] =>
      pose proof (run_pip_download_deps_clean w a b c d e s) as Hc;
      pose proof (run_pip_download_deps_post w a b c d e s) as Hp;
      set (r1 := run_pip_download_deps w a b c d e s) in *
  end.
  cbv zeta in Hc, Hp. destruct Hp as ((_ & P2 & _) & _).
  destruct (value_of r1).
  - destruct (one_time_step_post w pol package_spec download_dir name p
                (S (attempt_success_count v)) (state_of r1))
      as ((_ & B2 & _ & B4 & _) & _).
    cbv zeta in B2, B4. apply clean_exits_are_pip_calls in B4.
    set (r2 := (if S (attempt_success_count v) =? 1
                then first_success_actions w pol package_spec download_dir name p
                else ret tt) (state_of r1)) in *.
    destruct (negb (DOWNLOAD_ALL_VERSIONS pol)).
    + cbn [events_of snd].
      repeat (rewrite count_cons || rewrite count_app || rewrite count_nil).
      cbn [is_attempt_succeeded is_clean_pip_exit]. lia.
    + cbn [events_of snd].
      repeat (rewrite count_cons || rewrite count_app || rewrite count_nil).
      cbn [is_attempt_succeeded is_clean_pip_exit].
      rewrite IH. lia.
  - cbn [events_of snd].
    repeat (rewrite count_cons || rewrite count_app || rewrite count_nil).
    cbn [is_attempt_succeeded is_clean_pip_exit].
    rewrite IH. lia.
Qed.

Lemma closing_record_counts (p : Progress) (name : string) (v : LoopVars) :
  is_attempt (closing_record p name v) = false
  /\ is_attempt_succeeded (closing_record p name v) = false
  /\ is_attempt_failed (closing_record p name v) = false
  /\ is_clean_pip_exit (closing_record p name v) = false.
Proof. unfold closing_record. destruct (download_success v); repeat split. Qed.

(** The driver reports success exactly when a pip call exited with
    code 0. *)
Lemma download_package_clean_exits (w : World) (pol : Policy)
    (package_spec download_dir : string) (p : Progress) (s : State) :
  let r := download_package_with_deps_under w pol package_spec download_dir p s in
  value_of r = negb (count is_clean_pip_exit (events_of r) =? 0).
Proof.
  cbv zeta. rewrite download_package_with_deps_run. cbv zeta.
  pose proof (strategy_loop_clean_exits w pol package_spec download_dir
                (bare_name package_spec) p total_attempts download_strategies
                loop_start (built s)) as Hc.
  destruct (strategy_loop_accounting w pol package_spec download_dir
              (bare_name package_spec) p total_attempts download_strategies
              loop_start (built s)) as (_ & _ & _ & _ & _ & _ & _ & _ & A9).
  cbv zeta in Hc, A9.
  set (rl := strategy_loop w pol package_spec download_dir (bare_name package_spec) p
               total_attempts download_strategies loop_start (built s)) in *.
  destruct (closing_record_counts p (bare_name package_spec) (value_of rl))
    as (_ & _ & _ & C4).
  cbn [value_of state_of events_of fst snd].
  repeat (rewrite count_cons || rewrite count_app || rewrite count_nil).
  rewrite C4. cbn [is_clean_pip_exit].
  rewrite A9, Hc. cbn [loop_start download_success orb].
  rewrite Nat.add_0_r. reflexivity.
Qed.


(** The loop over the requirements, cut into one part per requirement:
    each part holds only effects of its requirement, which is counted
    as succeeded exactly when a pip call of the part exited with code
    0. *)
Lemma process_packages_segments (w : World) (download_dir : string) (total : nat)
    (valid : list string) (c : nat) (succeeded failed : list string) (s : State) :
  let r := process_packages w download_dir total valid c succeeded failed s in
  exists oks segments,
    List.length oks = List.length valid
    /\ events_of r = concat segments
    /\ Forall2 backed_by_clean_exit segments oks
    /\ Forall2 (segment_of w download_dir) segments valid
    /\ snd (fst (value_of r)) = succeeded ++ selected true oks valid
    /\ snd (value_of r) = failed ++ selected false oks valid.
Proof.
  cbv zeta. revert c succeeded failed s.
  induction valid as [|package_spec rest IH]; intros c succeeded failed s.
  - exists [], []. cbn [process_packages]. unfold ret.
    cbn [value_of state_of events_of fst snd List.length selected concat].
    rewrite !app_nil_r. repeat split; constructor.
  - rewrite process_packages_cons. cbv zeta.
    pose proof (download_package_clean_exits w source_policy package_spec download_dir
                  (S c, total) s) as Hv.
    destruct (effects_download_package w download_dir [package_spec] package_spec
                (S c, total) (or_introl eq_refl) s I) as [_ He].
    cbv zeta in Hv.
    fold (download_package_with_deps w package_spec download_dir (S c, total) s) in Hv.
    set (r1 := download_package_with_deps w package_spec download_dir (S c, total) s)
      in *.
    assert (Hseg : segment_of w download_dir
                     (events_of r1 ++ [EvLog INFO MsgPackageRule]) package_spec).
    { apply Forall_app. split; [exact He | repeat constructor]. }
    assert (Hok : backed_by_clean_exit (events_of r1 ++ [EvLog INFO MsgPackageRule])
                    (value_of r1)).
    { unfold backed_by_clean_exit. rewrite count_app, count_cons, count_nil.
      cbn [is_clean_pip_exit]. rewrite !Nat.add_0_r. exact Hv. }
    clearbody r1. clear Hv He.
    destruct (value_of r1).
    + destruct (IH (S c) (succeeded ++ [package_spec]) failed (state_of r1))
        as (oks & segs & O1 & O2 & O3 & O4 & O5 & O6).
      exists (true :: oks), ((events_of r1 ++ [EvLog INFO MsgPackageRule]) :: segs).
      cbn [value_of state_of events_of fst snd List.length selected Bool.eqb concat].
      rewrite O2, O5, O6, <- !app_assoc.
      split; [lia|]. split; [reflexivity|].
      split; [constructor; assumption|]. split; [constructor; assumption|].
      split; reflexivity.
    + destruct (IH (S c) succeeded (failed ++ [package_spec]) (state_of r1))
        as (oks & segs & O1 & O2 & O3 & O4 & O5 & O6).
      exists (false :: oks), ((events_of r1 ++ [EvLog INFO MsgPackageRule]) :: segs).
      cbn [value_of state_of events_of fst snd List.length selected Bool.eqb concat].
      rewrite O2, O5, O6, <- !app_assoc.
      split; [lia|]. split; [reflexivity|].
      split; [constructor; assumption|]. split; [constructor; assumption|].
      split; reflexivity.
Qed.

(** X17: in a run that ends with status 0 the trace between the header
    and the footer falls into one part per requirement read, in order;
    a part holds only effects of its own requirement, and the
    requirement is counted as succeeded exactly when a pip call of its
    part exited with code 0; the summary reports the number of those
    requirements and names each of the others as failed. *)
Theorem reported_success_is_backed_by_pip (w : World) (args : Args) (s : State) :
  let r := main w args s in
  let valid := requirements_read w args s in
  value_of r = 0%Z ->
  exists oks segments pre post,
    events_of r = pre ++ concat segments ++ post
    /\ count is_pip_call pre = 0
    /\ count is_pip_call post = 0
    /\ List.length oks = List.length valid
    /\ Forall2 backed_by_clean_exit segments oks
    /\ Forall2 (segment_of w (dest args)) segments valid
    /\ In (EvLog INFO (MsgSucceededCount (List.length (selected true oks valid)))) post
    /\ (forall f, In f (selected false oks valid) ->
          In (EvLog WARNING (MsgFailedPackage f)) post).
Proof.
  cbv zeta. intros Hv.
  destruct (main_report w args s Hv)
    as (pre & post & E & _ & Hpre & Hpost & _ & _ & _ & S2 & _ & S4 & _).
  destruct (process_packages_segments w (dest args)
              (List.length (requirements_read w args s)) (requirements_read w args s)
              0 [] [] (ticked (at_step 4 args s)))
    as (oks & segs & O1 & O2 & O3 & O4 & O5 & O6).
  rewrite O5 in S2. rewrite O6 in S4. cbn [app] in S2, S4.
  exists oks, segs, pre, post.
  destruct Hpre as (_ & _ & _ & A4 & _). destruct Hpost as (_ & _ & _ & B4 & _).
  rewrite E, O2. repeat split; assumption.
Qed.

Lemma reported_success_is_backed_by_pip_witness :
  let w := steady_world scenario_requirements pip_ok true in
  let r := main w default_args initial_state in
  let valid := requirements_read w default_args initial_state in
  value_of r = 0%Z
  /\ exists oks segments pre post,
       events_of r = pre ++ concat segments ++ post
       /\ count is_pip_call pre = 0
       /\ count is_pip_call post = 0
       /\ List.length oks = List.length valid
       /\ Forall2 backed_by_clean_exit segments oks
       /\ Forall2 (segment_of w (dest default_args)) segments valid
       /\ In (EvLog INFO (MsgSucceededCount (List.length (selected true oks valid))))
             post
       /\ (forall f, In f (selected false oks valid) ->
             In (EvLog WARNING (MsgFailedPackage f)) post).
Proof.
  split; [vm_compute; reflexivity|].
  exact (reported_success_is_backed_by_pip
           (steady_world scenario_requirements pip_ok true) default_args
           initial_state eq_refl).
Defined.

(** ** Failures and their records *)

Lemma write_file_run (w : World) (path : string) (mode : Mode)
    (chunks : list string) (s : State) :
  write_file w path mode chunks s
  = (match open_write w (now s) path with
     | OpenFails => false
     | WritesUntil k => List.length chunks <=? k
     end,
     ticked s,
     [EvFile path mode chunks (open_write w (now s) path)]).
Proof. reflexivity. Qed.

Lemma reported_ret {A} (a : A) : reports_its_failures (ret a).
Proof. intros kind s. reflexivity. Qed.

Lemma reported_bind {A B} (m : M A) (f : A -> M B) :
  reports_its_failures m -> (forall a, reports_its_failures (f a)) ->
  reports_its_failures (bind m f).
Proof.
  intros Hm Hf kind s. rewrite bind_run. cbn [events_of snd].
  rewrite !count_app, Hm, Hf. reflexivity.
Qed.

Lemma reported_ask {A} (q : nat -> A) : reports_its_failures (ask q).
Proof. intros kind s. reflexivity. Qed.

Lemma reported_get : reports_its_failures get_pip_call_times.
Proof. intros kind s. reflexivity. Qed.

Lemma reported_count : reports_its_failures count_strategy_build.
Proof. intros kind s. reflexivity. Qed.

Lemma reported_log (lvl : Level) (msg : Msg) :
  (forall kind, fails kind (EvLog lvl msg) = reports kind (EvLog lvl msg)) ->
  reports_its_failures (log lvl msg).
Proof.
  intros H kind s. unfold log. cbn [events_of snd].
  destruct (visible (debug_enabled s) lvl); [|reflexivity].
  rewrite !count_cons, H. reflexivity.
Qed.

Lemma reported_emit (e : Event) :
  (forall kind, fails kind e = reports kind e) -> reports_its_failures (emit e).
Proof.
  intros H kind s. unfold emit. cbn [events_of snd].
  rewrite !count_cons, H. reflexivity.
Qed.

(** A write block followed by its error handler. *)
Lemma reported_write {A} (w : World) (path : string) (mode : Mode)
    (chunks : list string) (msg : Msg) (rest : bool -> unit -> M A) :
  is_write_error (EvLog ERROR msg) = true ->
  is_makedirs_error (EvLog ERROR msg) = false ->
  is_not_found_record (EvLog ERROR msg) = false ->
  is_exception_record (EvLog ERROR msg) = false ->
  (forall b u, reports_its_failures (rest b u)) ->
  reports_its_failures
    (bind (write_file w path mode chunks)
          (fun written =>
             bind (if written then ret tt else log ERROR msg)
                  (fun u => rest written u))).
Proof.
  intros M1 M2 M3 M4 Hr kind s.
  rewrite bind_run, write_file_run. cbn [value_of state_of events_of fst snd].
  rewrite bind_run. cbn [events_of snd app].
  rewrite !count_cons, !count_app, Hr.
  destruct (open_write w (now s) path) as [|k];
    [|destruct (List.length chunks <=? k) eqn:Hk];
    unfold ret, log; cbn [events_of snd visible];
    rewrite ?count_cons, ?count_nil;
    destruct kind; cbn [fails reports is_failed_write is_failed_makedirs
                        is_pip_rejection is_pip_not_found is_pip_exception
                        is_rejection_record];
    rewrite ?Hk, ?M1, ?M2, ?M3, ?M4; reflexivity.
Qed.

Lemma reported_run_pip (w : World) (package_spec name download_dir : string)
    (d : AttemptDesc) (extra_args : Strategy) :
  reports_its_failures
    (run_pip_download_deps w package_spec name download_dir d extra_args).
Proof.
  intros kind s. unfold run_pip_download_deps.
  cbv beta delta [bind ret ask emit log append_pip_call_time
                  value_of state_of events_of].
  cbn [fst snd app visible negb now pip_call_times debug_enabled strategy_builds].
  destruct (os_makedirs w (S (now s))
              (os_path_join w download_dir (PyStr.re_sub_non_name name))).
  2:{ destruct kind; reflexivity. }
  cbn [fst snd app visible negb now pip_call_times debug_enabled strategy_builds].
  match goal with
  | |- context [subprocess_run w ?t ?c] =>
      destruct (subprocess_run w t c) as [rc out err| |] eqn:Hrun
  end;
    [destruct (rc =? 0)%Z eqn:Hrc|..];
    cbn [fst snd app visible negb now pip_call_times debug_enabled strategy_builds];
    destruct (debug_enabled s); destruct kind; cbn; rewrite ?Hrc; reflexivity.
Qed.

Ltac plain_event := intros kind; destruct kind; reflexivity.

Ltac reported_with tac :=
  repeat first
    [ tac
    | apply reported_ret | apply reported_ask | apply reported_get
    | apply reported_count
    | apply reported_log; plain_event
    | apply reported_emit; plain_event
    | apply reported_write; [reflexivity..|intros ? ?]
    | apply reported_bind; [|intros ?]
    | match goal with
      | |- reports_its_failures (if ?b then _ else _) => destruct b
      | |- reports_its_failures (match ?x with _ => _ end) => destruct x
      end ].

Lemma reported_copy_items (w : World) (src_dir dst_dir : string)
    (items : list string) :
  reports_its_failures (copy_items w src_dir dst_dir items).
Proof.
  induction items as [|item rest IH]; cbn [copy_items]; cbv zeta;
    reported_with ltac:(exact IH).
Qed.

Lemma reported_first_success_actions (w : World) (pol : Policy)
    (package_spec download_dir name : string) (p : Progress) :
  reports_its_failures (first_success_actions w pol package_spec download_dir name p).
Proof.
  unfold first_success_actions. cbv zeta.
  reported_with ltac:(idtac; match goal with
                      | |- reports_its_failures (copy_items _ _ _ _) =>
                          apply reported_copy_items
                      end).
Qed.

Lemma reported_strategy_loop (w : World) (pol : Policy)
    (package_spec download_dir name : string) (p : Progress) (total : nat)
    (strategies : list Strategy) (v : LoopVars) :
  reports_its_failures
    (strategy_loop w pol package_spec download_dir name p total strategies v).
Proof.
  revert v. induction strategies as [|strategy rest IH]; intros v;
    cbn [strategy_loop]; cbv zeta;
    reported_with ltac:(idtac; match goal with
                        | |- reports_its_failures (strategy_loop _ _ _ _ _ _ _ _ _) =>
                            apply IH
                        | |- reports_its_failures (run_pip_download_deps _ _ _ _ _ _) =>
                            apply reported_run_pip
                        | |- reports_its_failures (first_success_actions _ _ _ _ _ _) =>
                            apply reported_first_success_actions
                        end).
Qed.

Lemma reported_download_package (w : World) (pol : Policy)
    (package_spec download_dir : string) (p : Progress) :
  reports_its_failures
    (download_package_with_deps_under w pol package_spec download_dir p).
Proof.
  unfold download_package_with_deps_under. cbv zeta.
  reported_with ltac:(idtac; match goal with
                      | |- reports_its_failures (strategy_loop _ _ _ _ _ _ _ _ _) =>
                          apply reported_strategy_loop
                      end).
Qed.

Lemma reported_process_packages (w : World) (download_dir : string) (total : nat)
    (valid : list string) (c : nat) (succeeded failed : list string) :
  reports_its_failures
    (process_packages w download_dir total valid c succeeded failed).
Proof.
  revert c succeeded failed.
  induction valid as [|package_spec rest IH]; intros c succeeded failed;
    cbn [process_packages]; cbv zeta;
    reported_with ltac:(idtac; match goal with
                        | |- reports_its_failures (process_packages _ _ _ _ _ _ _) =>
                            apply IH
                        | |- reports_its_failures (download_package_with_deps _ _ _ _) =>
                            unfold download_package_with_deps;
                            apply reported_download_package
                        end).
Qed.

Lemma reported_log_each (msgs : list string) :
  reports_its_failures (log_each WARNING (map MsgFailedPackage msgs)).
Proof.
  induction msgs as [|m rest IH]; cbn [log_each map]; reported_with ltac:(exact IH).
Qed.

Lemma reported_run_packages (w : World) (requirements_file download_dir : string)
    (start_time : Z) (valid : list string) :
  reports_its_failures
    (run_packages w requirements_file download_dir start_time valid).
Proof.
  unfold run_packages. cbv zeta.
  reported_with ltac:(idtac; match goal with
                      | |- reports_its_failures (process_packages _ _ _ _ _ _ _) =>
                          apply reported_process_packages
                      | |- reports_its_failures (log_each _ _) => apply reported_log_each
                      end).
Qed.

(** X18: no failure of an interaction goes unreported and no failure
    is reported that did not happen: in every run, the write blocks
    that an I/O error cut short are as many as the records of a failed
    write, the directories that could not be created as many as the
    records of it, and the pip calls that exited with a nonzero code,
    that did not find pip, or that raised another exception, as many
    as the records of each of these endings. *)
Theorem every_failure_is_reported_once (w : World) (args : Args) (s : State)
    (kind : Failure) :
  let evs := events_of (main w args s) in
  count (fails kind) evs = count (reports kind) evs.
Proof.
  cbv zeta. rewrite main_unfolded.
  assert (Hd : count (fails kind) (debug_notice args)
               = count (reports kind) (debug_notice args)).
  { unfold debug_notice. destruct (verbose args), kind; reflexivity. }
  destruct (os_path_isfile w (S (now s)) (requirements args)); cbn [negb].
  2:{ cbn [events_of snd]. rewrite !count_app, Hd. destruct kind; reflexivity. }
  destruct (os_makedirs w (S (S (now s))) (dest args)); cbn [negb].
  2:{ cbn [events_of snd]. rewrite !count_app, Hd. destruct kind; reflexivity. }
  destruct (open_read w (S (S (S (now s)))) (requirements args)) as [text| |].
  - cbv zeta. cbn [events_of snd].
    rewrite !count_app, !count_cons, Hd.
    rewrite (reported_run_packages w (requirements args) (dest args)
               (perf_counter w (now s)) (read_requirements text) kind
               (at_step 4 args s)).
    destruct kind; reflexivity.
  - cbn [events_of snd]. rewrite !count_app, Hd. destruct kind; reflexivity.
  - cbn [events_of snd]. rewrite !count_app, Hd. destruct kind; reflexivity.
Qed.

(** ** The promotion copy *)





